(** * The training-loop driver of DSVT

    A shallow embedding of [tools/train_utils/train_utils.py]: the epoch
    driver [train_one_epoch], the run driver [train_model] and the
    checkpoint functions [model_state_to_cpu], [checkpoint_state] and
    [save_checkpoint].

    Python integers are [Z] ([%] is [Z.modulo], which like Python's takes the
    sign of the divisor), Python floats are exact rationals [Q], dicts are
    insertion-ordered association lists, and the effects of the drivers
    (console, logger, progress bars, run tracker, checkpoint directory,
    iterator objects) are threaded through a state-and-exception monad over
    an explicit [World]. *)

From Stdlib Require Import ZArith QArith Qround List String Ascii Bool Lia DecimalString.
From Stdlib Require Import Sorting.Permutation Sorting.Sorted.
From Stdlib Require DecimalPos DecimalZ.
From stdpp Require Import list.
Import ListNotations.
Open Scope Z_scope.

(** ** Python values *)

(** The exceptions the drivers can meet. [StepError] stands for whatever a
    collaborator (the training-step function, the optimizer) raises;
    [DanglingIterator] has no Python counterpart (a name always refers to a
    live iterator object) and only makes the store lookup total. *)
Inductive Exn :=
| StopIteration
| ZeroDivisionError
| IndexError
| AssertionError
| AttributeError
| FileNotFoundError
| StepError
| DanglingIterator.

Inductive Result (A : Type) :=
| Ok (a : A)
| Raise (e : Exn).
Arguments Ok {A} a.
Arguments Raise {A} e.


(** Insertion-ordered dicts with string keys. *)
Definition dict (V : Type) := list (string * V).

Fixpoint dict_get {V} (k : string) (d : dict V) : option V :=
  match d with
  | [] => None
  | (k', v) :: d' => if String.eqb k k' then Some v else dict_get k d'
  end.

Definition dict_has {V} (k : string) (d : dict V) : bool :=
  match dict_get k d with Some _ => true | None => false end.

(** [d[k] = v]: an existing key keeps its position, a new key goes last. *)
Fixpoint dict_set {V} (k : string) (v : V) (d : dict V) : dict V :=
  match d with
  | [] => [(k, v)]
  | (k', v') :: d' =>
      if String.eqb k k' then (k', v) :: d' else (k', v') :: dict_set k v d'
  end.

(** [d.update(u)] *)
Definition dict_update {V} (d u : dict V) : dict V :=
  fold_left (fun acc kv => dict_set (fst kv) (snd kv) acc) u d.

(** Python's [max(a, b)] on numbers: [b] only when [b > a]. *)
Definition py_max (a b : Q) : Q := if Qle_bool b a then a else b.

(** ['%d' % z] *)
Definition fmt_d (z : Z) : string := NilZero.string_of_int (Z.to_int z).

(** [a >= b] on [str]: lexicographic on code points. *)
Definition str_ge (a b : string) : bool :=
  match String.compare a b with Lt => false | _ => true end.

(** ** Library versions *)

(** A [packaging.version.Version], as far as its ordering reads it: the
    epoch, the release numbers, and the pre-release, post-release,
    development and local parts when it has them. *)
Record Version := {
  v_epoch : N;
  v_release : list N;
  v_pre : option (string * N);
  v_post : option N;
  v_dev : option N;
  v_local : option string
}.

(** [torch.__version__]. Up to the library 1.9 it is a [str]; from 1.10 on
    it is a [TorchVersion], a [str] that compares as the [Version] read from
    its text and falls back on the comparison of [str] when the text is not
    a valid version ([None]). The reading itself is [packaging]'s. *)
Inductive VersionObject :=
| Str (s : string)
| TorchVersion (s : string) (version : option Version).

Definition is_digit (c : ascii) : bool :=
  let n := N_of_ascii c in ((48 <=? n) && (n <=? 57))%N.

(** The release numbers of a text of the form [N(.N)*], as ['1.4'] is. *)
Fixpoint parse_release_from (s : string) (cur : option N) (done : list N)
    : option (list N) :=
  match s with
  | EmptyString =>
      match cur with
      | Some n => Some (rev (n :: done))
      | None => None
      end
  | String c s' =>
      if is_digit c then
        let d := (N_of_ascii c - 48)%N in
        parse_release_from s' (Some (10 * match cur with Some n => n | None => 0 end + d)%N)
                           done
      else if Ascii.eqb c "." then
        match cur with
        | Some n => parse_release_from s' None (n :: done)
        | None => None
        end
      else None
  end.

Definition parse_release (s : string) : option (list N) := parse_release_from s None [].

(** Release numbers without their trailing zeros, as the ordering of
    versions takes them. *)
Fixpoint drop_zeros (l : list N) : list N :=
  match l with
  | 0%N :: l' => drop_zeros l'
  | _ => l
  end.

Definition strip_zeros (release : list N) : list N := rev (drop_zeros (rev release)).

(** The ordering of tuples of numbers. *)
Fixpoint release_compare (a b : list N) : comparison :=
  match a, b with
  | [], [] => Eq
  | [], _ :: _ => Lt
  | _ :: _, [] => Gt
  | x :: a', y :: b' =>
      match N.compare x y with
      | Eq => release_compare a' b'
      | c => c
      end
  end.

(** [Version(v) >= Version(other)] for an [other] that is a plain release:
    the epochs decide, then the release numbers; on equal releases a
    pre-release or a development release comes before the release itself,
    and a post-release or a local version after it. *)
Definition version_ge_release (v : Version) (other : list N) : bool :=
  match N.compare (v_epoch v) 0 with
  | Gt => true
  | Lt => false
  | Eq =>
      match release_compare (strip_zeros (v_release v)) (strip_zeros other) with
      | Gt => true
      | Lt => false
      | Eq =>
          match v_pre v, v_post v, v_dev v with
          | Some _, _, _ => false
          | None, None, Some _ => false
          | None, _, _ => true
          end
      end
  end.

(** [v >= other] for [torch.__version__] and a text [other] that is a
    plain release. *)
Definition version_ge (v : VersionObject) (other : string) : bool :=
  match v with
  | Str s => str_ge s other
  | TorchVersion s (Some version) =>
      match parse_release other with
      | Some release => version_ge_release version release
      | None => str_ge s other
      end
  | TorchVersion s None => str_ge s other
  end.

(** ** Path patterns *)

(** [glob.has_magic] *)
Definition is_magic (c : ascii) : bool :=
  Ascii.eqb c "*" || Ascii.eqb c "?" || Ascii.eqb c "[".

Definition has_magic (s : string) : bool := existsb is_magic (list_ascii_of_string s).

(** A pattern of [fnmatch], item by item. *)
Inductive Glob :=
| GStar
| GAny
| GSet (negated : bool) (body : list ascii)
| GChar (c : ascii).

(** The body of a set up to the bracket that closes it, and what follows. *)
Fixpoint find_close (s : list ascii) : option (list ascii * list ascii) :=
  match s with
  | [] => None
  | c :: s' =>
      if Ascii.eqb c "]" then Some ([], s')
      else match find_close s' with
           | Some (body, rest) => Some (c :: body, rest)
           | None => None
           end
  end.

(** [fnmatch.translate]: [*] and [?], and [[seq]] or [[!seq]], where a
    bracket right after the opening belongs to the set and an opening
    bracket that nothing closes stands for itself. *)
Fixpoint translate (fuel : nat) (pat : list ascii) : list Glob :=
  match fuel with
  | O => []
  | S fuel' =>
      match pat with
      | [] => []
      | c :: pat' =>
          if Ascii.eqb c "*" then GStar :: translate fuel' pat'
          else if Ascii.eqb c "?" then GAny :: translate fuel' pat'
          else if Ascii.eqb c "[" then
            let (negated, body0) :=
              match pat' with
              | d :: r => if Ascii.eqb d "!" then (true, r) else (false, pat')
              | [] => (false, pat')
              end in
            let (lead, body1) :=
              match body0 with
              | d :: r => if Ascii.eqb d "]" then ([d], r) else ([], body0)
              | [] => ([], body0)
              end in
            match find_close body1 with
            | None => GChar c :: translate fuel' pat'
            | Some (body, rest) => GSet negated (lead ++ body) :: translate fuel' rest
            end
          else GChar c :: translate fuel' pat'
      end
  end.

(** Whether a character is in the body of a set: [lo-hi] is a range of
    code points, anything else stands for itself. *)
Fixpoint set_has (body : list ascii) (c : ascii) : bool :=
  match body with
  | [] => false
  | lo :: body' =>
      match body' with
      | dash :: hi :: rest =>
          if Ascii.eqb dash "-"
          then ((N_of_ascii lo <=? N_of_ascii c)%N && (N_of_ascii c <=? N_of_ascii hi)%N)
               || set_has rest c
          else Ascii.eqb lo c || set_has body' c
      | _ => Ascii.eqb lo c || set_has body' c
      end
  end.

Fixpoint glob_match (p : list Glob) (s : list ascii) : bool :=
  match p with
  | [] => match s with [] => true | _ :: _ => false end
  | GStar :: p' =>
      (fix star (s : list ascii) : bool :=
         glob_match p' s || match s with [] => false | _ :: s' => star s' end) s
  | GAny :: p' =>
      match s with
      | [] => false
      | _ :: s' => glob_match p' s'
      end
  | GSet negated body :: p' =>
      match s with
      | [] => false
      | c :: s' => xorb negated (set_has body c) && glob_match p' s'
      end
  | GChar c :: p' =>
      match s with
      | [] => false
      | d :: s' => Ascii.eqb c d && glob_match p' s'
      end
  end.

(** [fnmatch.fnmatchcase(name, pat)] *)
Definition fnmatch (name pat : string) : bool :=
  let p := list_ascii_of_string pat in
  glob_match (translate (S (List.length p)) p) (list_ascii_of_string name).

(** The components of a path. *)
Fixpoint split_path (s : string) (cur : string) : list string :=
  match s with
  | EmptyString => [cur]
  | String c s' =>
      if Ascii.eqb c "/" then cur :: split_path s' EmptyString
      else split_path s' (append cur (String c EmptyString))
  end.

(** Whether [glob] finds the directory [dir] when it is given the path of
    [dir] as a pattern: each component with a magic character is matched
    as a pattern against the name it stands for, the others are taken as
    they are. *)
Definition glob_finds (dir : string) : bool :=
  forallb (fun c => if has_magic c then fnmatch c c else true) (split_path dir EmptyString).

Definition ends_with (suf s : string) : bool :=
  let n := String.length s in
  let m := String.length suf in
  (m <=? n)%nat && String.eqb (substring (n - m) m s) suf.

Definition drop_prefix (n : nat) (s : string) : string :=
  substring n (String.length s - n) s.

(** ** Tensors, modules and optimizers *)

Inductive Device :=
| CPU
| CUDA (index : nat).

Record Tensor := { t_device : Device; t_data : list Q }.

(** [val.cpu()] *)
Definition cpu (t : Tensor) : Tensor := {| t_device := CPU; t_data := t_data t |}.

Definition on_host (t : Tensor) : bool :=
  match t_device t with CPU => true | CUDA _ => false end.

(** A [state_dict()] is an ordered dict of tensors. *)
Definition StateDict := dict Tensor.

Record Module := { state_dict : StateDict }.

(** A model is a module or a [torch.nn.parallel.DistributedDataParallel]
    wrapper around one, whose [module] attribute is the wrapped module. *)
Inductive Model :=
| Bare (m : Module)
| DistributedDataParallel (module : Module).

Record Optimizer := {
  opt_state_dict : StateDict;
  opt_lr : option Q;           (* the [lr] attribute, when there is one *)
  opt_param_group_lr : Q       (* [param_groups[0]['lr']] *)
}.

Record Checkpoint := {
  ck_epoch : Z;
  ck_it : Z;
  ck_model_state : option StateDict;
  ck_optimizer_state : option StateDict;
  ck_version : string
}.

(** ** Rolling statistics *)

Module AverageMeter.

(** Modelled from the spec: [common_utils.AverageMeter] of [pcdet.utils] is
    not among the sources. The spec describes it as an accumulator tracking
    the latest value and the running average over a window, reset on a
    cadence: the usual class with the attributes below, [reset()] and
    [update(val, n=1)]. *)
Record t := { val : Q; avg : Q; sum : Q; count : Z }.

(** Modelled from the spec: [reset()] of the absent [AverageMeter] empties
    the window. *)
Definition reset : t := {| val := 0; avg := 0; sum := 0; count := 0 |}.

(** Modelled from the spec: [update(val)] of the absent [AverageMeter]
    records the latest value and recomputes the running average. *)
Definition update (v : Q) (m : t) : t :=
  let s := (sum m + v * 1)%Q in
  let c := count m + 1 in
  {| val := v; sum := s; count := c; avg := (s / inject_Z c)%Q |}.

(** The meter a fresh one becomes after the updates [vs], oldest first. *)
Definition of_list (vs : list Q) : t := fold_left (fun m v => update v m) vs reset.

End AverageMeter.

(** The arithmetic mean of a list of values. *)
Definition Qsum (vs : list Q) : Q := fold_right Qplus 0%Q vs.
Definition mean (vs : list Q) : Q := (Qsum vs / inject_Z (Z.of_nat (List.length vs)))%Q.

(** ** Configuration *)

Record OptimCfg := {
  WARMUP_EPOCH : Z;
  GRAD_NORM_CLIP : Q;
  LOSS_SCALE_FP16 : option Q
}.

Record DisableAugmentationHookCfg := {
  NUM_LAST_EPOCHS : Z;
  DISABLE_AUG_LIST : list string
}.

Record HookCfg := { DisableAugmentationHook : option DisableAugmentationHookCfg }.

(** [cfg], as far as the run driver reads it. *)
Record Cfg := { HOOK : option HookCfg }.

(** The learning-rate schedules of a run: the main one and the warmup one. *)
Inductive Scheduler :=
| lr_scheduler
| lr_warmup_scheduler.

(** The [data_augmentor] attribute of the dataset: the one the dataset was
    built with, or one built later by [DataAugmentor(...)] from a
    configuration whose [DISABLE_AUG_LIST] is the given list. *)
Inductive Augmentor :=
| InitialAugmentor
| DataAugmentor (disable_aug_list : list string).

(** ** What an iteration shows *)

(** A value of [disp_dict]: a number, a number formatted with a fixed number
    of decimals, a [val(avg)] pair of such, or text. *)
Inductive DispVal :=
| DNum (q : Q)
| DFixed (decimals : nat) (q : Q)
| DValAvg (decimals : nat) (v a : Q)
| DStr (s : string).

(** What [model_func(model, batch)] and the optimizer step give back:
    the loss, [tb_dict], [disp_dict] and the clipped gradient norm. *)
Record StepOut := {
  so_loss : Q;
  so_tb_dict : dict Q;
  so_disp_dict : dict DispVal;
  so_total_norm : Q
}.

(** The status line of the verbose logger, field by field and before the
    times are rendered by [format_interval]. *)
Record StatusLine := {
  sl_cur_epoch : Z;
  sl_total_epochs : Z;
  sl_acc_iter : Z;
  sl_cur_it : Z;
  sl_total_it_each_epoch : Z;
  sl_batch_size : option Z;
  sl_trained_time_each_epoch : Q;
  sl_remaining_second_each_epoch : Q;
  sl_trained_time_past_all : Q;
  sl_remaining_second_all : Q;
  sl_disp : dict DispVal
}.

(** The calls of [logger.info]. *)
Inductive LogLine :=
| Status (s : StatusLine)
| GpuStat
| SaveLatest (ckpt_name : string)
| DisableAugmentations (l : list string).

(** The places where the wall clock is read: [time.time()], the [elapsed]
    entry of a progress bar's [format_dict], and the modification time a
    written file gets. *)
Inductive Site :=
| TbarCreated        (* line 197 *)
| PbarCreated        (* line 33 *)
| EndBeforeLoop      (* line 51 *)
| DataTimer          (* line 60 *)
| ForwardTime        (* line 94 *)
| BatchTime          (* line 95 *)
| EndOfIteration     (* line 96 *)
| ElapsedAll         (* line 130 *)
| ElapsedForRate     (* line 131 *)
| ElapsedEpoch       (* line 133 *)
| ElapsedForCkpt     (* line 167 *)
| LatestWritten      (* line 170 *)
| EpochWritten.      (* line 265 *)

(** A file of the checkpoint directory: what [torch.save] wrote, under which
    name, when, and with which [_use_new_zipfile_serialization] argument
    (none for the library default). *)
Record File := {
  f_name : string;
  f_mtime : Q;
  f_state : Checkpoint;
  f_zipfile_arg : option bool
}.

(** ** Collaborators and environment *)

(** What the drivers are given and do not own: the batches, the
    training-step function with the optimizer step it is followed by
    (lines 73 to 89, [None] when anything there raises), the
    learning-rate schedules, the collective reduction of
    [commu_utils.average_reduce_value], the wall clock, and the versions of
    the libraries found at run time. *)
Class Env := {
  Batch : Type;
  batch_size : Batch -> option Z;
  model_func : bool -> OptimCfg -> Model -> Optimizer -> Batch ->
               option (Model * Optimizer * StepOut);
  scheduler_step : Scheduler -> Z -> Optimizer -> Optimizer;
  average_reduce_value : Q -> Q;
  time_time : Site -> Z -> Z -> Q;
  torch_version : VersionObject;
  pcdet_version : option string;
  merge_all_iters_to_one_epoch : option (list Batch -> Z -> list Batch)
}.

Section Driver.

Context {env : Env}.

(** ** Observable events and the world *)

Inductive Event :=
| EvPrint (s : string)
| EvWandbLogin
| EvWandbInit (project : string)
| EvConfigUpdate (c : OptimCfg)
| EvTbarEpoch (cur_epoch : Z)
| EvSetEpoch (cur_epoch : Z)
| EvPbarCreated (total : Z) (leave : bool)
| EvLrStep (s : Scheduler) (it : Z)
| EvModelFunc (b : Batch)
| EvTbScalar (tag : string) (v : Q) (step : Z)
| EvRunLog (loss lr : Q) (step : Z)
| EvLoggerInfo (l : LogLine)
| EvPbarUpdate
| EvPbarPostfix (total_it : Z)
| EvTbarPostfix (disp : dict DispVal)
| EvPbarClose
| EvTorchSave (state : Checkpoint) (filename : string) (zipfile_arg : option bool)
| EvRemove (filename : string).

Record World := {
  w_model : Model;
  w_optimizer : Optimizer;
  w_iters : list (list Batch);      (* the iterator objects: what each has left *)
  w_augmentor : Augmentor;          (* [train_loader.dataset.data_augmentor] *)
  w_files : list File;              (* the checkpoint directory, in listing order *)
  w_trace : list Event              (* oldest first *)
}.

Definition set_net (m : Model) (o : Optimizer) (w : World) : World :=
  {| w_model := m; w_optimizer := o; w_iters := w_iters w;
     w_augmentor := w_augmentor w; w_files := w_files w; w_trace := w_trace w |}.

Definition set_iters (its : list (list Batch)) (w : World) : World :=
  {| w_model := w_model w; w_optimizer := w_optimizer w; w_iters := its;
     w_augmentor := w_augmentor w; w_files := w_files w; w_trace := w_trace w |}.

Definition set_augmentor (a : Augmentor) (w : World) : World :=
  {| w_model := w_model w; w_optimizer := w_optimizer w; w_iters := w_iters w;
     w_augmentor := a; w_files := w_files w; w_trace := w_trace w |}.

Definition set_files (fs : list File) (w : World) : World :=
  {| w_model := w_model w; w_optimizer := w_optimizer w; w_iters := w_iters w;
     w_augmentor := w_augmentor w; w_files := fs; w_trace := w_trace w |}.

Definition set_trace (tr : list Event) (w : World) : World :=
  {| w_model := w_model w; w_optimizer := w_optimizer w; w_iters := w_iters w;
     w_augmentor := w_augmentor w; w_files := w_files w; w_trace := tr |}.

(** ** The monad: state over the world, with exceptions *)

(** An exception leaves the world as it was when it was raised: what was
    printed, logged or written before stays. *)
Definition M (A : Type) : Type := World -> Result A * World.

Definition ret {A} (a : A) : M A := fun w => (Ok a, w).

Definition bind {A B} (c : M A) (k : A -> M B) : M B :=
  fun w =>
    match c w with
    | (Ok a, w') => k a w'
    | (Raise e, w') => (Raise e, w')
    end.

Definition raise {A} (e : Exn) : M A := fun w => (Raise e, w).

(** [try: c  except StopIteration: handler] *)
Definition try_except_StopIteration {A} (c handler : M A) : M A :=
  fun w =>
    match c w with
    | (Raise StopIteration, w') => handler w'
    | r => r
    end.

Definition get_world : M World := fun w => (Ok w, w).

Definition modify (f : World -> World) : M unit := fun w => (Ok tt, f w).

Definition emit_all (evs : list Event) : M unit :=
  modify (fun w => set_trace (w_trace w ++ evs) w).

Definition emit (e : Event) : M unit := emit_all [e].

Definition when (b : bool) (c : M unit) : M unit := if b then c else ret tt.

End Driver.

Notation "x <- c ;; k" := (bind c (fun x => k))
  (at level 100, c at next level, right associativity).
Notation "c ;; k" := (bind c (fun _ => k))
  (at level 100, right associativity).

Section Loops.

Context {env : Env}.

(** [for i in range(lo, hi)], the loop's variables threaded as [s]. *)
Fixpoint for_loop {S} (n : nat) (i : Z) (body : Z -> S -> M S) (s : S) : M S :=
  match n with
  | O => ret s
  | Datatypes.S n' => s' <- body i s ;; for_loop n' (i + 1) body s'
  end.

Definition for_range {S} (lo hi : Z) (body : Z -> S -> M S) (s : S) : M S :=
  for_loop (Z.to_nat (hi - lo)) lo body s.

(** ** Iterators *)

(** [iter(train_loader)]: a new iterator object over the loader's batches. *)
Definition iter (train_loader : list Batch) : M nat :=
  fun w => (Ok (List.length (w_iters w)), set_iters (w_iters w ++ [train_loader]) w).

(** [next(it)] *)
Definition next (it : nat) : M Batch :=
  fun w =>
    match w_iters w !! it with
    | None => (Raise DanglingIterator, w)
    | Some [] => (Raise StopIteration, w)
    | Some (b :: rest) => (Ok b, set_iters (<[it := rest]> (w_iters w)) w)
    end.

End Loops.

(** ** The arguments of the two drivers *)

(** The arguments of [train_one_epoch] other than the loader, the global
    step counter and the iterator. [tbar] is the outer progress bar, known
    here by the time it was created; [tb_log] tells whether a scalar-log sink
    was given; [ckpt_save_dir] is the path of the checkpoint directory as
    [str] gives it. The logger and the two intervals are those of a caller
    that gives them: a logger that is there and intervals that are
    integers. *)
Module Epoch.
Record args := {
  lr_scheduler : Scheduler;
  optim_cfg : OptimCfg;
  rank : Z;
  tbar : Q;
  total_it_each_epoch : Z;
  tb_log : bool;
  leave_pbar : bool;
  use_logger_to_record : bool;
  logger_iter_interval : Z;
  cur_epoch : Z;
  total_epochs : Z;
  ckpt_save_dir : string;
  ckpt_save_time_interval : Z;
  show_gpu_stat : bool;
  fp16 : bool
}.
End Epoch.

(** The arguments of [train_model] other than the loader. [train_sampler]
    and [lr_warmup_scheduler] tell whether one was given. As for the epoch
    driver, the logger is there and the two intervals are integers: the
    defaults [logger=None], [logger_iter_interval=None] and
    [ckpt_save_time_interval=None], with which the lead worker raises at
    its first check of line 168 and at every [logger.info], are not among
    the runs described here. *)
Module Run.
Record args := {
  optim_cfg : OptimCfg;
  start_epoch : Z;
  total_epochs : Z;
  start_iter : Z;
  rank : Z;
  tb_log : bool;
  ckpt_save_dir : string;
  train_sampler : bool;
  lr_warmup_scheduler : bool;
  ckpt_save_interval : Z;
  max_ckpt_save_num : Z;
  merge_all_iters_to_one_epoch : bool;
  use_logger_to_record : bool;
  logger_iter_interval : Z;
  ckpt_save_time_interval : Z;
  show_gpu_stat : bool;
  fp16 : bool;
  cfg : option Cfg
}.
End Run.

(** ** The checkpoint directory *)

(** [w_files] is the content of the directory [ckpt_save_dir], the one
    directory of the file system the drivers write to, and a file is known
    by its name in it: [ckpt_save_dir / name] is [name]. *)

(** [fnmatch] of a name against [checkpoint_epoch_*.pth], which is what
    [fnmatch_epoch_checkpoint] shows it to be. *)
Definition is_epoch_checkpoint (name : string) : bool :=
  String.prefix "checkpoint_epoch_" name &&
  ends_with ".pth" (drop_prefix 17 name).

Definition file_named (name : string) (f : File) : bool := String.eqb (f_name f) name.

(** Writing a file: a file of that name is replaced where it stands, a new
    one is listed last. *)
Fixpoint fs_write (f : File) (fs : list File) : list File :=
  match fs with
  | [] => [f]
  | g :: fs' => if file_named (f_name f) g then f :: fs' else g :: fs_write f fs'
  end.

Definition fs_remove (name : string) (fs : list File) : list File :=
  List.filter (fun g => negb (file_named name g)) fs.

(** [list.sort(key=os.path.getmtime)]: stable, oldest first. *)
Fixpoint insert_by_mtime (f : File) (l : list File) : list File :=
  match l with
  | [] => [f]
  | g :: l' =>
      if Qle_bool (f_mtime f) (f_mtime g) then f :: g :: l' else g :: insert_by_mtime f l'
  end.

Definition sort_by_mtime (l : list File) : list File :=
  fold_right insert_by_mtime [] l.

(** ** Checkpoints *)

(** [model_state_to_cpu] *)
Definition model_state_to_cpu (model_state : StateDict) : StateDict :=
  fold_left (fun model_state_cpu kv => dict_set (fst kv) (cpu (snd kv)) model_state_cpu)
            model_state [].

Section Checkpoints.

Context {env : Env}.

(** [checkpoint_state] *)
Definition checkpoint_state (model : option Model) (optimizer : option Optimizer)
    (epoch it : Z) : Checkpoint :=
  let optim_state :=
    match optimizer with
    | Some o => Some (opt_state_dict o)
    | None => None
    end in
  let model_state :=
    match model with
    | Some (DistributedDataParallel module) => Some (model_state_to_cpu (state_dict module))
    | Some (Bare m) => Some (state_dict m)
    | None => None
    end in
  let version :=
    match pcdet_version with
    | Some v => append "pcdet+" v
    | None => "none"%string
    end in
  {| ck_epoch := epoch; ck_it := it; ck_model_state := model_state;
     ck_optimizer_state := optim_state; ck_version := version |}.

(** [torch.save(state, filename)], with the [_use_new_zipfile_serialization]
    argument when one is passed; [now] is the modification time the file
    gets. *)
Definition torch_save (state : Checkpoint) (filename : string)
    (zipfile_arg : option bool) (now : Q) : M unit :=
  emit (EvTorchSave state filename zipfile_arg) ;;
  modify (fun w =>
    set_files (fs_write {| f_name := filename; f_mtime := now; f_state := state;
                           f_zipfile_arg := zipfile_arg |} (w_files w)) w).

(** [save_checkpoint]. The branch under [if False and ...] never runs. *)
Definition save_checkpoint (state : Checkpoint) (filename : string) (now : Q) : M unit :=
  let filename := append filename ".pth" in
  if version_ge torch_version "1.4"
  then torch_save state filename (Some false) now
  else torch_save state filename None now.

(** [os.remove] *)
Definition os_remove (name : string) : M unit :=
  fun w =>
    if existsb (file_named name) (w_files w)
    then (Ok tt, set_files (fs_remove name (w_files w))
                           (set_trace (w_trace w ++ [EvRemove name]) w))
    else (Raise FileNotFoundError, w).

(** [glob.glob(str(ckpt_save_dir / 'checkpoint_epoch_*.pth'))]. The last
    component is matched against the names of each directory the rest of
    the path stands for: the directory itself when its path has no magic
    character, and otherwise the directories [glob] finds for that path
    taken as a pattern. The checkpoint directory is the one directory
    here: when [glob] does not find it, nothing is listed. *)
Definition glob_epoch_checkpoints (ckpt_save_dir : string) : M (list File) :=
  fun w =>
    let listed := if has_magic ckpt_save_dir then glob_finds ckpt_save_dir else true in
    (Ok (if listed
         then List.filter (fun f => is_epoch_checkpoint (f_name f)) (w_files w)
         else []), w).

End Checkpoints.

(** ** The epoch driver *)

(** The rolling statistics of an epoch (lines 34 to 42). *)
Record Meters := {
  data_time : AverageMeter.t;
  batch_time : AverageMeter.t;
  forward_time : AverageMeter.t;
  loss_disp : AverageMeter.t;
  hm_loss_disp : AverageMeter.t;
  loc_loss_disp : AverageMeter.t;
  rcnn_cls_loss_disp : AverageMeter.t;
  rcnn_reg_loss_disp : AverageMeter.t
}.

Definition fresh_meters : Meters :=
  {| data_time := AverageMeter.reset; batch_time := AverageMeter.reset;
     forward_time := AverageMeter.reset; loss_disp := AverageMeter.reset;
     hm_loss_disp := AverageMeter.reset; loc_loss_disp := AverageMeter.reset;
     rcnn_cls_loss_disp := AverageMeter.reset; rcnn_reg_loss_disp := AverageMeter.reset |}.

(** The variables the loop of [train_one_epoch] carries from one iteration
    to the next. The meters and the inner progress bar exist on the lead
    worker only; the other workers never touch them. *)
Module Loop.
Record vars := {
  accumulated_iter : Z;
  dataloader_iter : nat;
  ckpt_save_cnt : Z;
  end_ : Q;
  meters : Meters
}.
End Loop.

(** Lines 106 to 109: the four meters every iteration updates. *)
Definition update_times_and_loss (avg_data_time avg_forward_time avg_batch_time loss : Q)
    (m : Meters) : Meters :=
  {| data_time := AverageMeter.update avg_data_time (data_time m);
     forward_time := AverageMeter.update avg_forward_time (forward_time m);
     batch_time := AverageMeter.update avg_batch_time (batch_time m);
     loss_disp := AverageMeter.update loss (loss_disp m);
     hm_loss_disp := hm_loss_disp m; loc_loss_disp := loc_loss_disp m;
     rcnn_cls_loss_disp := rcnn_cls_loss_disp m;
     rcnn_reg_loss_disp := rcnn_reg_loss_disp m |}.

(** [tb_dict[k]] for a key known to be there. *)
Definition tb_value (k : string) (tb_dict : dict Q) : Q :=
  match dict_get k tb_dict with Some v => v | None => 0%Q end.

(** Lines 112 to 116: the center-head losses. *)
Definition update_center_head (tb_dict : dict Q) (md : Meters * dict DispVal)
    : Meters * dict DispVal :=
  let (m, disp_dict) := md in
  if dict_has "hm_loss_head_0" tb_dict && dict_has "loc_loss_head_0" tb_dict then
    let hm := AverageMeter.update (tb_value "hm_loss_head_0" tb_dict) (hm_loss_disp m) in
    let loc := AverageMeter.update (tb_value "loc_loss_head_0" tb_dict) (loc_loss_disp m) in
    ({| data_time := data_time m; batch_time := batch_time m;
        forward_time := forward_time m; loss_disp := loss_disp m;
        hm_loss_disp := hm; loc_loss_disp := loc;
        rcnn_cls_loss_disp := rcnn_cls_loss_disp m;
        rcnn_reg_loss_disp := rcnn_reg_loss_disp m |},
     dict_update disp_dict
       [("loss_hm"%string, DFixed 4 (AverageMeter.avg hm));
        ("loss_loc"%string, DFixed 4 (AverageMeter.avg loc))])
  else (m, disp_dict).

(** Lines 117 to 121: the losses of the second stage. *)
Definition update_rcnn (tb_dict : dict Q) (md : Meters * dict DispVal)
    : Meters * dict DispVal :=
  let (m, disp_dict) := md in
  if dict_has "rcnn_loss_reg" tb_dict && dict_has "rcnn_loss_cls" tb_dict then
    let cls := AverageMeter.update (tb_value "rcnn_loss_cls" tb_dict) (rcnn_cls_loss_disp m) in
    let reg := AverageMeter.update (tb_value "rcnn_loss_reg" tb_dict) (rcnn_reg_loss_disp m) in
    ({| data_time := data_time m; batch_time := batch_time m;
        forward_time := forward_time m; loss_disp := loss_disp m;
        hm_loss_disp := hm_loss_disp m; loc_loss_disp := loc_loss_disp m;
        rcnn_cls_loss_disp := cls; rcnn_reg_loss_disp := reg |},
     dict_update disp_dict
       [("loss_rcnn_cls"%string, DFixed 4 (AverageMeter.avg cls));
        ("loss_rcnn_reg"%string, DFixed 4 (AverageMeter.avg reg))])
  else (m, disp_dict).

(** Lines 122 to 126. *)
Definition update_disp (m : Meters) (cur_lr total_norm : Q) (disp_dict : dict DispVal)
    : dict DispVal :=
  dict_update disp_dict
    [("loss"%string, DNum (AverageMeter.avg (loss_disp m)));
     ("lr"%string, DNum cur_lr);
     ("d_time"%string,
        DValAvg 2 (AverageMeter.val (data_time m)) (AverageMeter.avg (data_time m)));
     ("f_time"%string,
        DValAvg 2 (AverageMeter.val (forward_time m)) (AverageMeter.avg (forward_time m)));
     ("b_time"%string,
        DValAvg 2 (AverageMeter.val (batch_time m)) (AverageMeter.avg (batch_time m)));
     ("norm"%string, DNum total_norm)].

(** Lines 149 to 153: the meters reset after an emission. *)
Definition reset_loss_meters (m : Meters) : Meters :=
  {| data_time := data_time m; batch_time := batch_time m;
     forward_time := forward_time m;
     loss_disp := AverageMeter.reset;
     hm_loss_disp := AverageMeter.reset; loc_loss_disp := AverageMeter.reset;
     rcnn_cls_loss_disp := AverageMeter.reset;
     rcnn_reg_loss_disp := AverageMeter.reset |}.

(** Lines 137 and 138: the entries of [disp_str], ['lr'] moved last. *)
Definition disp_str (disp_dict : dict DispVal) : dict DispVal :=
  List.filter (fun kv => negb (String.eqb (fst kv) "lr")) disp_dict ++
  match dict_get "lr" disp_dict with
  | Some v => [("lr"%string, v)]
  | None => []
  end.

(** Line 129: whether the verbose logger emits at this iteration. *)
Definition emits (accumulated_iter logger_iter_interval cur_it start_it
    total_it_each_epoch : Z) : bool :=
  ((accumulated_iter mod logger_iter_interval =? 0) && negb (cur_it =? start_it))
  || (cur_it + 1 =? total_it_each_epoch).

(** Line 168: whether a further interval has elapsed. *)
Definition ckpt_due (time_past_this_epoch : Q) (ckpt_save_time_interval ckpt_save_cnt : Z)
    : bool :=
  ckpt_save_cnt <=? Qfloor (time_past_this_epoch / inject_Z ckpt_save_time_interval).

(** [float(optimizer.lr)], or [param_groups[0]['lr']] when that fails. *)
Definition get_lr (o : Optimizer) : Q :=
  match opt_lr o with
  | Some lr => lr
  | None => opt_param_group_lr o
  end.

Section EpochDriver.

Context {env : Env}.

(** Lines 53 to 58: the next batch, from a new iterator when the current
    one is exhausted. *)
Definition next_batch (train_loader : list Batch) (dataloader_iter : nat)
    : M (Batch * nat) :=
  try_except_StopIteration
    (batch <- next dataloader_iter ;; ret (batch, dataloader_iter))
    (dataloader_iter <- iter train_loader ;;
     batch <- next dataloader_iter ;;
     emit (EvPrint "new iters") ;;
     ret (batch, dataloader_iter)).

(** Lines 63 to 89: the schedule is advanced with the current global step,
    then the model and the optimizer take their step. *)
Definition training_step (a : Epoch.args) (accumulated_iter : Z) (batch : Batch)
    : M (Q * StepOut) :=
  modify (fun w =>
    set_net (w_model w)
            (scheduler_step (Epoch.lr_scheduler a) accumulated_iter (w_optimizer w)) w) ;;
  emit (EvLrStep (Epoch.lr_scheduler a) accumulated_iter) ;;
  w <- get_world ;;
  let cur_lr := get_lr (w_optimizer w) in
  when (Epoch.tb_log a)
       (emit (EvTbScalar "meta_data/learning_rate" cur_lr accumulated_iter)) ;;
  match model_func (Epoch.fp16 a) (Epoch.optim_cfg a) (w_model w) (w_optimizer w) batch with
  | None => raise StepError
  | Some (model, optimizer, out) =>
      modify (set_net model optimizer) ;;
      emit (EvModelFunc batch) ;;
      ret (cur_lr, out)
  end.

(** Lines 128 to 157: the verbose logger's status line, or the progress
    bars. *)
Definition log_status (a : Epoch.args) (start_it : Z) (pbar : Q) (cur_it : Z)
    (batch : Batch) (accumulated_iter : Z) (disp_dict : dict DispVal) (m : Meters)
    : M Meters :=
  let total_it_each_epoch := Epoch.total_it_each_epoch a in
  let cur_epoch := Epoch.cur_epoch a in
  let total_epochs := Epoch.total_epochs a in
  if Epoch.use_logger_to_record a then
    if Epoch.logger_iter_interval a =? 0 then raise ZeroDivisionError else
    if emits accumulated_iter (Epoch.logger_iter_interval a) cur_it start_it
             total_it_each_epoch
    then
      let trained_time_past_all := (time_time ElapsedAll cur_epoch cur_it - Epoch.tbar a)%Q in
      let second_each_iter :=
        ((time_time ElapsedForRate cur_epoch cur_it - pbar)
         / py_max (inject_Z (cur_it - start_it + 1)) 1)%Q in
      let trained_time_each_epoch := (time_time ElapsedEpoch cur_epoch cur_it - pbar)%Q in
      let remaining_second_each_epoch :=
        (second_each_iter * inject_Z (total_it_each_epoch - cur_it))%Q in
      let remaining_second_all :=
        (second_each_iter
         * inject_Z ((total_epochs - cur_epoch) * total_it_each_epoch - cur_it))%Q in
      emit (EvLoggerInfo (Status
        {| sl_cur_epoch := cur_epoch; sl_total_epochs := total_epochs;
           sl_acc_iter := accumulated_iter; sl_cur_it := cur_it;
           sl_total_it_each_epoch := total_it_each_epoch;
           sl_batch_size := batch_size batch;
           sl_trained_time_each_epoch := trained_time_each_epoch;
           sl_remaining_second_each_epoch := remaining_second_each_epoch;
           sl_trained_time_past_all := trained_time_past_all;
           sl_remaining_second_all := remaining_second_all;
           sl_disp := disp_str disp_dict |})) ;;
      when (Epoch.show_gpu_stat a
            && (accumulated_iter mod (3 * Epoch.logger_iter_interval a) =? 0))
           (emit (EvLoggerInfo GpuStat)) ;;
      ret (reset_loss_meters m)
    else ret m
  else
    emit_all [EvPbarUpdate; EvPbarPostfix accumulated_iter; EvTbarPostfix disp_dict] ;;
    ret m.

(** Lines 160 to 164. *)
Definition tb_scalars (loss cur_lr : Q) (tb_dict : dict Q) (accumulated_iter : Z)
    : list Event :=
  EvTbScalar "train/loss" loss accumulated_iter
  :: EvTbScalar "meta_data/learning_rate" cur_lr accumulated_iter
  :: map (fun kv => EvTbScalar (append "train/" (fst kv)) (snd kv) accumulated_iter) tb_dict.

(** Lines 166 to 174: the checkpoint of the ["latest"] slot. *)
Definition save_latest (a : Epoch.args) (pbar : Q) (cur_it accumulated_iter ckpt_save_cnt : Z)
    : M Z :=
  let time_past_this_epoch :=
    (time_time ElapsedForCkpt (Epoch.cur_epoch a) cur_it - pbar)%Q in
  if Epoch.ckpt_save_time_interval a =? 0 then raise ZeroDivisionError else
  if ckpt_due time_past_this_epoch (Epoch.ckpt_save_time_interval a) ckpt_save_cnt then
    let ckpt_name := "latest_model"%string in
    w <- get_world ;;
    save_checkpoint
      (checkpoint_state (Some (w_model w)) (Some (w_optimizer w))
                        (Epoch.cur_epoch a) accumulated_iter)
      ckpt_name (time_time LatestWritten (Epoch.cur_epoch a) cur_it) ;;
    emit (EvLoggerInfo (SaveLatest ckpt_name)) ;;
    ret (ckpt_save_cnt + 1)
  else ret ckpt_save_cnt.

(** Lines 103 to 174: what the lead worker does after the step. *)
Definition lead_worker (a : Epoch.args) (start_it : Z) (pbar : Q) (cur_it : Z)
    (batch : Batch) (cur_lr : Q) (out : StepOut)
    (avg_data_time avg_forward_time avg_batch_time : Q)
    (accumulated_iter ckpt_save_cnt : Z) (m : Meters) : M (Z * Meters) :=
  emit (EvRunLog (so_loss out) cur_lr accumulated_iter) ;;
  let m := update_times_and_loss avg_data_time avg_forward_time avg_batch_time
                                 (so_loss out) m in
  let (m, disp_dict) :=
    update_rcnn (so_tb_dict out) (update_center_head (so_tb_dict out) (m, so_disp_dict out)) in
  let disp_dict := update_disp m cur_lr (so_total_norm out) disp_dict in
  m <- log_status a start_it pbar cur_it batch accumulated_iter disp_dict m ;;
  when (Epoch.tb_log a)
       (emit_all (tb_scalars (so_loss out) cur_lr (so_tb_dict out) accumulated_iter)) ;;
  ckpt_save_cnt <- save_latest a pbar cur_it accumulated_iter ckpt_save_cnt ;;
  ret (ckpt_save_cnt, m).

(** Lines 53 to 174: one iteration of the loop. *)
Definition iteration (a : Epoch.args) (train_loader : list Batch) (start_it : Z) (pbar : Q)
    (cur_it : Z) (l : Loop.vars) : M Loop.vars :=
  let cur_epoch := Epoch.cur_epoch a in
  fetched <- next_batch train_loader (Loop.dataloader_iter l) ;;
  let (batch, dataloader_iter) := fetched : Batch * nat in
  let data_timer := time_time DataTimer cur_epoch cur_it in
  let cur_data_time := (data_timer - Loop.end_ l)%Q in
  stepped <- training_step a (Loop.accumulated_iter l) batch ;;
  let (cur_lr, out) := stepped : Q * StepOut in
  let accumulated_iter := Loop.accumulated_iter l + 1 in
  let cur_forward_time := (time_time ForwardTime cur_epoch cur_it - data_timer)%Q in
  let cur_batch_time := (time_time BatchTime cur_epoch cur_it - Loop.end_ l)%Q in
  let end_ := time_time EndOfIteration cur_epoch cur_it in
  let avg_data_time := average_reduce_value cur_data_time in
  let avg_forward_time := average_reduce_value cur_forward_time in
  let avg_batch_time := average_reduce_value cur_batch_time in
  if Epoch.rank a =? 0 then
    led <- lead_worker a start_it pbar cur_it batch cur_lr out
                       avg_data_time avg_forward_time avg_batch_time
                       accumulated_iter (Loop.ckpt_save_cnt l) (Loop.meters l) ;;
    let (ckpt_save_cnt, m) := led : Z * Meters in
    ret {| Loop.accumulated_iter := accumulated_iter;
           Loop.dataloader_iter := dataloader_iter;
           Loop.ckpt_save_cnt := ckpt_save_cnt; Loop.end_ := end_; Loop.meters := m |}
  else
    ret {| Loop.accumulated_iter := accumulated_iter;
           Loop.dataloader_iter := dataloader_iter;
           Loop.ckpt_save_cnt := Loop.ckpt_save_cnt l; Loop.end_ := end_;
           Loop.meters := Loop.meters l |}.

(** [train_one_epoch] *)
Definition train_one_epoch (a : Epoch.args) (train_loader : list Batch)
    (accumulated_iter : Z) (dataloader_iter : nat) : M Z :=
  let total_it_each_epoch := Epoch.total_it_each_epoch a in
  dataloader_iter <-
    (if total_it_each_epoch =? Z.of_nat (List.length train_loader)
     then iter train_loader
     else ret dataloader_iter) ;;
  let ckpt_save_cnt := 1 in
  if total_it_each_epoch =? 0 then raise ZeroDivisionError else
  let start_it := accumulated_iter mod total_it_each_epoch in
  when (Epoch.rank a =? 0)
       (emit (EvPbarCreated total_it_each_epoch (Epoch.leave_pbar a))) ;;
  let pbar := time_time PbarCreated (Epoch.cur_epoch a) start_it in
  let end_ := time_time EndBeforeLoop (Epoch.cur_epoch a) start_it in
  l <- for_range start_it total_it_each_epoch
         (iteration a train_loader start_it pbar)
         {| Loop.accumulated_iter := accumulated_iter;
            Loop.dataloader_iter := dataloader_iter;
            Loop.ckpt_save_cnt := ckpt_save_cnt; Loop.end_ := end_;
            Loop.meters := fresh_meters |} ;;
  when (Epoch.rank a =? 0) (emit EvPbarClose) ;;
  ret (Loop.accumulated_iter l).

End EpochDriver.

(** ** The run driver *)

Section RunDriver.

Context {env : Env}.

(** Lines 215 to 232: the hook that disables augmentations, with the
    one-shot flag it reads and sets. Line 227 also stores the list in
    [cfg.DATA_CONFIG], which nothing reads again. *)
Definition disable_augmentation_hook (a : Run.args) (cur_epoch : Z)
    (augment_disable_flag : bool) : M bool :=
  match Run.cfg a with
  | None => raise AttributeError
  | Some cfg =>
      match HOOK cfg with
      | None => ret augment_disable_flag
      | Some hook_config =>
          match DisableAugmentationHook hook_config with
          | None => ret augment_disable_flag
          | Some hook =>
              let num_last_epochs := NUM_LAST_EPOCHS hook in
              if (Run.total_epochs a - num_last_epochs <=? cur_epoch)
                 && negb augment_disable_flag
              then
                emit (EvLoggerInfo (DisableAugmentations (DISABLE_AUG_LIST hook))) ;;
                modify (set_augmentor (DataAugmentor (DISABLE_AUG_LIST hook))) ;;
                ret true
              else ret augment_disable_flag
          end
      end
  end.

(** Lines 261 and 262: the files removed, by position in the sorted list. *)
Definition remove_oldest (ckpt_list : list File) (cur_file_idx : Z) (u : unit) : M unit :=
  match ckpt_list !! Z.to_nat cur_file_idx with
  | None => raise IndexError
  | Some f => os_remove (f_name f)
  end.

(** Lines 253 to 267: the checkpoint at the end of an epoch and the
    retention sweep before it. *)
Definition save_trained_model (a : Run.args) (cur_epoch accumulated_iter : Z) : M unit :=
  let trained_epoch := cur_epoch + 1 in
  if Run.ckpt_save_interval a =? 0 then raise ZeroDivisionError else
  if (trained_epoch mod Run.ckpt_save_interval a =? 0) && (Run.rank a =? 0) then
    ckpt_list <- glob_epoch_checkpoints (Run.ckpt_save_dir a) ;;
    let ckpt_list := sort_by_mtime ckpt_list in
    let len := Z.of_nat (List.length ckpt_list) in
    (if Run.max_ckpt_save_num a <=? len
     then for_range 0 (len - Run.max_ckpt_save_num a + 1) (remove_oldest ckpt_list) tt
     else ret tt) ;;
    let ckpt_name := append "checkpoint_epoch_" (fmt_d trained_epoch) in
    w <- get_world ;;
    save_checkpoint
      (checkpoint_state (Some (w_model w)) (Some (w_optimizer w))
                        trained_epoch accumulated_iter)
      ckpt_name (time_time EpochWritten cur_epoch 0)
  else ret tt.

(** The arguments [train_model] passes to [train_one_epoch] (lines 235 to
    251). *)
Definition epoch_args (a : Run.args) (cur_scheduler : Scheduler) (tbar : Q)
    (total_it_each_epoch cur_epoch : Z) : Epoch.args :=
  {| Epoch.lr_scheduler := cur_scheduler;
     Epoch.optim_cfg := Run.optim_cfg a;
     Epoch.rank := Run.rank a;
     Epoch.tbar := tbar;
     Epoch.total_it_each_epoch := total_it_each_epoch;
     Epoch.tb_log := Run.tb_log a;
     Epoch.leave_pbar := (cur_epoch + 1 =? Run.total_epochs a);
     Epoch.use_logger_to_record := Run.use_logger_to_record a;
     Epoch.logger_iter_interval := Run.logger_iter_interval a;
     Epoch.cur_epoch := cur_epoch;
     Epoch.total_epochs := Run.total_epochs a;
     Epoch.ckpt_save_dir := Run.ckpt_save_dir a;
     Epoch.ckpt_save_time_interval := Run.ckpt_save_time_interval a;
     Epoch.show_gpu_stat := Run.show_gpu_stat a;
     Epoch.fp16 := Run.fp16 a |}.

(** Lines 205 to 267: one epoch of the run. The loop carries the global
    step counter and the one-shot flag; the outer progress bar shows each
    epoch it hands out. *)
Definition run_epoch (a : Run.args) (train_loader : list Batch) (tbar : Q)
    (total_it_each_epoch : Z) (dataloader_iter : nat)
    (cur_epoch : Z) (s : Z * bool) : M (Z * bool) :=
  let (accumulated_iter, augment_disable_flag) := s in
  emit (EvTbarEpoch cur_epoch) ;;
  when (Run.train_sampler a) (emit (EvSetEpoch cur_epoch)) ;;
  let cur_scheduler :=
    if Run.lr_warmup_scheduler a && (cur_epoch <? WARMUP_EPOCH (Run.optim_cfg a))
    then lr_warmup_scheduler
    else lr_scheduler in
  augment_disable_flag <- disable_augmentation_hook a cur_epoch augment_disable_flag ;;
  accumulated_iter <-
    train_one_epoch (epoch_args a cur_scheduler tbar total_it_each_epoch cur_epoch)
                    train_loader accumulated_iter dataloader_iter ;;
  save_trained_model a cur_epoch accumulated_iter ;;
  ret (accumulated_iter, augment_disable_flag).

(** [train_model] *)
Definition train_model (a : Run.args) (train_loader : list Batch) : M unit :=
  let accumulated_iter := Run.start_iter a in
  when (Run.rank a =? 0)
       (emit_all [EvWandbLogin; EvWandbInit "DSVT"; EvConfigUpdate (Run.optim_cfg a)]) ;;
  let augment_disable_flag := false in
  let tbar := time_time TbarCreated (Run.start_epoch a) 0 in
  merged <-
    (if Run.merge_all_iters_to_one_epoch a then
       match merge_all_iters_to_one_epoch with
       | None => raise AssertionError
       | Some merge =>
           let train_loader := merge train_loader (Run.total_epochs a) in
           ret (train_loader,
                Z.of_nat (List.length train_loader) / Z.max (Run.total_epochs a) 1)
       end
     else ret (train_loader, Z.of_nat (List.length train_loader))) ;;
  let (train_loader, total_it_each_epoch) := merged : list Batch * Z in
  dataloader_iter <- iter train_loader ;;
  for_range (Run.start_epoch a) (Run.total_epochs a)
    (run_epoch a train_loader tbar total_it_each_epoch dataloader_iter)
    (accumulated_iter, augment_disable_flag) ;;
  ret tt.

End RunDriver.

(** [range(lo, lo + n)] *)
Definition range_from (lo : Z) (n : nat) : list Z :=
  map (fun k => lo + Z.of_nat k) (seq 0 n).

(** [range(lo, hi)] *)
Definition range (lo hi : Z) : list Z := range_from lo (Z.to_nat (hi - lo)).

(** ** What a run shows *)

Section Observations.

Context {env : Env}.

(** The global step each call of [lr_scheduler.step] was given. *)
Definition lr_steps (evs : list Event) : list Z :=
  flat_map (fun e => match e with EvLrStep _ it => [it] | _ => [] end) evs.

(** The batches of the training steps that went through, in order. *)
Definition model_batches (evs : list Event) : list Batch :=
  flat_map (fun e => match e with EvModelFunc b => [b] | _ => [] end) evs.

(** The step and the loss of each call of [run.log]. *)
Definition run_log_steps (evs : list Event) : list Z :=
  flat_map (fun e => match e with EvRunLog _ _ step => [step] | _ => [] end) evs.

Definition run_log_losses (evs : list Event) : list Q :=
  flat_map (fun e => match e with EvRunLog loss _ _ => [loss] | _ => [] end) evs.

(** The status lines of the verbose logger. *)
Definition status_lines (evs : list Event) : list StatusLine :=
  flat_map (fun e => match e with EvLoggerInfo (Status s) => [s] | _ => [] end) evs.

(** The records written to the ["latest"] slot. *)
Definition latest_saves (evs : list Event) : list Checkpoint :=
  flat_map (fun e =>
    match e with
    | EvTorchSave state filename _ =>
        if String.eqb filename "latest_model.pth" then [state] else []
    | _ => []
    end) evs.

(** How often ['new iters'] was printed. *)
Definition new_iters (evs : list Event) : list unit :=
  flat_map (fun e => match e with EvPrint _ => [tt] | _ => [] end) evs.

(** The lists the augmentation hook logged, one for each time it fired. *)
Definition hook_firings (evs : list Event) : list (list string) :=
  flat_map (fun e =>
    match e with EvLoggerInfo (DisableAugmentations l) => [l] | _ => [] end) evs.

(** The epoch the outer progress bar had handed out last, for each time
    the hook fired ([cur] before any epoch). *)
Fixpoint hook_epochs (cur : Z) (evs : list Event) : list Z :=
  match evs with
  | [] => []
  | EvTbarEpoch e :: evs' => hook_epochs e evs'
  | EvLoggerInfo (DisableAugmentations _) :: evs' => cur :: hook_epochs cur evs'
  | _ :: evs' => hook_epochs cur evs'
  end.

(** The epoch the outer progress bar has handed out last, at the end of
    [evs]. *)
Fixpoint last_epoch (cur : Z) (evs : list Event) : Z :=
  match evs with
  | [] => cur
  | EvTbarEpoch e :: evs' => last_epoch e evs'
  | _ :: evs' => last_epoch cur evs'
  end.

(** Events among which the hook does not fire and the outer progress bar
    does not move. *)
Definition quiet (evs : list Event) : Prop :=
  forall cur, hook_epochs cur evs = [] /\ last_epoch cur evs = cur.

(** The losses logged since the last status line, at the end of [evs];
    [cur] are those pending before [evs]. *)
Fixpoint pending_losses (cur : list Q) (evs : list Event) : list Q :=
  match evs with
  | [] => cur
  | EvRunLog loss _ _ :: evs' => pending_losses (cur ++ [loss]) evs'
  | EvLoggerInfo (Status _) :: evs' => pending_losses [] evs'
  | _ :: evs' => pending_losses cur evs'
  end.

(** For each status line of [evs], the losses logged since the status line
    before it. *)
Fixpoint loss_windows (cur : list Q) (evs : list Event) : list (list Q) :=
  match evs with
  | [] => []
  | EvRunLog loss _ _ :: evs' => loss_windows (cur ++ [loss]) evs'
  | EvLoggerInfo (Status _) :: evs' => cur :: loss_windows [] evs'
  | _ :: evs' => loss_windows cur evs'
  end.

(** A status line shows, as its ['loss'], the arithmetic mean of a window
    of losses. *)
Definition shows_mean (shown : option DispVal) (window : list Q) : Prop :=
  exists q, shown = Some (DNum q) /\ window <> [] /\ (q == mean window)%Q.

(** What each status line shows as its ['loss']. *)
Definition shown_losses (evs : list Event) : list (option DispVal) :=
  map (fun sl => dict_get "loss" (sl_disp sl)) (status_lines evs).

(** The values each meter was given since it was last emptied, oldest
    first. *)
Record Windows := {
  win_data_time : list Q;
  win_batch_time : list Q;
  win_forward_time : list Q;
  win_loss : list Q;
  win_hm_loss : list Q;
  win_loc_loss : list Q;
  win_rcnn_cls_loss : list Q;
  win_rcnn_reg_loss : list Q
}.

(** The meters after these updates. *)
Definition meters_of (ws : Windows) : Meters :=
  {| data_time := AverageMeter.of_list (win_data_time ws);
     batch_time := AverageMeter.of_list (win_batch_time ws);
     forward_time := AverageMeter.of_list (win_forward_time ws);
     loss_disp := AverageMeter.of_list (win_loss ws);
     hm_loss_disp := AverageMeter.of_list (win_hm_loss ws);
     loc_loss_disp := AverageMeter.of_list (win_loc_loss ws);
     rcnn_cls_loss_disp := AverageMeter.of_list (win_rcnn_cls_loss ws);
     rcnn_reg_loss_disp := AverageMeter.of_list (win_rcnn_reg_loss ws) |}.

(** Lines 112 and 117: whether the step reports the losses of the center
    head, and those of the second stage. *)
Definition has_center_head (out : StepOut) : bool :=
  dict_has "hm_loss_head_0" (so_tb_dict out) && dict_has "loc_loss_head_0" (so_tb_dict out).

Definition has_rcnn (out : StepOut) : bool :=
  dict_has "rcnn_loss_reg" (so_tb_dict out) && dict_has "rcnn_loss_cls" (so_tb_dict out).

(** The windows once an iteration has given the meters its values: the
    three times and the loss, and the losses of the heads the step
    reports. *)
Definition fed (out : StepOut) (avg_data_time avg_forward_time avg_batch_time : Q)
    (ws : Windows) : Windows :=
  let center (v : Q) := if has_center_head out then [v] else [] in
  let rcnn (v : Q) := if has_rcnn out then [v] else [] in
  {| win_data_time := win_data_time ws ++ [avg_data_time];
     win_batch_time := win_batch_time ws ++ [avg_batch_time];
     win_forward_time := win_forward_time ws ++ [avg_forward_time];
     win_loss := win_loss ws ++ [so_loss out];
     win_hm_loss := win_hm_loss ws ++ center (tb_value "hm_loss_head_0" (so_tb_dict out));
     win_loc_loss := win_loc_loss ws ++ center (tb_value "loc_loss_head_0" (so_tb_dict out));
     win_rcnn_cls_loss :=
       win_rcnn_cls_loss ws ++ rcnn (tb_value "rcnn_loss_cls" (so_tb_dict out));
     win_rcnn_reg_loss :=
       win_rcnn_reg_loss ws ++ rcnn (tb_value "rcnn_loss_reg" (so_tb_dict out)) |}.

(** The windows once the five loss meters are empty again; those of the
    three times stay. *)
Definition emptied (ws : Windows) : Windows :=
  {| win_data_time := win_data_time ws;
     win_batch_time := win_batch_time ws;
     win_forward_time := win_forward_time ws;
     win_loss := []; win_hm_loss := []; win_loc_loss := [];
     win_rcnn_cls_loss := []; win_rcnn_reg_loss := [] |}.

(** A status line shows under [key] the arithmetic mean of a window that
    is not empty, displayed by [wrap]. *)
Definition shows_mean_of (wrap : Q -> DispVal) (sl : StatusLine) (key : string)
    (window : list Q) : Prop :=
  exists q, dict_get key (sl_disp sl) = Some (wrap q) /\ window <> [] /\ (q == mean window)%Q.

(** A status line shows the means of the windows of all the meters: the
    loss, the losses of the heads the step reports, and after the latest
    value of each of the three times the mean of its window. *)
Definition shows_windows (out : StepOut) (ws : Windows) (sl : StatusLine) : Prop :=
  shows_mean_of DNum sl "loss" (win_loss ws) /\
  (has_center_head out = true ->
   shows_mean_of (DFixed 4) sl "loss_hm" (win_hm_loss ws) /\
   shows_mean_of (DFixed 4) sl "loss_loc" (win_loc_loss ws)) /\
  (has_rcnn out = true ->
   shows_mean_of (DFixed 4) sl "loss_rcnn_cls" (win_rcnn_cls_loss ws) /\
   shows_mean_of (DFixed 4) sl "loss_rcnn_reg" (win_rcnn_reg_loss ws)) /\
  shows_mean_of (DValAvg 2 (List.last (win_data_time ws) 0%Q)) sl "d_time"
                (win_data_time ws) /\
  shows_mean_of (DValAvg 2 (List.last (win_forward_time ws) 0%Q)) sl "f_time"
                (win_forward_time ws) /\
  shows_mean_of (DValAvg 2 (List.last (win_batch_time ws) 0%Q)) sl "b_time"
                (win_batch_time ws).

(** The time [end] holds when iteration [cur_it] starts (lines 51 and
    96), and the three times of that iteration as the meters get them
    (lines 60, 61 and 94 to 101). *)
Definition end_at (a : Epoch.args) (start_it cur_it : Z) : Q :=
  if cur_it =? start_it
  then time_time EndBeforeLoop (Epoch.cur_epoch a) start_it
  else time_time EndOfIteration (Epoch.cur_epoch a) (cur_it - 1).

Definition avg_data_time (a : Epoch.args) (start_it cur_it : Z) : Q :=
  average_reduce_value
    (time_time DataTimer (Epoch.cur_epoch a) cur_it - end_at a start_it cur_it)%Q.

Definition avg_forward_time (a : Epoch.args) (cur_it : Z) : Q :=
  average_reduce_value
    (time_time ForwardTime (Epoch.cur_epoch a) cur_it
     - time_time DataTimer (Epoch.cur_epoch a) cur_it)%Q.

Definition avg_batch_time (a : Epoch.args) (start_it cur_it : Z) : Q :=
  average_reduce_value
    (time_time BatchTime (Epoch.cur_epoch a) cur_it - end_at a start_it cur_it)%Q.

(** A status line shows, after the three times of its own iteration, their
    means over all the iterations of the call so far, from [start_it] to
    its own. *)
Definition shows_epoch_times (a : Epoch.args) (start_it : Z) (sl : StatusLine) : Prop :=
  let cur_it := sl_cur_it sl in
  let so_far := range start_it (cur_it + 1) in
  shows_mean_of (DValAvg 2 (avg_data_time a start_it cur_it)) sl "d_time"
                (map (avg_data_time a start_it) so_far) /\
  shows_mean_of (DValAvg 2 (avg_forward_time a cur_it)) sl "f_time"
                (map (avg_forward_time a) so_far) /\
  shows_mean_of (DValAvg 2 (avg_batch_time a start_it cur_it)) sl "b_time"
                (map (avg_batch_time a start_it) so_far).

(** The epoch-numbered checkpoints of a directory. *)
Definition epoch_checkpoints (fs : list File) : list File :=
  List.filter (fun f => is_epoch_checkpoint (f_name f)) fs.

(** The elapsed time the check of line 167 reads at iteration [cur_it]. *)
Definition time_past (a : Epoch.args) (start_it cur_it : Z) : Q :=
  (time_time ElapsedForCkpt (Epoch.cur_epoch a) cur_it
   - time_time PbarCreated (Epoch.cur_epoch a) start_it)%Q.

(** The rate of line 131 at iteration [cur_it]. *)
Definition second_each_iter (a : Epoch.args) (start_it cur_it : Z) : Q :=
  ((time_time ElapsedForRate (Epoch.cur_epoch a) cur_it
    - time_time PbarCreated (Epoch.cur_epoch a) start_it)
   / py_max (inject_Z (cur_it - start_it + 1)) 1)%Q.

(** Whether the iteration [cur_it], which leaves the global step at
    [accumulated_iter], ends with a status line: on the lead worker, with
    the verbose logger, when line 129 says so. *)
Definition status_due (a : Epoch.args) (start_it cur_it accumulated_iter : Z) : bool :=
  (Epoch.rank a =? 0) && Epoch.use_logger_to_record a
  && negb (Epoch.logger_iter_interval a =? 0)
  && emits accumulated_iter (Epoch.logger_iter_interval a) cur_it start_it
           (Epoch.total_it_each_epoch a).

(** The status line of iteration [cur_it], but for what it displays of
    [disp_dict]. *)
Definition status_line_at (a : Epoch.args) (start_it cur_it accumulated_iter : Z)
    (sl : StatusLine) : Prop :=
  sl_cur_epoch sl = Epoch.cur_epoch a /\
  sl_total_epochs sl = Epoch.total_epochs a /\
  sl_acc_iter sl = accumulated_iter /\
  sl_cur_it sl = cur_it /\
  sl_total_it_each_epoch sl = Epoch.total_it_each_epoch a /\
  sl_remaining_second_each_epoch sl =
    (second_each_iter a start_it cur_it
     * inject_Z (Epoch.total_it_each_epoch a - cur_it))%Q /\
  sl_remaining_second_all sl =
    (second_each_iter a start_it cur_it
     * inject_Z ((Epoch.total_epochs a - Epoch.cur_epoch a) * Epoch.total_it_each_epoch a
                 - cur_it))%Q.

(** The elapsed times the checks of line 167 read in the first [n]
    iterations of an epoch. *)
Definition readings (a : Epoch.args) (start_it : Z) (n : nat) : list Q :=
  map (time_past a start_it) (range_from start_it n).

(** Whether the training step can raise. *)
Definition steps_succeed : Prop :=
  forall fp16 cfg m o b, model_func fp16 cfg m o b <> None.

End Observations.

(** The first [n] batches an epoch draws when it starts with an iterator
    that has [cur] left and restarts from [train_loader] at each
    exhaustion. *)
Fixpoint draw {B} (n : nat) (cur train_loader : list B) : list B :=
  match n with
  | O => []
  | S n' =>
      match cur with
      | b :: rest => b :: draw n' rest train_loader
      | [] =>
          match train_loader with
          | b :: rest => b :: draw n' rest train_loader
          | [] => []
          end
      end
  end.

(** What the iterator in use has left after these draws. *)
Fixpoint leftover {B} (n : nat) (cur train_loader : list B) : list B :=
  match n with
  | O => cur
  | S n' =>
      match cur with
      | _ :: rest => leftover n' rest train_loader
      | [] =>
          match train_loader with
          | _ :: rest => leftover n' rest train_loader
          | [] => []
          end
      end
  end.

(** How many restarts these draws take. *)
Fixpoint restarts {B} (n : nat) (cur train_loader : list B) : nat :=
  match n with
  | O => O
  | S n' =>
      match cur with
      | _ :: rest => restarts n' rest train_loader
      | [] =>
          match train_loader with
          | _ :: rest => S (restarts n' rest train_loader)
          | [] => O
          end
      end
  end.

(** The save counter of line 29 after the checks that read the elapsed
    times [readings], oldest first. *)
Definition count_due (ckpt_save_time_interval : Z) (readings : list Q) (ckpt_save_cnt : Z) : Z :=
  fold_left
    (fun cnt e => if ckpt_due e ckpt_save_time_interval cnt then cnt + 1 else cnt)
    readings ckpt_save_cnt.






(** Line 255: whether the epoch ends with a checkpoint. *)
Definition save_due (a : Run.args) (cur_epoch : Z) : bool :=
  ((cur_epoch + 1) mod Run.ckpt_save_interval a =? 0) && (Run.rank a =? 0).

Section LoopStart.

Context {env : Env}.

(** The variables of the loop of [train_one_epoch] before its first
    iteration (lines 29 to 51). *)
Definition loop_init (a : Epoch.args) (accumulated_iter : Z) (dataloader_iter : nat)
    : Loop.vars :=
  {| Loop.accumulated_iter := accumulated_iter;
     Loop.dataloader_iter := dataloader_iter;
     Loop.ckpt_save_cnt := 1;
     Loop.end_ := time_time EndBeforeLoop (Epoch.cur_epoch a)
                            (accumulated_iter mod Epoch.total_it_each_epoch a);
     Loop.meters := fresh_meters |}.




End LoopStart.

Section EpochShapeDefs.

Context {env : Env}.

(** The world at the first iteration of an epoch: after line 27 has made
    its iterator, when it does, and line 33 has opened the inner progress
    bar, on the lead worker. *)
Definition epoch_entry (a : Epoch.args) (tl : list Batch) (w : World) : World :=
  let T := Epoch.total_it_each_epoch a in
  let w1 := if T =? Z.of_nat (List.length tl) then set_iters (w_iters w ++ [tl]) w else w in
  if Epoch.rank a =? 0
  then set_trace (w_trace w1 ++ [EvPbarCreated T (Epoch.leave_pbar a)]) w1
  else w1.

(** The iterator the loop starts with. *)
Definition entry_iter (a : Epoch.args) (tl : list Batch) (it : nat) (w : World) : nat :=
  if Epoch.total_it_each_epoch a =? Z.of_nat (List.length tl)
  then List.length (w_iters w) else it.

(** The world after the loop, once line 177 has closed the inner bar. *)
Definition epoch_exit (a : Epoch.args) (w : World) : World :=
  if Epoch.rank a =? 0 then set_trace (w_trace w ++ [EvPbarClose]) w else w.

(** What the counter shows along a run, whatever its end: the schedule is
    given consecutive steps from the incoming one, the run tracker
    consecutive steps from the one after, and the schedule is never more
    than one call ahead of the training steps that went through. *)
Definition counts_by_one (acc : Z) (evs : list Event) : Prop :=
  let n := List.length (model_batches evs) in
  lr_steps evs = range_from acc (List.length (lr_steps evs)) /\
  run_log_steps evs = range_from (acc + 1) (List.length (run_log_steps evs)) /\
  (n <= List.length (lr_steps evs) <= n + 1)%nat /\
  (List.length (run_log_steps evs) <= n)%nat.

(** Nothing after the training step divides by zero: on the lead worker
    the logging interval of the verbose logger and the checkpoint interval
    are not zero. *)
Definition intervals_nonzero (a : Epoch.args) : Prop :=
  Epoch.rank a = 0 ->
  (Epoch.use_logger_to_record a = true -> Epoch.logger_iter_interval a <> 0) /\
  Epoch.ckpt_save_time_interval a <> 0.

(** What the iterator the loop starts with has left: the whole loader when
    line 27 makes a new iterator, what the given iterator has otherwise. *)
Definition entry_batches (a : Epoch.args) (tl : list Batch) (it : nat) (w : World)
    : option (list Batch) :=
  if Epoch.total_it_each_epoch a =? Z.of_nat (List.length tl)
  then Some tl else w_iters w !! it.

(** The configuration of the augmentation hook, when [cfg] has one. *)
Definition hook_of (a : Run.args) : option DisableAugmentationHookCfg :=
  match Run.cfg a with
  | Some cfg =>
      match HOOK cfg with
      | Some hook_config => DisableAugmentationHook hook_config
      | None => None
      end
  | None => None
  end.

(** Line 220: whether the hook fires at [cur_epoch]. *)
Definition hook_fires (a : Run.args) (cur_epoch : Z) (augment_disable_flag : bool) : bool :=
  match hook_of a with
  | Some hook =>
      (Run.total_epochs a - NUM_LAST_EPOCHS hook <=? cur_epoch) && negb augment_disable_flag
  | None => false
  end.

(** The first epoch of a run at which
    [total_epochs - NUM_LAST_EPOCHS <= cur_epoch]. *)
Definition first_hook_epoch (a : Run.args) (hook : DisableAugmentationHookCfg) : Z :=
  Z.max (Run.start_epoch a) (Run.total_epochs a - NUM_LAST_EPOCHS hook).

(** The list the hook disables, when there is a hook. *)
Definition hook_list (a : Run.args) : list string :=
  match hook_of a with
  | Some hook => DISABLE_AUG_LIST hook
  | None => []
  end.

(** The epoch at which the hook of a run fires, when it has one. *)
Definition hook_epoch (a : Run.args) : Z :=
  match hook_of a with
  | Some hook => first_hook_epoch a hook
  | None => 0
  end.

(** Whether the hook has fired before epoch [j] of a run. *)
Definition fired_before (a : Run.args) (j : Z) : bool :=
  match hook_of a with
  | Some hook => first_hook_epoch a hook <? j
  | None => false
  end.

(** The world when [train_model] enters its loop over the epochs, but for
    the iterator of line 204: the lead worker has opened the run-tracking
    session. *)
Definition run_entry (a : Run.args) (w : World) : World :=
  if Run.rank a =? 0
  then set_trace (w_trace w ++ [EvWandbLogin; EvWandbInit "DSVT";
                                EvConfigUpdate (Run.optim_cfg a)]) w
  else w.

(** Lines 198 to 202: the loader of the run and the iterations of each of
    its epochs; none when the dataset cannot merge its iterations. *)
Definition run_loader (a : Run.args) (train_loader : list Batch) : option (list Batch * Z) :=
  if Run.merge_all_iters_to_one_epoch a then
    match merge_all_iters_to_one_epoch with
    | None => None
    | Some merge =>
        let train_loader := merge train_loader (Run.total_epochs a) in
        Some (train_loader,
              Z.of_nat (List.length train_loader) / Z.max (Run.total_epochs a) 1)
    end
  else Some (train_loader, Z.of_nat (List.length train_loader)).

End EpochShapeDefs.

(** Readings that never go back and never jump a whole interval, from
    [prev] on. *)
Fixpoint steady (I : Z) (prev : Q) (rs : list Q) : Prop :=
  match rs with
  | [] => True
  | e :: rs' => (prev <= e)%Q /\ (e < prev + inject_Z I)%Q /\ steady I e rs'
  end.

(** The decimal digit [n]. *)
Definition digit (n : N) : ascii := ascii_of_N (48 + n).

(** A version string [M.m...] with one digit for each of [M] and [m]. *)
Definition version_string (major minor : N) (rest : string) : string :=
  String (digit major) (String "." (String (digit minor) rest)).


(** Whether the release [major.minor] is 1.4 or a later one. *)
Definition at_least_1_4 (major minor : N) : bool :=
  ((1 <? major) || ((major =? 1) && (4 <=? minor)))%N.

(** What the specification says of the format [persist] uses, taken by its
    words: the legacy format for a library older than the release that
    [save_checkpoint] tests for, the default one otherwise. *)
Definition spec_legacy_format (major minor : N) : bool := negb (at_least_1_4 major minor).

(** The version object of the library of release [major.minor]: a [str]
    whose text begins with the two numbers, one digit each, and goes on
    with something that is not a digit, as the libraries up to 1.9 have it;
    or a [TorchVersion] whose text reads as a version of that release which,
    for the release 1.4 itself, is not a pre-release or a development
    release of it. *)
Definition starts_with_digit (s : string) : bool :=
  match s with
  | EmptyString => false
  | String c _ => is_digit c
  end.

Inductive library_release : VersionObject -> N -> N -> Prop :=
| release_of_str (major minor : N) (rest : string) :
    (major < 10)%N -> (minor < 10)%N -> starts_with_digit rest = false ->
    library_release (Str (version_string major minor rest)) major minor
| release_of_version (s : string) (v : Version) (major minor : N) (more : list N) :
    v_epoch v = 0%N ->
    v_release v = major :: minor :: more ->
    (strip_zeros (v_release v) = [1; 4]%N ->
     v_pre v = None /\ (v_dev v = None \/ v_post v <> None)) ->
    library_release (TorchVersion s (Some v)) major minor.

(** A final release, as [packaging] reads it. *)
Definition final_release (release : list N) : Version :=
  {| v_epoch := 0; v_release := release; v_pre := None; v_post := None; v_dev := None;
     v_local := None |}.

(** Whether a call of [torch.save] asks for the legacy format. *)
Definition requests_legacy (zipfile_arg : option bool) : bool :=
  match zipfile_arg with
  | Some false => true
  | _ => false
  end.

(** The keys of the [state_dict()] of a model. *)
Definition model_keys (model : option Model) : list string :=
  match model with
  | Some (Bare m) => map fst (state_dict m)
  | Some (DistributedDataParallel module) => map fst (state_dict module)
  | None => []
  end.

(** ** A small run *)

(** A training step that goes through whatever it is given and reports its
    batch, a number, as the loss; schedules that leave the optimizer as it
    is; a single worker, whose reduction is the identity. *)
Definition example_out (b : nat) : StepOut :=
  {| so_loss := inject_Z (Z.of_nat b); so_tb_dict := []; so_disp_dict := [];
     so_total_norm := 1 |}.

Definition example_env_with (clock : Site -> Z -> Z -> Q) (version : VersionObject) : Env :=
  {| Batch := nat;
     batch_size := fun _ => Some 1;
     model_func := fun _ _ m o b => Some (m, o, example_out b);
     scheduler_step := fun _ _ o => o;
     average_reduce_value := fun q => q;
     time_time := clock;
     torch_version := version;
     pcdet_version := Some "0.6.0"%string;
     merge_all_iters_to_one_epoch := None |}.

(** The same with a library before 1.10, whose version is a [str]. *)
Definition example_env (clock : Site -> Z -> Z -> Q) (version : string) : Env :=
  example_env_with clock (Str version).

(** A clock on which every iteration takes [tick] seconds, of which
    iteration [cur_it] waits [cur_it + 1] seconds for its batch. *)
Definition ticking_clock (tick : Z) (s : Site) (cur_epoch cur_it : Z) : Q :=
  inject_Z
    match s with
    | TbarCreated | PbarCreated | EndBeforeLoop => cur_it * tick
    | DataTimer => cur_it * tick + (cur_it + 1)
    | _ => (cur_it + 1) * tick
    end.

(** A recent library, and iterations of ten seconds. *)
Definition recent_env : Env := example_env (ticking_clock 10) "1.8.1".

Definition example_module : Module :=
  {| state_dict := [("weight"%string, {| t_device := CUDA 0; t_data := [1; 2]%Q |});
                    ("bias"%string, {| t_device := CUDA 1; t_data := [3]%Q |})] |}.

Definition example_optimizer : Optimizer :=
  {| opt_state_dict := [("step"%string, {| t_device := CPU; t_data := [7]%Q |})];
     opt_lr := None; opt_param_group_lr := 1 |}.

Definition example_checkpoint : Checkpoint :=
  {| ck_epoch := 1; ck_it := 25; ck_model_state := None; ck_optimizer_state := None;
     ck_version := "none" |}.


Definition example_world (env : Env) (iters : list (list Batch)) (files : list File)
    : World :=
  {| w_model := DistributedDataParallel example_module;
     w_optimizer := example_optimizer;
     w_iters := iters; w_augmentor := InitialAugmentor; w_files := files;
     w_trace := [] |}.

Definition example_optim_cfg : OptimCfg :=
  {| WARMUP_EPOCH := 0; GRAD_NORM_CLIP := 10; LOSS_SCALE_FP16 := None |}.

(** The first of two epochs, on the lead worker. *)
Definition example_epoch (total_it_each_epoch logger_iter_interval
    ckpt_save_time_interval : Z) (use_logger_to_record : bool) : Epoch.args :=
  {| Epoch.lr_scheduler := lr_scheduler; Epoch.optim_cfg := example_optim_cfg;
     Epoch.rank := 0; Epoch.tbar := 0;
     Epoch.total_it_each_epoch := total_it_each_epoch;
     Epoch.tb_log := false; Epoch.leave_pbar := false;
     Epoch.use_logger_to_record := use_logger_to_record;
     Epoch.logger_iter_interval := logger_iter_interval;
     Epoch.cur_epoch := 0; Epoch.total_epochs := 2;
     Epoch.ckpt_save_dir := "output/ckpt";
     Epoch.ckpt_save_time_interval := ckpt_save_time_interval;
     Epoch.show_gpu_stat := false; Epoch.fp16 := false |}.

(** A run from scratch on the lead worker, with the verbose logger. *)
Definition example_run (total_epochs ckpt_save_interval max_ckpt_save_num
    logger_iter_interval : Z) (cfg : option Cfg) : Run.args :=
  {| Run.optim_cfg := example_optim_cfg; Run.start_epoch := 0;
     Run.total_epochs := total_epochs; Run.start_iter := 0; Run.rank := 0;
     Run.tb_log := false; Run.ckpt_save_dir := "output/ckpt";
     Run.train_sampler := false;
     Run.lr_warmup_scheduler := false;
     Run.ckpt_save_interval := ckpt_save_interval;
     Run.max_ckpt_save_num := max_ckpt_save_num;
     Run.merge_all_iters_to_one_epoch := false;
     Run.use_logger_to_record := true;
     Run.logger_iter_interval := logger_iter_interval;
     Run.ckpt_save_time_interval := 300; Run.show_gpu_stat := false;
     Run.fp16 := false; Run.cfg := cfg |}.

(** A configuration whose hook disables two augmentations for the last
    [num_last_epochs] epochs. *)
Definition example_cfg (num_last_epochs : Z) : Cfg :=
  {| HOOK := Some {| DisableAugmentationHook :=
       Some {| NUM_LAST_EPOCHS := num_last_epochs;
               DISABLE_AUG_LIST := ["gt_sampling"%string; "random_world_flip"%string] |} |} |}.

(** ** Further observations *)

(** The file of a name, when the directory has one. *)
Definition lookup_file (name : string) (fs : list File) : option File :=
  List.find (file_named name) fs.

Section SavedDefs.
Context {env : Env}.

(** The files written, with the records they hold, in order. *)
Definition saved_files (evs : list Event) : list (string * Checkpoint) :=
  flat_map (fun e =>
    match e with
    | EvTorchSave state filename _ => [(filename, state)]
    | _ => []
    end) evs.


(** The name of the checkpoint written at the end of [cur_epoch]. *)
Definition epoch_file_name (cur_epoch : Z) : string :=
  append (append "checkpoint_epoch_" (fmt_d (cur_epoch + 1))) ".pth".

End SavedDefs.

Section FollowerDefs.
Context {env : Env}.

(** What a worker other than the lead shows in an epoch: the restarts of
    its iterator, the steps of its schedule, its training steps and the
    learning rate sent to a log sink. *)
Definition worker_event (e : Event) : bool :=
  match e with
  | EvPrint _ | EvLrStep _ _ | EvModelFunc _ | EvTbScalar _ _ _ => true
  | _ => false
  end.

(** What it shows in a run: that, the epochs of the outer progress bar and
    of the sampler, and the line of the augmentation hook. *)
Definition follower_event (e : Event) : bool :=
  worker_event e ||
  match e with
  | EvTbarEpoch _ | EvSetEpoch _ | EvLoggerInfo (DisableAugmentations _) => true
  | _ => false
  end.

End FollowerDefs.

(** A file the drivers have no name for: neither an epoch-numbered
    checkpoint nor the latest slot. *)
Definition foreign (f : File) : bool :=
  negb (is_epoch_checkpoint (f_name f)) && negb (String.eqb (f_name f) "latest_model.pth").

Section FirstEpochDefs.
Context {env : Env}.

(** The first epoch of a run up to its hook. *)
Definition first_epoch_entry (a : Run.args) (train_loader : list Batch) (w : World) : World :=
  let w1 := run_entry a w in
  let w2 := set_iters (w_iters w1 ++ [train_loader]) w1 in
  set_trace (w_trace w2 ++ EvTbarEpoch (Run.start_epoch a)
                        :: (if Run.train_sampler a then [EvSetEpoch (Run.start_epoch a)]
                            else [])) w2.

End FirstEpochDefs.

(** The same arguments on another worker. *)
Definition epoch_on_rank (rank : Z) (a : Epoch.args) : Epoch.args :=
  {| Epoch.lr_scheduler := Epoch.lr_scheduler a; Epoch.optim_cfg := Epoch.optim_cfg a;
     Epoch.rank := rank; Epoch.tbar := Epoch.tbar a;
     Epoch.total_it_each_epoch := Epoch.total_it_each_epoch a;
     Epoch.tb_log := Epoch.tb_log a; Epoch.leave_pbar := Epoch.leave_pbar a;
     Epoch.use_logger_to_record := Epoch.use_logger_to_record a;
     Epoch.logger_iter_interval := Epoch.logger_iter_interval a;
     Epoch.cur_epoch := Epoch.cur_epoch a; Epoch.total_epochs := Epoch.total_epochs a;
     Epoch.ckpt_save_dir := Epoch.ckpt_save_dir a;
     Epoch.ckpt_save_time_interval := Epoch.ckpt_save_time_interval a;
     Epoch.show_gpu_stat := Epoch.show_gpu_stat a; Epoch.fp16 := Epoch.fp16 a |}.

Definition run_on_rank (rank : Z) (a : Run.args) : Run.args :=
  {| Run.optim_cfg := Run.optim_cfg a; Run.start_epoch := Run.start_epoch a;
     Run.total_epochs := Run.total_epochs a; Run.start_iter := Run.start_iter a;
     Run.rank := rank; Run.tb_log := Run.tb_log a;
     Run.ckpt_save_dir := Run.ckpt_save_dir a;
     Run.train_sampler := Run.train_sampler a;
     Run.lr_warmup_scheduler := Run.lr_warmup_scheduler a;
     Run.ckpt_save_interval := Run.ckpt_save_interval a;
     Run.max_ckpt_save_num := Run.max_ckpt_save_num a;
     Run.merge_all_iters_to_one_epoch := Run.merge_all_iters_to_one_epoch a;
     Run.use_logger_to_record := Run.use_logger_to_record a;
     Run.logger_iter_interval := Run.logger_iter_interval a;
     Run.ckpt_save_time_interval := Run.ckpt_save_time_interval a;
     Run.show_gpu_stat := Run.show_gpu_stat a; Run.fp16 := Run.fp16 a;
     Run.cfg := Run.cfg a |}.


(** The record the latest slot holds, when there is one. *)
Definition latest_slot (fs : list File) : option Checkpoint :=
  option_map f_state (lookup_file "latest_model.pth" fs).

(** A file other than the latest slot. *)
Definition not_latest (f : File) : bool := negb (String.eqb (f_name f) "latest_model.pth").

Section LatestDefs.
Context {env : Env}.

(** The last of the records written to the slot among [evs], or what the
    slot held before. *)
Definition newest_latest (before : option Checkpoint) (evs : list Event) : option Checkpoint :=
  match rev (latest_saves evs) with
  | [] => before
  | state :: _ => Some state
  end.

End LatestDefs.

Definition scheduler_eqb (s s' : Scheduler) : bool :=
  match s, s' with
  | lr_scheduler, lr_scheduler | lr_warmup_scheduler, lr_warmup_scheduler => true
  | _, _ => false
  end.

Section SchedulerDefs.
Context {env : Env}.

(** Each step of a schedule, with the epoch the outer progress bar had
    handed out last ([cur] before any). *)
Fixpoint epoch_schedulers (cur : Z) (evs : list Event) : list (Z * Scheduler) :=
  match evs with
  | [] => []
  | EvTbarEpoch e :: evs' => epoch_schedulers e evs'
  | EvLrStep s _ :: evs' => (cur, s) :: epoch_schedulers cur evs'
  | _ :: evs' => epoch_schedulers cur evs'
  end.

(** Lines 210 to 213: the schedule of an epoch. *)
Definition cur_scheduler (a : Run.args) (cur_epoch : Z) : Scheduler :=
  if Run.lr_warmup_scheduler a && (cur_epoch <? WARMUP_EPOCH (Run.optim_cfg a))
  then lr_warmup_scheduler
  else lr_scheduler.

(** An event of an epoch whose schedule is [s]: no other schedule is
    stepped and the outer progress bar does not move. *)
Definition steps_only (s : Scheduler) (e : Event) : bool :=
  match e with
  | EvTbarEpoch _ => false
  | EvLrStep s' _ => scheduler_eqb s s'
  | _ => true
  end.

End SchedulerDefs.

(** What an epoch of a run saves: records of the latest slot, and at its
    end, when due, the record of the epoch, with the counter on the next
    boundary. *)
Definition saved_in_epoch (T e : Z) (q : string * Checkpoint) : Prop :=
  fst q = "latest_model.pth"%string \/
  (fst q = epoch_file_name e /\ ck_epoch (snd q) = e + 1 /\ ck_it (snd q) mod T = 0).

(** * Properties *)

(** ** Running the monad by hand *)

Ltac unfold_prims :=
  unfold try_except_StopIteration, next, iter, when, emit, emit_all,
    modify, get_world, raise, bind, ret.

Ltac exec_simpl :=
  cbn [w_model w_optimizer w_iters w_augmentor w_files w_trace
       set_net set_iters set_augmentor set_files set_trace fst snd
       Loop.accumulated_iter Loop.dataloader_iter Loop.ckpt_save_cnt Loop.end_ Loop.meters].

Ltac exec_case :=
  match goal with
  | |- context [match ?x with _ => _ end] =>
      lazymatch x with
      | context [match _ with _ => _ end] => fail
      | _ => destruct x eqn:?
      end
  end.

(** Unfold the named pieces with [tac], then run: every test met on the
    way splits the goal. *)
Ltac exec_with tac := tac; unfold_prims; repeat (exec_simpl; try exec_case); exec_simpl.

Ltac exec_lead :=
  exec_with ltac:(unfold lead_worker, save_latest, log_status, save_checkpoint, torch_save).

Ltac exec_iteration :=
  exec_with ltac:(unfold iteration, training_step, next_batch).

(** Bring in what [lem] says of the call of [lead_worker] just met. *)
Ltac use_lead lem :=
  match goal with
  | H : lead_worker ?a ?s ?p ?j ?b ?lr ?out ?d ?f ?bt ?acc ?cnt ?m ?w = _ |- _ =>
      let P := fresh "Hlead" in
      pose proof (lem a s p j b lr out d f bt acc cnt m w) as P;
      cbv zeta in P; rewrite H in P; cbn beta iota in P
  end.

(** The events a piece of the run added are found by reassociating the
    appends of the trace. *)
Ltac trace_ext :=
  repeat rewrite <- List.app_assoc; try reflexivity;
  try (rewrite <- (List.app_nil_r (w_trace _)) at 1; reflexivity).

Section LoopRules.

Context {env : Env}.

(** The rule of the [for] loop: an invariant kept by every iteration that
    returns holds when the loop returns, and what an iteration that raises
    leaves is what the loop leaves. *)
Lemma for_loop_rule {S} (Inv : Z -> S -> World -> Prop) (Ex : Exn -> World -> Prop)
    (body : Z -> S -> M S) (n : nat) :
  forall (i : Z) (s : S) (w : World),
    Inv i s w ->
    (forall j s w, i <= j < i + Z.of_nat n -> Inv j s w ->
       match body j s w with
       | (Ok s', w') => Inv (j + 1) s' w'
       | (Raise e, w') => Ex e w'
       end) ->
    match for_loop n i body s w with
    | (Ok s', w') => Inv (i + Z.of_nat n) s' w'
    | (Raise e, w') => Ex e w'
    end.
Proof.
  induction n as [|n IH]; intros i s w Hinv Hbody.
  - cbn. now replace (i + Z.of_nat 0) with i by lia.
  - cbn [for_loop]. unfold bind at 1.
    specialize (Hbody i s w ltac:(lia) Hinv) as Hstep.
    destruct (body i s w) as [[s'|e] w']; [|exact Hstep].
    replace (i + Z.of_nat (Datatypes.S n)) with ((i + 1) + Z.of_nat n) by lia.
    apply IH; [exact Hstep|].
    intros j s0 w0 Hj. apply Hbody. lia.
Qed.

Lemma for_range_rule {S} (Inv : Z -> S -> World -> Prop) (Ex : Exn -> World -> Prop)
    (body : Z -> S -> M S) (lo hi : Z) (s : S) (w : World) :
  Inv lo s w ->
  (forall j s w, lo <= j < hi -> Inv j s w ->
     match body j s w with
     | (Ok s', w') => Inv (j + 1) s' w'
     | (Raise e, w') => Ex e w'
     end) ->
  match for_range lo hi body s w with
  | (Ok s', w') => Inv (Z.max lo hi) s' w'
  | (Raise e, w') => Ex e w'
  end.
Proof.
  intros Hinv Hbody. unfold for_range.
  replace (Z.max lo hi) with (lo + Z.of_nat (Z.to_nat (hi - lo))) by lia.
  apply for_loop_rule; [exact Hinv|].
  intros j s0 w0 Hj. apply Hbody. lia.
Qed.

End LoopRules.

(** ** Observations of appended traces *)

Section ObservationFacts.

Context {env : Env}.

Lemma lr_steps_app (e1 e2 : list Event) : lr_steps (e1 ++ e2) = lr_steps e1 ++ lr_steps e2.
Proof. apply flat_map_app. Qed.

Lemma model_batches_app (e1 e2 : list Event) :
  model_batches (e1 ++ e2) = model_batches e1 ++ model_batches e2.
Proof. apply flat_map_app. Qed.

Lemma run_log_steps_app (e1 e2 : list Event) :
  run_log_steps (e1 ++ e2) = run_log_steps e1 ++ run_log_steps e2.
Proof. apply flat_map_app. Qed.

Lemma run_log_losses_app (e1 e2 : list Event) :
  run_log_losses (e1 ++ e2) = run_log_losses e1 ++ run_log_losses e2.
Proof. apply flat_map_app. Qed.

Lemma status_lines_app (e1 e2 : list Event) :
  status_lines (e1 ++ e2) = status_lines e1 ++ status_lines e2.
Proof. apply flat_map_app. Qed.

Lemma latest_saves_app (e1 e2 : list Event) :
  latest_saves (e1 ++ e2) = latest_saves e1 ++ latest_saves e2.
Proof. apply flat_map_app. Qed.

Lemma new_iters_app (e1 e2 : list Event) : new_iters (e1 ++ e2) = new_iters e1 ++ new_iters e2.
Proof. apply flat_map_app. Qed.

Lemma hook_firings_app (e1 e2 : list Event) :
  hook_firings (e1 ++ e2) = hook_firings e1 ++ hook_firings e2.
Proof. apply flat_map_app. Qed.

(** The scalars sent to the log sink are neither steps, lines nor saves. *)
Lemma flat_map_tb_scalars {X} (f : Event -> list X) loss cur_lr tb_dict acc :
  (forall tag v step, f (EvTbScalar tag v step) = []) ->
  flat_map f (tb_scalars loss cur_lr tb_dict acc) = [].
Proof.
  intros Hf. unfold tb_scalars. cbn [flat_map]. rewrite !Hf. cbn [app].
  induction tb_dict as [|kv d IH]; [reflexivity|].
  cbn [map flat_map]. now rewrite Hf, IH.
Qed.

Lemma lr_steps_tb_scalars loss cur_lr tb_dict acc :
  lr_steps (tb_scalars loss cur_lr tb_dict acc) = [].
Proof. now apply flat_map_tb_scalars. Qed.

Lemma model_batches_tb_scalars loss cur_lr tb_dict acc :
  model_batches (tb_scalars loss cur_lr tb_dict acc) = [].
Proof. now apply flat_map_tb_scalars. Qed.

Lemma run_log_steps_tb_scalars loss cur_lr tb_dict acc :
  run_log_steps (tb_scalars loss cur_lr tb_dict acc) = [].
Proof. now apply flat_map_tb_scalars. Qed.

Lemma run_log_losses_tb_scalars loss cur_lr tb_dict acc :
  run_log_losses (tb_scalars loss cur_lr tb_dict acc) = [].
Proof. now apply flat_map_tb_scalars. Qed.

Lemma status_lines_tb_scalars loss cur_lr tb_dict acc :
  status_lines (tb_scalars loss cur_lr tb_dict acc) = [].
Proof. now apply flat_map_tb_scalars. Qed.

Lemma latest_saves_tb_scalars loss cur_lr tb_dict acc :
  latest_saves (tb_scalars loss cur_lr tb_dict acc) = [].
Proof. now apply flat_map_tb_scalars. Qed.

Lemma new_iters_tb_scalars loss cur_lr tb_dict acc :
  new_iters (tb_scalars loss cur_lr tb_dict acc) = [].
Proof. now apply flat_map_tb_scalars. Qed.

Lemma hook_firings_tb_scalars loss cur_lr tb_dict acc :
  hook_firings (tb_scalars loss cur_lr tb_dict acc) = [].
Proof. now apply flat_map_tb_scalars. Qed.

End ObservationFacts.

Create Rewrite HintDb observe.

#[global] Hint Rewrite @lr_steps_app @model_batches_app @run_log_steps_app
  @run_log_losses_app @status_lines_app @latest_saves_app @new_iters_app
  @hook_firings_app : observe.

#[global] Hint Rewrite @lr_steps_tb_scalars @model_batches_tb_scalars @run_log_steps_tb_scalars @run_log_losses_tb_scalars @status_lines_tb_scalars @latest_saves_tb_scalars @new_iters_tb_scalars @hook_firings_tb_scalars : observe.

(** ** Ranges *)

Lemma range_from_length lo n : List.length (range_from lo n) = n.
Proof. unfold range_from. now rewrite length_map, length_seq. Qed.

Lemma range_from_snoc lo n :
  range_from lo (S n) = range_from lo n ++ [lo + Z.of_nat n].
Proof. unfold range_from. now rewrite seq_S, map_app. Qed.

(** ** The epoch driver, unfolded once *)

Section EpochShape.

Context {env : Env}.

(** [train_one_epoch] is its loop between a prologue, which may make a new
    iterator and opens the inner progress bar, and an epilogue, which
    closes it. *)
Lemma train_one_epoch_unfold a tl acc it w :
  let T := Epoch.total_it_each_epoch a in
  let start := acc mod T in
  let it' := if T =? Z.of_nat (List.length tl) then List.length (w_iters w) else it in
  let w1 := if T =? Z.of_nat (List.length tl) then set_iters (w_iters w ++ [tl]) w else w in
  let w2 := if Epoch.rank a =? 0
            then set_trace (w_trace w1 ++ [EvPbarCreated T (Epoch.leave_pbar a)]) w1
            else w1 in
  train_one_epoch a tl acc it w =
  if T =? 0 then (Raise ZeroDivisionError, w1) else
  match for_range start T
          (iteration a tl start (time_time PbarCreated (Epoch.cur_epoch a) start))
          (loop_init a acc it') w2 with
  | (Ok l, w3) =>
      (Ok (Loop.accumulated_iter l),
       if Epoch.rank a =? 0 then set_trace (w_trace w3 ++ [EvPbarClose]) w3 else w3)
  | (Raise e, w3) => (Raise e, w3)
  end.
Proof.
  cbv zeta. unfold train_one_epoch, loop_init.
  unfold when, emit, emit_all, modify, iter, raise, bind, ret.
  destruct (_ =? Z.of_nat _); destruct (_ =? 0) eqn:E0; try reflexivity;
    destruct (Epoch.rank a =? 0); cbn [w_trace set_iters set_trace w_iters];
    match goal with
    | |- context [for_range ?a ?b ?c ?d ?e] =>
        destruct (for_range a b c d e) as [[?|?] ?]
    end;
    reflexivity.
Qed.

End EpochShape.

(** The rule of the epoch driver: an invariant of its loop, set up at the
    entry and kept by the iterations, holds at the exit. *)
Section EpochRule.

Context {env : Env}.

Lemma epoch_rule (Inv : Z -> Loop.vars -> World -> Prop) (Ex : Exn -> World -> Prop)
    a tl acc it w :
  let T := Epoch.total_it_each_epoch a in
  let start := acc mod T in
  T <> 0 ->
  Inv start (loop_init a acc (entry_iter a tl it w)) (epoch_entry a tl w) ->
  (forall j l w', start <= j < T -> Inv j l w' ->
     match iteration a tl start (time_time PbarCreated (Epoch.cur_epoch a) start) j l w' with
     | (Ok l', w'') => Inv (j + 1) l' w''
     | (Raise e, w'') => Ex e w''
     end) ->
  match train_one_epoch a tl acc it w with
  | (Ok r, w') =>
      exists l w3, Inv (Z.max start T) l w3 /\ r = Loop.accumulated_iter l /\
                   w' = epoch_exit a w3
  | (Raise e, w') => Ex e w'
  end.
Proof.
  cbv zeta. intros HT Hinit Hbody.
  rewrite train_one_epoch_unfold. cbv zeta.
  fold (entry_iter a tl it w).
  change (if Epoch.rank a =? 0 then set_trace _ _ else _) with (epoch_entry a tl w) at 1.
  destruct (Z.eqb_spec (Epoch.total_it_each_epoch a) 0) as [|_]; [contradiction|].
  pose proof (for_range_rule Inv Ex _ _ _ _ _ Hinit Hbody) as Hloop.
  destruct (for_range _ _ _ _ _) as [[l|e] w3]; [|exact Hloop].
  exists l, w3. repeat split. exact Hloop.
Qed.

(** With no iterations to run, the driver divides by zero at line 30. *)
Lemma train_one_epoch_zero a tl acc it w :
  Epoch.total_it_each_epoch a = 0 ->
  fst (train_one_epoch a tl acc it w) = Raise ZeroDivisionError /\
  w_trace (snd (train_one_epoch a tl acc it w)) = w_trace w /\
  w_files (snd (train_one_epoch a tl acc it w)) = w_files w /\
  w_augmentor (snd (train_one_epoch a tl acc it w)) = w_augmentor w.
Proof.
  intros HT. rewrite train_one_epoch_unfold. cbv zeta. rewrite HT.
  change (0 =? 0) with true. cbv iota. cbn [fst snd].
  destruct (0 =? Z.of_nat (List.length tl)); repeat split; reflexivity.
Qed.

Lemma epoch_entry_trace a tl w :
  exists ev0, w_trace (epoch_entry a tl w) = w_trace w ++ ev0 /\
    (ev0 = [] \/ ev0 = [EvPbarCreated (Epoch.total_it_each_epoch a) (Epoch.leave_pbar a)]).
Proof.
  unfold epoch_entry.
  destruct (Epoch.rank a =? 0), (_ =? Z.of_nat _); cbn [w_trace set_trace set_iters];
    eexists; (split; [trace_ext|]); auto.
Qed.

Lemma epoch_exit_trace a w :
  exists ev1, w_trace (epoch_exit a w) = w_trace w ++ ev1 /\
    (ev1 = [] \/ ev1 = [EvPbarClose]).
Proof.
  unfold epoch_exit.
  destruct (Epoch.rank a =? 0); cbn [w_trace set_trace];
    eexists; (split; [trace_ext|]); auto.
Qed.

End EpochRule.

(** ** The global step counter *)

Section Counter.

Context {env : Env}.

Lemma lead_worker_counter a s p j b lr out d f bt acc cnt m w :
  match lead_worker a s p j b lr out d f bt acc cnt m w with
  | (r, w') =>
      exists evs, w_trace w' = w_trace w ++ evs /\
        lr_steps evs = [] /\ model_batches evs = [] /\ run_log_steps evs = [acc]
  end.
Proof.
  exec_lead.
  all: eexists; (split; [trace_ext|]).
  all: autorewrite with observe; cbn [lr_steps model_batches run_log_steps flat_map app].
  all: repeat split; reflexivity.
Qed.

(** One iteration hands the current step to the schedule, and when its
    training step goes through it counts one step more. *)
Lemma iteration_counter a tl s p j l w :
  let acc := Loop.accumulated_iter l in
  match iteration a tl s p j l w with
  | (r, w') =>
      exists evs, w_trace w' = w_trace w ++ evs /\
        match r with
        | Ok l' =>
            Loop.accumulated_iter l' = acc + 1 /\
            lr_steps evs = [acc] /\
            List.length (model_batches evs) = 1%nat /\
            run_log_steps evs = (if Epoch.rank a =? 0 then [acc + 1] else [])
        | Raise _ =>
            (lr_steps evs = [] /\ model_batches evs = [] /\ run_log_steps evs = []) \/
            (lr_steps evs = [acc] /\ model_batches evs = [] /\ run_log_steps evs = []) \/
            (lr_steps evs = [acc] /\ List.length (model_batches evs) = 1%nat /\
             run_log_steps evs = (if Epoch.rank a =? 0 then [acc + 1] else []))
        end
  end.
Proof.
  intros acc. subst acc.
  exec_iteration.
  all: try use_lead lead_worker_counter.
  all: try match goal with
           | H : exists _, _ |- _ =>
               destruct H as (evl & Hevl & Hl1 & Hl2 & Hl3);
               cbn [w_trace set_trace set_net set_iters set_files] in Hevl; rewrite Hevl
           end.
  all: eexists; (split; [trace_ext|]).
  all: autorewrite with observe;
       cbn [lr_steps model_batches run_log_steps flat_map app List.length].
  all: rewrite ?Hl1, ?Hl2, ?Hl3; cbn [app List.length].
  all: try (repeat split; try reflexivity; fail).
  all: try (left; repeat split; reflexivity).
  all: try (right; left; repeat split; reflexivity).
  all: try (right; right; repeat split; reflexivity).
Qed.

(** Over a whole epoch: the counter's values in the trace, how many
    iterations were started, and what is returned. *)
Lemma epoch_counter a tl acc it w :
  let T := Epoch.total_it_each_epoch a in
  let N := Z.to_nat (T - acc mod T) in
  match train_one_epoch a tl acc it w with
  | (r, w') =>
      exists evs, w_trace w' = w_trace w ++ evs /\
        counts_by_one acc evs /\
        (List.length (lr_steps evs) <= N)%nat /\
        match r with
        | Ok returned =>
            T <> 0 /\
            List.length (model_batches evs) = N /\
            List.length (lr_steps evs) = N /\
            returned = acc + Z.of_nat N
        | Raise _ => True
        end
  end.
Proof.
  cbv zeta.
  destruct (Z.eq_dec (Epoch.total_it_each_epoch a) 0) as [HT|HT].
  { destruct (train_one_epoch_zero a tl acc it w HT) as (Hr & Htr & _).
    destruct (train_one_epoch a tl acc it w) as [r w']. cbn [fst snd] in *. subst r.
    exists []. rewrite app_nil_r. split; [exact Htr|].
    unfold counts_by_one. cbn. repeat split; lia. }
  set (T := Epoch.total_it_each_epoch a) in *.
  set (start := acc mod T).
  pose (Inv := fun (j : Z) (l : Loop.vars) (w' : World) =>
    exists evs, w_trace w' = w_trace w ++ evs /\
      let k := Z.to_nat (j - start) in
      Loop.accumulated_iter l = acc + Z.of_nat k /\
      lr_steps evs = range_from acc k /\
      List.length (model_batches evs) = k /\
      run_log_steps evs = (if Epoch.rank a =? 0 then range_from (acc + 1) k else [])).
  pose (Ex := fun (e : Exn) (w' : World) =>
    exists evs, w_trace w' = w_trace w ++ evs /\ counts_by_one acc evs /\
      (List.length (lr_steps evs) <= Z.to_nat (T - start))%nat).
  pose proof (epoch_rule Inv Ex a tl acc it w HT) as Hrule. cbv zeta in Hrule.
  fold T in Hrule. fold start in Hrule.
  lapply Hrule; clear Hrule.
  2:{ destruct (epoch_entry_trace a tl w) as (ev0 & H0 & Hev0). exists ev0.
      split; [exact H0|].
      replace (start - start) with 0 by lia. cbn [Z.to_nat range_from seq map Z.of_nat].
      cbn [loop_init Loop.accumulated_iter].
      destruct Hev0; subst ev0; cbn; repeat split; try lia;
        now destruct (Epoch.rank a =? 0). }
  intros Hrule. lapply Hrule; clear Hrule.
  2:{ intros j l w' Hj (evs & Htr & Hacc & Hlr & Hmb & Hrl). cbv zeta in *.
      pose proof (iteration_counter a tl start
        (time_time PbarCreated (Epoch.cur_epoch a) start) j l w') as Hit.
      cbv zeta in Hit.
      destruct (iteration _ _ _ _ j l w') as [[l'|e] w''].
      - destruct Hit as (ev1 & Htr1 & Hacc1 & Hlr1 & Hmb1 & Hrl1).
        exists (evs ++ ev1). rewrite Htr1, Htr, <- List.app_assoc. split; [reflexivity|].
        replace (Z.to_nat (j + 1 - start)) with (S (Z.to_nat (j - start))) by lia.
        autorewrite with observe. rewrite Hlr, Hlr1, Hrl, Hrl1, Hacc1, Hacc.
        rewrite !range_from_snoc, List.length_app, Hmb, Hmb1.
        repeat split; try lia.
        destruct (Epoch.rank a =? 0); [|reflexivity].
        do 2 f_equal. lia.
      - destruct Hit as (ev1 & Htr1 & Hcases).
        exists (evs ++ ev1). rewrite Htr1, Htr, <- List.app_assoc. split; [reflexivity|].
        unfold counts_by_one. autorewrite with observe.
        rewrite Hlr, Hrl, !List.length_app, Hmb, range_from_length.
        destruct Hcases as [(H1 & H2 & H3)|[(H1 & H2 & H3)|(H1 & H2 & H3)]];
          rewrite H1, H3, ?H2, ?Hacc; cbn [List.length]; rewrite ?app_nil_r;
          destruct (Epoch.rank a =? 0); cbn [app List.length];
          rewrite ?range_from_length, ?List.length_app, ?range_from_length;
          cbn [List.length]; rewrite ?Nat.add_0_r;
          repeat split; try lia;
          try (rewrite Nat.add_1_r, range_from_snoc; reflexivity);
          try (rewrite Nat.add_1_r, range_from_snoc; do 2 f_equal; lia). }
  intros Hrule.
  destruct (train_one_epoch a tl acc it w) as [[r|e] w'].
  - destruct Hrule as (l & w3 & (evs & Htr & Hacc & Hlr & Hmb & Hrl) & Hr & Hw').
    cbv zeta in *.
    replace (Z.to_nat (Z.max start T - start)) with (Z.to_nat (T - start)) in * by lia.
    destruct (epoch_exit_trace a w3) as (ev1 & Htr1 & Hev1).
    exists (evs ++ ev1). subst w'. rewrite Htr1, Htr, <- List.app_assoc.
    split; [reflexivity|].
    assert (Hz : lr_steps ev1 = [] /\ model_batches ev1 = [] /\ run_log_steps ev1 = [])
      by (destruct Hev1; subst ev1; now cbn).
    destruct Hz as (Hz1 & Hz2 & Hz3).
    unfold counts_by_one. autorewrite with observe.
    rewrite Hz1, Hz2, Hz3, !app_nil_r, Hlr, Hrl, Hmb, range_from_length.
    subst r. rewrite Hacc.
    destruct (Epoch.rank a =? 0); rewrite ?range_from_length; cbn [List.length];
      repeat split; try lia; try assumption.
  - destruct Hrule as (evs & Htr & Hcb & Hb). exists evs. split; [exact Htr|]. split; [exact Hcb|]. split; [exact Hb|exact I].
Qed.
End Counter.

(** ** Drawing batches *)

Lemma draw_nil {B} n : draw n (@nil B) [] = [].
Proof. now destruct n. Qed.

Lemma leftover_nil {B} n : leftover n (@nil B) [] = [].
Proof. now destruct n. Qed.

Lemma restarts_nil {B} n : restarts n (@nil B) [] = O.
Proof. now destruct n. Qed.

Lemma draw_add {B} (n m : nat) (tl : list B) : forall cur,
  draw (n + m) cur tl = draw n cur tl ++ draw m (leftover n cur tl) tl.
Proof.
  induction n as [|n IH]; intros cur; [reflexivity|].
  cbn [Nat.add draw leftover].
  destruct cur as [|b rest]; [destruct tl as [|b rest]|].
  - now rewrite draw_nil.
  - cbn [app]. now rewrite IH.
  - cbn [app]. now rewrite IH.
Qed.

Lemma leftover_add {B} (n m : nat) (tl : list B) : forall cur,
  leftover (n + m) cur tl = leftover m (leftover n cur tl) tl.
Proof.
  induction n as [|n IH]; intros cur; [reflexivity|].
  cbn [Nat.add leftover].
  destruct cur as [|b rest]; [destruct tl as [|b rest]|]; try apply IH.
  now rewrite leftover_nil.
Qed.

Lemma restarts_add {B} (n m : nat) (tl : list B) : forall cur,
  restarts (n + m) cur tl = (restarts n cur tl + restarts m (leftover n cur tl) tl)%nat.
Proof.
  induction n as [|n IH]; intros cur; [reflexivity|].
  cbn [Nat.add restarts leftover].
  destruct cur as [|b rest]; [destruct tl as [|b rest]|]; try apply IH.
  - now rewrite restarts_nil.
  - rewrite IH. reflexivity.
Qed.

Lemma draw_length {B} (n : nat) (tl : list B) : tl <> [] -> forall cur,
  List.length (draw n cur tl) = n.
Proof.
  intros Htl. induction n as [|n IH]; intros cur; [reflexivity|].
  cbn [draw]. destruct cur as [|b rest]; [destruct tl as [|b rest]|];
    [contradiction| |]; cbn [List.length]; now rewrite IH.
Qed.

Section Batches.
Context {env : Env}.

(** What [next_batch] does, by what the iterator has left. *)
Lemma next_batch_spec tl it w cur :
  w_iters w !! it = Some cur ->
  next_batch tl it w =
  match cur with
  | b :: rest => (Ok (b, it), set_iters (<[it := rest]> (w_iters w)) w)
  | [] =>
      match tl with
      | [] => (Raise StopIteration, set_iters (w_iters w ++ [[]]) w)
      | b :: rest =>
          (Ok (b, List.length (w_iters w)),
           set_trace (w_trace w ++ [EvPrint "new iters"])
             (set_iters (<[List.length (w_iters w) := rest]> (w_iters w ++ [tl])) w))
      end
  end.
Proof.
  intros Hcur. unfold next_batch. unfold_prims. rewrite Hcur.
  destruct cur as [|b rest]; [|reflexivity].
  cbn [w_iters set_iters].
  replace ((w_iters w ++ [tl]) !! List.length (w_iters w)) with (Some tl).
  2:{ symmetry. rewrite lookup_app_r by lia. now rewrite Nat.sub_diag. }
  destruct tl as [|b rest]; reflexivity.
Qed.

Lemma lead_worker_frame a s p j b lr out d f bt acc cnt m w :
  match lead_worker a s p j b lr out d f bt acc cnt m w with
  | (r, w') =>
      w_iters w' = w_iters w /\
      exists evs, w_trace w' = w_trace w ++ evs /\
        model_batches evs = [] /\ new_iters evs = [] /\
        match r with
        | Ok _ => True
        | Raise e =>
            e = ZeroDivisionError /\
            ((Epoch.use_logger_to_record a = true /\ Epoch.logger_iter_interval a = 0) \/
             Epoch.ckpt_save_time_interval a = 0)
        end
  end.
Proof.
  exec_lead.
  all: split; [reflexivity|].
  all: eexists; (split; [trace_ext|]).
  all: autorewrite with observe; cbn [model_batches new_iters flat_map app].
  all: repeat split; try reflexivity.
  all: repeat match goal with H : (_ =? _) = true |- _ => apply Z.eqb_eq in H end.
  all: auto.
Qed.

(** One iteration draws the next batch, after a restart when the iterator
    has nothing left, and raises only what the training step or a zero
    interval raise. *)
Lemma iteration_batches a tl s p j l w cur :
  tl <> [] ->
  w_iters w !! Loop.dataloader_iter l = Some cur ->
  match iteration a tl s p j l w with
  | (r, w') =>
      exists evs, w_trace w' = w_trace w ++ evs /\
        List.length (new_iters evs) = restarts 1 cur tl /\
        match r with
        | Ok l' =>
            w_iters w' !! Loop.dataloader_iter l' = Some (leftover 1 cur tl) /\
            model_batches evs = draw 1 cur tl
        | Raise e =>
            (model_batches evs = [] \/ model_batches evs = draw 1 cur tl) /\
            ((e = StepError /\ ~ steps_succeed) \/
             (e = ZeroDivisionError /\ ~ intervals_nonzero a))
        end
  end.
Proof.
  intros Htl Hcur.
  pose proof (lookup_lt_Some _ _ _ Hcur) as Hlt.
  unfold iteration. unfold bind at 1. rewrite (next_batch_spec tl _ w cur Hcur).
  destruct cur as [|b rest]; [destruct tl as [|b rest]; [contradiction|]|].
  all: exec_with ltac:(unfold training_step).
  all: try use_lead lead_worker_frame.
  all: try match goal with
           | H : _ /\ exists _, _ |- _ =>
               destruct H as (Hits & evl & Hevl & Hl1 & Hl2 & Hl3);
               cbn [w_trace set_trace set_net set_iters set_files w_iters] in Hevl, Hits;
               rewrite Hevl, ?Hits
           end.
  all: eexists; (split; [trace_ext|]).
  all: autorewrite with observe; cbn [model_batches new_iters flat_map app List.length].
  all: rewrite ?Hl1, ?Hl2; cbn [app List.length restarts leftover draw].
  all: split; [reflexivity|].
  all: try (split; [|reflexivity]).
  all: try (apply list_lookup_insert_eq; rewrite ?List.length_app; cbn [List.length]; lia).
  all: try (split; [auto; fail|]).
  all: try (left; split; [reflexivity|]; intros Hs; eapply Hs; eassumption).
  all: right; destruct Hl3 as (-> & Hcause); split; [reflexivity|]; intros Hnz.
  all: match goal with H : (Epoch.rank _ =? 0) = true |- _ => apply Z.eqb_eq in H;
         destruct (Hnz H) as (Hlog & Hckpt) end.
  all: destruct Hcause as [(Hu & Hi)|Hc]; [exact (Hlog Hu Hi)|exact (Hckpt Hc)].
Qed.
Lemma epoch_entry_iters a tl it w cur0 :
  entry_batches a tl it w = Some cur0 ->
  w_iters (epoch_entry a tl w) !! entry_iter a tl it w = Some cur0.
Proof.
  unfold entry_batches, epoch_entry, entry_iter.
  destruct (_ =? Z.of_nat _), (Epoch.rank a =? 0); cbn [w_iters set_trace set_iters];
    intros H; try exact H.
  all: injection H as <-; rewrite lookup_app_r by lia; now rewrite Nat.sub_diag.
Qed.

Lemma epoch_draws a tl acc it w cur0 :
  let T := Epoch.total_it_each_epoch a in
  let N := Z.to_nat (T - acc mod T) in
  tl <> [] ->
  entry_batches a tl it w = Some cur0 ->
  match train_one_epoch a tl acc it w with
  | (r, w') =>
      exists evs, w_trace w' = w_trace w ++ evs /\
        let n := List.length (model_batches evs) in
        model_batches evs = draw n cur0 tl /\
        (exists nf, (n <= nf <= n + 1)%nat /\ (nf <= N)%nat /\
           List.length (new_iters evs) = restarts nf cur0 tl) /\
        match r with
        | Ok _ => n = N /\ List.length (new_iters evs) = restarts N cur0 tl
        | Raise e =>
            (e = StepError /\ ~ steps_succeed) \/
            (e = ZeroDivisionError /\ ~ intervals_nonzero a) \/
            (e = ZeroDivisionError /\ T = 0)
        end
  end.
Proof.
  cbv zeta. intros Htl Hcur0.
  destruct (Z.eq_dec (Epoch.total_it_each_epoch a) 0) as [HT|HT].
  { destruct (train_one_epoch_zero a tl acc it w HT) as (Hr & Htr & _).
    destruct (train_one_epoch a tl acc it w) as [r w']. cbn [fst snd] in *. subst r.
    exists []. rewrite app_nil_r. split; [exact Htr|]. cbn.
    split; [reflexivity|]. split; [exists O; repeat split; lia|]. auto. }
  set (T := Epoch.total_it_each_epoch a) in *.
  set (start := acc mod T).
  pose (Inv := fun (j : Z) (l : Loop.vars) (w' : World) =>
    exists evs, w_trace w' = w_trace w ++ evs /\
      let k := Z.to_nat (j - start) in
      w_iters w' !! Loop.dataloader_iter l = Some (leftover k cur0 tl) /\
      model_batches evs = draw k cur0 tl /\
      List.length (new_iters evs) = restarts k cur0 tl).
  pose (Ex := fun (e : Exn) (w' : World) =>
    exists evs, w_trace w' = w_trace w ++ evs /\
      let n := List.length (model_batches evs) in
      model_batches evs = draw n cur0 tl /\
      (exists nf, (n <= nf <= n + 1)%nat /\ (nf <= Z.to_nat (T - start))%nat /\
         List.length (new_iters evs) = restarts nf cur0 tl) /\
      ((e = StepError /\ ~ steps_succeed) \/
       (e = ZeroDivisionError /\ ~ intervals_nonzero a) \/
       (e = ZeroDivisionError /\ T = 0))).
  pose proof (epoch_rule Inv Ex a tl acc it w HT) as Hrule. cbv zeta in Hrule.
  fold T in Hrule. fold start in Hrule.
  lapply Hrule; clear Hrule.
  2:{ destruct (epoch_entry_trace a tl w) as (ev0 & H0 & Hev0). exists ev0.
      split; [exact H0|].
      replace (start - start) with 0 by lia. cbn [Z.to_nat leftover draw restarts].
      cbn [loop_init Loop.dataloader_iter].
      split; [now apply epoch_entry_iters|].
      destruct Hev0; subst ev0; now cbn. }
  intros Hrule. lapply Hrule; clear Hrule.
  2:{ intros j l w' Hj (evs & Htr & Hit0 & Hmb & Hni). cbv zeta in *.
      pose proof (iteration_batches a tl start
        (time_time PbarCreated (Epoch.cur_epoch a) start) j l w' _ Htl Hit0) as Hit.
      set (k := Z.to_nat (j - start)) in *.
      assert (Hk1 : Z.to_nat (j + 1 - start) = (k + 1)%nat) by lia.
      assert (Hmbl : List.length (model_batches evs) = k)
        by (rewrite Hmb; now apply draw_length).
      destruct (iteration _ _ _ _ j l w') as [[l'|e] w''].
      - destruct Hit as (ev1 & Htr1 & Hni1 & Hit1 & Hmb1).
        exists (evs ++ ev1). rewrite Htr1, Htr, <- List.app_assoc. split; [reflexivity|].
        rewrite Hk1, leftover_add, draw_add, restarts_add.
        autorewrite with observe. rewrite List.length_app, Hmb, Hmb1, Hni, Hni1.
        repeat split; assumption.
      - destruct Hit as (ev1 & Htr1 & Hni1 & Hmb1 & Hcause).
        exists (evs ++ ev1). rewrite Htr1, Htr, <- List.app_assoc. split; [reflexivity|].
        autorewrite with observe. rewrite !List.length_app, Hni, Hni1, Hmbl.
        rewrite <- restarts_add.
        split; [|split].
        + destruct Hmb1 as [Hmb1|Hmb1]; rewrite Hmb1.
          * cbn [List.length]. rewrite app_nil_r, Nat.add_0_r. exact Hmb.
          * rewrite draw_length by assumption. rewrite draw_add, Hmb. reflexivity.
        + exists (k + 1)%nat. 
          destruct Hmb1 as [Hmb1|Hmb1]; rewrite Hmb1, ?draw_length by assumption;
            cbn [List.length]; repeat split; lia.
        + destruct Hcause as [H|H]; auto. }
  intros Hrule.
  destruct (train_one_epoch a tl acc it w) as [[r|e] w'].
  - destruct Hrule as (l & w3 & (evs & Htr & Hit0 & Hmb & Hni) & Hr & Hw').
    cbv zeta in *.
    replace (Z.to_nat (Z.max start T - start)) with (Z.to_nat (T - start)) in * by lia.
    destruct (epoch_exit_trace a w3) as (ev1 & Htr1 & Hev1).
    exists (evs ++ ev1). subst w'. rewrite Htr1, Htr, <- List.app_assoc.
    split; [reflexivity|].
    assert (Hz : model_batches ev1 = [] /\ new_iters ev1 = [])
      by (destruct Hev1; subst ev1; now cbn).
    destruct Hz as (Hz1 & Hz2).
    autorewrite with observe. rewrite Hz1, Hz2, !app_nil_r.
    assert (Hmbl : List.length (model_batches evs) = Z.to_nat (T - start))
      by (rewrite Hmb; now apply draw_length).
    rewrite Hmbl. split; [exact Hmb|]. split; [|split; [reflexivity|exact Hni]].
    exists (Z.to_nat (T - start)). repeat split; try lia; exact Hni.
  - exact Hrule.
Qed.
End Batches.

(** ** Status lines *)

Section Status.

Context {env : Env}.

Lemma lead_worker_status a s j b lr out d f bt acc cnt m w :
  Epoch.rank a = 0 ->
  match lead_worker a s (time_time PbarCreated (Epoch.cur_epoch a) s) j b lr out d f bt
                    acc cnt m w with
  | (r, w') =>
      exists evs, w_trace w' = w_trace w ++ evs /\
        ((status_due a s j acc = true /\
          exists sl, status_lines evs = [sl] /\ status_line_at a s j acc sl) \/
         (status_lines evs = [] /\
          match r with Ok _ => status_due a s j acc = false | Raise _ => True end))
  end.
Proof.
  intros Hrank. unfold status_due. rewrite Hrank. change (0 =? 0) with true.
  cbn [andb].
  exec_lead.
  all: eexists; (split; [trace_ext|]).
  all: autorewrite with observe; cbn [status_lines flat_map app andb negb].
  all: try (right; split; [reflexivity|]; try reflexivity; exact I).
  all: left; split; [reflexivity|]; eexists; split; [reflexivity|].
  all: unfold status_line_at, second_each_iter; cbn; repeat split; reflexivity.
Qed.

Lemma iteration_status a tl s j l w :
  let acc' := Loop.accumulated_iter l + 1 in
  match iteration a tl s (time_time PbarCreated (Epoch.cur_epoch a) s) j l w with
  | (r, w') =>
      exists evs, w_trace w' = w_trace w ++ evs /\
        match r with Ok l' => Loop.accumulated_iter l' = acc' | Raise _ => True end /\
        ((status_due a s j acc' = true /\
          exists sl, status_lines evs = [sl] /\ status_line_at a s j acc' sl) \/
         (status_lines evs = [] /\
          match r with Ok _ => status_due a s j acc' = false | Raise _ => True end))
  end.
Proof.
  cbv zeta.
  exec_iteration.
  all: try match goal with
           | H : lead_worker ?a ?s ?p ?j ?b ?lr ?out ?d ?f ?bt ?acc ?cnt ?m ?w = _,
             Hr : (Epoch.rank _ =? 0) = true |- _ =>
               pose proof (lead_worker_status a s j b lr out d f bt acc cnt m w
                             (proj1 (Z.eqb_eq _ _) Hr)) as Hlead;
               rewrite H in Hlead; cbn beta iota in Hlead;
               destruct Hlead as (evl & Hevl & Hst);
               cbn [w_trace set_trace set_net set_iters set_files] in Hevl; rewrite Hevl
           end.
  all: eexists; (split; [trace_ext|]).
  all: autorewrite with observe; cbn [status_lines flat_map app].
  all: split; [try reflexivity; exact I|].
  all: try exact Hst.
  all: right; split; [reflexivity|]; try exact I.
  all: unfold status_due;
       match goal with H : (Epoch.rank _ =? 0) = false |- _ => rewrite H end; reflexivity.
Qed.

(** The status lines of an epoch: one for each iteration that is due one,
    in order, each with the fields of its iteration. *)
Lemma epoch_status a tl acc it w :
  let T := Epoch.total_it_each_epoch a in
  let start := acc mod T in
  let N := Z.to_nat (T - start) in
  let due := fun j => status_due a start j (acc + (j - start) + 1) in
  match train_one_epoch a tl acc it w with
  | (r, w') =>
      exists evs, w_trace w' = w_trace w ++ evs /\
        Forall (fun sl =>
                  start <= sl_cur_it sl < T /\ due (sl_cur_it sl) = true /\
                  status_line_at a start (sl_cur_it sl)
                                 (acc + (sl_cur_it sl - start) + 1) sl)
               (status_lines evs) /\
        exists n, (n <= N)%nat /\
          map sl_cur_it (status_lines evs) = List.filter due (range_from start n) /\
          match r with Ok _ => n = N | Raise _ => True end
  end.
Proof.
  cbv zeta.
  destruct (Z.eq_dec (Epoch.total_it_each_epoch a) 0) as [HT|HT].
  { destruct (train_one_epoch_zero a tl acc it w HT) as (Hr & Htr & _).
    destruct (train_one_epoch a tl acc it w) as [r w']. cbn [fst snd] in *. subst r.
    exists []. rewrite app_nil_r. split; [exact Htr|]. cbn [status_lines flat_map].
    split; [constructor|]. exists O. split; [lia|]. split; [reflexivity|exact I]. }
  set (T := Epoch.total_it_each_epoch a) in *.
  set (start := acc mod T).
  set (due := fun j => status_due a start j (acc + (j - start) + 1)).
  set (P := fun sl => start <= sl_cur_it sl < T /\ due (sl_cur_it sl) = true /\
                  status_line_at a start (sl_cur_it sl)
                                 (acc + (sl_cur_it sl - start) + 1) sl).
  pose (Inv := fun (j : Z) (l : Loop.vars) (w' : World) =>
    exists evs, w_trace w' = w_trace w ++ evs /\
      let k := Z.to_nat (j - start) in
      Loop.accumulated_iter l = acc + (j - start) /\
      Forall P (status_lines evs) /\
      map sl_cur_it (status_lines evs) = List.filter due (range_from start k)).
  pose (Ex := fun (e : Exn) (w' : World) =>
    exists evs, w_trace w' = w_trace w ++ evs /\
      Forall P (status_lines evs) /\
      exists n, (n <= Z.to_nat (T - start))%nat /\
        map sl_cur_it (status_lines evs) = List.filter due (range_from start n)).
  pose proof (epoch_rule Inv Ex a tl acc it w HT) as Hrule. cbv zeta in Hrule.
  fold T in Hrule. fold start in Hrule.
  lapply Hrule; clear Hrule.
  2:{ destruct (epoch_entry_trace a tl w) as (ev0 & H0 & Hev0). exists ev0.
      split; [exact H0|].
      replace (start - start) with 0 by lia. cbn [Z.to_nat range_from seq map List.filter].
      cbn [loop_init Loop.accumulated_iter].
      destruct Hev0; subst ev0; cbn [status_lines flat_map app map];
        repeat split; try lia; constructor. }
  intros Hrule. lapply Hrule; clear Hrule.
  2:{ intros j l w' Hj (evs & Htr & Hacc & Hall & Hmap). cbv zeta in *.
      pose proof (iteration_status a tl start j l w') as Hit. cbv zeta in Hit.
      set (k := Z.to_nat (j - start)) in *.
      assert (Hk1 : Z.to_nat (j + 1 - start) = S k) by lia.
      assert (Hjk : start + Z.of_nat k = j) by lia.
      assert (Hacc' : Loop.accumulated_iter l + 1 = acc + (j - start) + 1) by lia.
      rewrite Hacc' in Hit. fold (due j) in Hit.
      destruct (iteration _ _ _ _ j l w') as [[l'|e] w''];
        destruct Hit as (ev1 & Htr1 & Hacc1 & Hst);
        exists (evs ++ ev1); rewrite Htr1, Htr, <- List.app_assoc;
        (split; [reflexivity|]); autorewrite with observe.
      - split; [lia|]. rewrite Hk1, range_from_snoc, List.filter_app, map_app, Hjk.
        cbn [List.filter].
        destruct Hst as [(Hdue & sl & Hsl & Hat)|(Hsl & Hdue)]; rewrite Hsl, Hdue.
        + assert (Hcur : sl_cur_it sl = j) by (apply Hat).
          split.
          * apply Forall_app. split; [exact Hall|]. constructor; [|constructor].
            unfold P. rewrite Hcur. split; [lia|]. split; [exact Hdue|exact Hat].
          * cbn [map]. now rewrite Hmap, Hcur.
        + rewrite app_nil_r. split; [exact Hall|]. cbn [map]. rewrite !List.app_nil_r. exact Hmap.
      - destruct Hst as [(Hdue & sl & Hsl & Hat)|(Hsl & _)]; rewrite Hsl.
        + assert (Hcur : sl_cur_it sl = j) by (apply Hat).
          split.
          * apply Forall_app. split; [exact Hall|]. constructor; [|constructor].
            unfold P. rewrite Hcur. split; [lia|]. split; [exact Hdue|exact Hat].
          * exists (S k). split; [lia|].
            rewrite range_from_snoc, List.filter_app, map_app, Hjk.
            cbn [List.filter]. rewrite Hdue. cbn [map]. now rewrite Hmap, Hcur.
        + rewrite app_nil_r. split; [exact Hall|]. exists k. split; [lia|exact Hmap]. }
  intros Hrule.
  destruct (train_one_epoch a tl acc it w) as [[r|e] w'].
  - destruct Hrule as (l & w3 & (evs & Htr & Hacc & Hall & Hmap) & Hr & Hw').
    cbv zeta in *.
    replace (Z.to_nat (Z.max start T - start)) with (Z.to_nat (T - start)) in * by lia.
    destruct (epoch_exit_trace a w3) as (ev1 & Htr1 & Hev1).
    exists (evs ++ ev1). subst w'. rewrite Htr1, Htr, <- List.app_assoc.
    split; [reflexivity|].
    assert (Hz : status_lines ev1 = []) by (destruct Hev1; subst ev1; now cbn).
    autorewrite with observe. rewrite Hz, !app_nil_r.
    split; [exact Hall|]. exists (Z.to_nat (T - start)). split; [lia|]. split; [exact Hmap|reflexivity].
  - destruct Hrule as (evs & Htr & Hall & n & Hn & Hmap).
    exists evs. split; [exact Htr|]. split; [exact Hall|].
    exists n. split; [exact Hn|]. split; [exact Hmap|exact I].
Qed.

End Status.

(** ** The latest slot *)

Lemma count_due_snoc I rs e c :
  count_due I (rs ++ [e]) c =
  (if ckpt_due e I (count_due I rs c) then count_due I rs c + 1 else count_due I rs c).
Proof. unfold count_due. now rewrite fold_left_app. Qed.

Section Latest.

Context {env : Env}.

Lemma readings_snoc a s k :
  readings a s (S k) = readings a s k ++ [time_past a s (s + Z.of_nat k)].
Proof. unfold readings. now rewrite range_from_snoc, map_app. Qed.

Lemma lead_worker_latest a s j b lr out d f bt acc cnt m w :
  let due := ckpt_due (time_past a s j) (Epoch.ckpt_save_time_interval a) cnt in
  match lead_worker a s (time_time PbarCreated (Epoch.cur_epoch a) s) j b lr out d f bt
                    acc cnt m w with
  | (r, w') =>
      exists evs, w_trace w' = w_trace w ++ evs /\
        match r with
        | Ok (cnt', _) =>
            cnt' = (if due then cnt + 1 else cnt) /\
            if due
            then exists ck, latest_saves evs = [ck] /\
                   ck_epoch ck = Epoch.cur_epoch a /\ ck_it ck = acc
            else latest_saves evs = []
        | Raise _ => latest_saves evs = []
        end
  end.
Proof.
  cbv zeta. unfold time_past.
  exec_lead.
  all: change (append "latest_model" ".pth") with "latest_model.pth"%string.
  all: eexists; (split; [trace_ext|]).
  all: autorewrite with observe; cbn [latest_saves flat_map app].
  all: rewrite ?String.eqb_refl; cbn [app].
  all: try reflexivity.
  all: try (split; reflexivity).
  all: split; [reflexivity|]; eexists; split; [reflexivity|]; split; reflexivity.
Qed.

Lemma iteration_latest a tl s j l w :
  let due := ckpt_due (time_past a s j) (Epoch.ckpt_save_time_interval a)
                      (Loop.ckpt_save_cnt l) in
  match iteration a tl s (time_time PbarCreated (Epoch.cur_epoch a) s) j l w with
  | (r, w') =>
      exists evs, w_trace w' = w_trace w ++ evs /\
        match r with
        | Ok l' =>
            Loop.accumulated_iter l' = Loop.accumulated_iter l + 1 /\
            if Epoch.rank a =? 0 then
              if due
              then Loop.ckpt_save_cnt l' = Loop.ckpt_save_cnt l + 1 /\
                   exists ck, latest_saves evs = [ck] /\
                     ck_epoch ck = Epoch.cur_epoch a /\
                     ck_it ck = Loop.accumulated_iter l + 1
              else Loop.ckpt_save_cnt l' = Loop.ckpt_save_cnt l /\ latest_saves evs = []
            else Loop.ckpt_save_cnt l' = Loop.ckpt_save_cnt l /\ latest_saves evs = []
        | Raise _ => latest_saves evs = []
        end
  end.
Proof.
  cbv zeta.
  exec_iteration.
  all: try match goal with
           | H : lead_worker ?a ?s ?p ?j ?b ?lr ?out ?d ?f ?bt ?acc ?cnt ?m ?w = _ |- _ =>
               pose proof (lead_worker_latest a s j b lr out d f bt acc cnt m w) as Hlead;
               rewrite H in Hlead; cbn beta iota zeta in Hlead;
               destruct Hlead as (evl & Hevl & Hst);
               cbn [w_trace set_trace set_net set_iters set_files] in Hevl; rewrite Hevl
           end.
  all: eexists; (split; [trace_ext|]).
  all: autorewrite with observe; cbn [latest_saves flat_map app andb].
  all: try exact Hst.
  all: try reflexivity.
  all: try (split; [reflexivity|]; split; reflexivity).
  all: split; [reflexivity|].
  all: match goal with H : ckpt_due _ _ _ = _ |- _ => rewrite H in Hst end.
  all: destruct Hst as (-> & Hst); (split; [reflexivity|exact Hst]).
Qed.

(** The checkpoints of the ["latest"] slot over an epoch: as many as the
    save counter says, each with the epoch and the global step of the
    iteration that wrote it. *)
Lemma epoch_latest a tl acc it w :
  let T := Epoch.total_it_each_epoch a in
  let start := acc mod T in
  let N := Z.to_nat (T - start) in
  let I := Epoch.ckpt_save_time_interval a in
  match train_one_epoch a tl acc it w with
  | (r, w') =>
      exists evs, w_trace w' = w_trace w ++ evs /\
        exists n, (n <= N)%nat /\
          Z.of_nat (List.length (latest_saves evs)) =
            (if Epoch.rank a =? 0 then count_due I (readings a start n) 1 - 1 else 0) /\
          Forall (fun ck => ck_epoch ck = Epoch.cur_epoch a /\
                            acc < ck_it ck <= acc + Z.of_nat n)
                 (latest_saves evs) /\
          match r with Ok _ => n = N | Raise _ => True end
  end.
Proof.
  cbv zeta.
  destruct (Z.eq_dec (Epoch.total_it_each_epoch a) 0) as [HT|HT].
  { destruct (train_one_epoch_zero a tl acc it w HT) as (Hr & Htr & _).
    destruct (train_one_epoch a tl acc it w) as [r w']. cbn [fst snd] in *. subst r.
    exists []. rewrite app_nil_r. split; [exact Htr|]. exists O.
    cbn. split; [lia|]. split; [now destruct (Epoch.rank a =? 0)|]. split; constructor. }
  set (T := Epoch.total_it_each_epoch a) in *.
  set (start := acc mod T).
  set (Iv := Epoch.ckpt_save_time_interval a).
  set (P := fun (n : nat) ck => ck_epoch ck = Epoch.cur_epoch a /\
                            acc < ck_it ck <= acc + Z.of_nat n).
  assert (HPmono : forall n n' l, (n <= n')%nat -> Forall (P n) l -> Forall (P n') l).
  { intros n n' l Hn. apply List.Forall_impl. unfold P. intros ck (H1 & H2). split; [exact H1|lia]. }
  pose (Inv := fun (j : Z) (l : Loop.vars) (w' : World) =>
    exists evs, w_trace w' = w_trace w ++ evs /\
      let k := Z.to_nat (j - start) in
      Loop.accumulated_iter l = acc + Z.of_nat k /\
      Loop.ckpt_save_cnt l =
        (if Epoch.rank a =? 0 then count_due Iv (readings a start k) 1 else 1) /\
      Z.of_nat (List.length (latest_saves evs)) = Loop.ckpt_save_cnt l - 1 /\
      Forall (P k) (latest_saves evs)).
  pose (Ex := fun (e : Exn) (w' : World) =>
    exists evs, w_trace w' = w_trace w ++ evs /\
      exists n, (n <= Z.to_nat (T - start))%nat /\
        Z.of_nat (List.length (latest_saves evs)) =
          (if Epoch.rank a =? 0 then count_due Iv (readings a start n) 1 - 1 else 0) /\
        Forall (P n) (latest_saves evs)).
  pose proof (epoch_rule Inv Ex a tl acc it w HT) as Hrule. cbv zeta in Hrule.
  fold T in Hrule. fold start in Hrule.
  lapply Hrule; clear Hrule.
  2:{ destruct (epoch_entry_trace a tl w) as (ev0 & H0 & Hev0). exists ev0.
      split; [exact H0|].
      replace (start - start) with 0 by lia.
      cbn [Z.to_nat readings range_from seq map count_due fold_left Z.of_nat].
      cbn [loop_init Loop.accumulated_iter Loop.ckpt_save_cnt].
      destruct Hev0; subst ev0; cbn [latest_saves flat_map app List.length Z.of_nat];
        repeat split; try lia; try constructor; now destruct (Epoch.rank a =? 0). }
  intros Hrule. lapply Hrule; clear Hrule.
  2:{ intros j l w' Hj (evs & Htr & Hacc & Hcnt & Hlen & Hall). cbv zeta in *.
      pose proof (iteration_latest a tl start j l w') as Hit. cbv zeta in Hit.
      set (k := Z.to_nat (j - start)) in *.
      assert (Hk1 : Z.to_nat (j + 1 - start) = S k) by lia.
      assert (Hjk : start + Z.of_nat k = j) by lia.
      destruct (iteration _ _ _ _ j l w') as [[l'|e] w''];
        destruct Hit as (ev1 & Htr1 & Hst);
        exists (evs ++ ev1); rewrite Htr1, Htr, <- List.app_assoc;
        (split; [reflexivity|]); autorewrite with observe.
      - destruct Hst as (Hacc1 & Hst).
        rewrite Hk1, readings_snoc, count_due_snoc, Hjk. fold Iv in Hst.
        split; [lia|].
        destruct (Epoch.rank a =? 0).
        + rewrite <- Hcnt.
          destruct (ckpt_due _ _ _).
          * destruct Hst as (Hc & ck & Hck & Hep & Hit1). rewrite Hck, Hc.
            rewrite List.length_app. cbn [List.length].
            repeat split; try lia.
            apply Forall_app. split; [apply (HPmono k); [lia|exact Hall]|].
            constructor; [|constructor]. unfold P. split; [exact Hep|lia].
          * destruct Hst as (Hc & Hck). rewrite Hck, Hc, List.app_nil_r.
            repeat split; try lia. apply (HPmono k); [lia|exact Hall].
        + destruct Hst as (Hc & Hck). rewrite Hck, Hc, List.app_nil_r.
          repeat split; try lia. apply (HPmono k); [lia|exact Hall].
      - rewrite Hst, List.app_nil_r. exists k. split; [lia|].
        split; [|exact Hall]. rewrite Hlen, Hcnt. now destruct (Epoch.rank a =? 0). }
  intros Hrule.
  destruct (train_one_epoch a tl acc it w) as [[r|e] w'].
  - destruct Hrule as (l & w3 & (evs & Htr & Hacc & Hcnt & Hlen & Hall) & Hr & Hw').
    cbv zeta in *.
    replace (Z.to_nat (Z.max start T - start)) with (Z.to_nat (T - start)) in * by lia.
    destruct (epoch_exit_trace a w3) as (ev1 & Htr1 & Hev1).
    exists (evs ++ ev1). subst w'. rewrite Htr1, Htr, <- List.app_assoc.
    split; [reflexivity|].
    assert (Hz : latest_saves ev1 = []) by (destruct Hev1; subst ev1; now cbn).
    autorewrite with observe. rewrite Hz, !List.app_nil_r.
    exists (Z.to_nat (T - start)). split; [lia|].
    split; [|split; [exact Hall|reflexivity]].
    rewrite Hlen, Hcnt. now destruct (Epoch.rank a =? 0).
  - destruct Hrule as (evs & Htr & n & Hn & Hlen & Hall).
    exists evs. split; [exact Htr|]. exists n.
    split; [exact Hn|]. split; [exact Hlen|]. split; [exact Hall|exact I].
Qed.

End Latest.

(** ** Dicts *)

Lemma dict_get_set_eq {V} (k : string) (v : V) (d : dict V) :
  dict_get k (dict_set k v d) = Some v.
Proof.
  induction d as [|[k' v'] d IH]; cbn [dict_set dict_get].
  - now rewrite String.eqb_refl.
  - destruct (String.eqb k k') eqn:E; cbn [dict_get]; rewrite E; [reflexivity|exact IH].
Qed.

Lemma dict_get_set_ne {V} (k k' : string) (v : V) (d : dict V) :
  String.eqb k k' = false ->
  dict_get k (dict_set k' v d) = dict_get k d.
Proof.
  intros Hne. induction d as [|[k0 v0] d IH]; cbn [dict_set dict_get].
  - now rewrite Hne.
  - destruct (String.eqb k' k0) eqn:E; cbn [dict_get].
    + apply String.eqb_eq in E. subst k0. now rewrite Hne.
    + destruct (String.eqb k k0); [reflexivity|exact IH].
Qed.

Lemma dict_get_app_found {V} (k : string) (v : V) (d1 d2 : dict V) :
  dict_get k d1 = Some v -> dict_get k (d1 ++ d2) = Some v.
Proof.
  induction d1 as [|[k0 v0] d1 IH]; cbn [dict_get app]; [discriminate|].
  destruct (String.eqb k k0); [auto|exact IH].
Qed.

Lemma dict_get_filter_other {V} (k k' : string) (d : dict V) :
  String.eqb k k' = false ->
  dict_get k (List.filter (fun kv => negb (String.eqb (fst kv) k')) d) = dict_get k d.
Proof.
  intros Hne. induction d as [|[k0 v0] d IH]; [reflexivity|].
  cbn [List.filter fst dict_get].
  destruct (String.eqb k0 k') eqn:E; cbn [negb dict_get].
  - apply String.eqb_eq in E. subst k0. now rewrite Hne.
  - destruct (String.eqb k k0); [reflexivity|exact IH].
Qed.

(** The status line shows the average of [loss_disp]. *)
Lemma disp_str_loss (m : Meters) (cur_lr total_norm : Q) (d : dict DispVal) :
  dict_get "loss" (disp_str (update_disp m cur_lr total_norm d)) =
  Some (DNum (AverageMeter.avg (loss_disp m))).
Proof.
  unfold disp_str. apply dict_get_app_found.
  rewrite dict_get_filter_other by reflexivity.
  unfold update_disp, dict_update. cbn [fold_left fst snd].
  rewrite !dict_get_set_ne by reflexivity.
  apply dict_get_set_eq.
Qed.

(** The head losses leave the other meters alone. *)
Lemma head_updates_keep tb m d m' d' :
  update_rcnn tb (update_center_head tb (m, d)) = (m', d') ->
  loss_disp m' = loss_disp m /\ data_time m' = data_time m /\
  batch_time m' = batch_time m /\ forward_time m' = forward_time m.
Proof.
  unfold update_rcnn, update_center_head.
  destruct (dict_has "hm_loss_head_0" tb && dict_has "loc_loss_head_0" tb);
    destruct (dict_has "rcnn_loss_reg" tb && dict_has "rcnn_loss_cls" tb);
    intros H; injection H as <- <-; repeat split; reflexivity.
Qed.

(** ** Meters *)

Lemma of_list_snoc vs v :
  AverageMeter.of_list (vs ++ [v]) = AverageMeter.update v (AverageMeter.of_list vs).
Proof. unfold AverageMeter.of_list. now rewrite fold_left_app. Qed.

Lemma of_list_count vs :
  AverageMeter.count (AverageMeter.of_list vs) = Z.of_nat (List.length vs).
Proof.
  induction vs as [|v vs IH] using rev_ind; [reflexivity|].
  rewrite of_list_snoc, List.length_app. cbn [AverageMeter.update AverageMeter.count List.length].
  rewrite IH. lia.
Qed.

Lemma Qsum_snoc vs v : (Qsum (vs ++ [v]) == Qsum vs + v)%Q.
Proof.
  induction vs as [|x vs IH]; cbn [Qsum app fold_right].
  - ring.
  - fold (Qsum (vs ++ [v])). fold (Qsum vs). rewrite IH. ring.
Qed.

Lemma of_list_sum vs : (AverageMeter.sum (AverageMeter.of_list vs) == Qsum vs)%Q.
Proof.
  induction vs as [|v vs IH] using rev_ind; [reflexivity|].
  rewrite of_list_snoc. cbn [AverageMeter.update AverageMeter.sum].
  rewrite IH, Qsum_snoc. ring.
Qed.

(** After a reset and the updates [vs ++ [v]], the average is the
    arithmetic mean of these values. *)
Lemma of_list_avg vs v :
  (AverageMeter.avg (AverageMeter.of_list (vs ++ [v])) == mean (vs ++ [v]))%Q.
Proof.
  rewrite of_list_snoc. cbn [AverageMeter.update AverageMeter.avg]. unfold mean.
  rewrite of_list_count, of_list_sum, Qsum_snoc, List.length_app. cbn [List.length].
  replace (Z.of_nat (List.length vs) + 1) with (Z.of_nat (List.length vs + 1)) by lia.
  apply Qdiv_comp; [ring|reflexivity].
Qed.

(** ** Windows of losses *)

Section WindowFacts.

Context {env : Env}.

Lemma pending_losses_app (e1 e2 : list Event) : forall cur,
  pending_losses cur (e1 ++ e2) = pending_losses (pending_losses cur e1) e2.
Proof.
  induction e1 as [|e e1 IH]; intros cur; [reflexivity|].
  destruct e; cbn [app pending_losses]; try apply IH.
  destruct l; apply IH.
Qed.

Lemma loss_windows_app (e1 e2 : list Event) : forall cur,
  loss_windows cur (e1 ++ e2) =
  loss_windows cur e1 ++ loss_windows (pending_losses cur e1) e2.
Proof.
  induction e1 as [|e e1 IH]; intros cur; [reflexivity|].
  destruct e; cbn [app pending_losses loss_windows]; try apply IH.
  destruct l; cbn [app]; try apply IH. now rewrite IH.
Qed.

Lemma pending_losses_tb_scalars loss cur_lr tb_dict acc cur :
  pending_losses cur (tb_scalars loss cur_lr tb_dict acc) = cur.
Proof.
  unfold tb_scalars. cbn [pending_losses].
  induction tb_dict as [|kv d IH]; [reflexivity|exact IH].
Qed.

Lemma loss_windows_tb_scalars loss cur_lr tb_dict acc cur :
  loss_windows cur (tb_scalars loss cur_lr tb_dict acc) = [].
Proof.
  unfold tb_scalars. cbn [loss_windows].
  induction tb_dict as [|kv d IH]; [reflexivity|exact IH].
Qed.

End WindowFacts.

Ltac window_simpl :=
  repeat (progress (rewrite ?pending_losses_app, ?loss_windows_app,
                      ?pending_losses_tb_scalars, ?loss_windows_tb_scalars;
                    cbn [pending_losses loss_windows app])).

Section Windows.

Context {env : Env}.

(** What the lead worker does to the loss meter and to the window of
    losses: with a status line the window is shown, averaged, and the
    meter is reset; without one the loss joins the window. *)
Lemma lead_worker_window a s p j b lr out d f bt acc cnt m w :
  let loss := so_loss out in
  match lead_worker a s p j b lr out d f bt acc cnt m w with
  | (r, w') =>
      exists evs, w_trace w' = w_trace w ++ evs /\
        ((exists sl, status_lines evs = [sl] /\
            dict_get "loss" (sl_disp sl) =
              Some (DNum (AverageMeter.avg (AverageMeter.update loss (loss_disp m)))) /\
            (forall cur, pending_losses cur evs = [] /\
                         loss_windows cur evs = [cur ++ [loss]]) /\
            match r with
            | Ok (_, m') => loss_disp m' = AverageMeter.reset
            | Raise _ => True
            end) \/
         (status_lines evs = [] /\
          (forall cur, pending_losses cur evs = cur ++ [loss] /\ loss_windows cur evs = []) /\
          match r with
          | Ok (_, m') => loss_disp m' = AverageMeter.update loss (loss_disp m)
          | Raise _ => True
          end))
  end.
Proof.
  cbv zeta.
  exec_lead.
  all: match goal with
       | H : update_rcnn _ _ = (_, _) |- _ =>
           destruct (head_updates_keep _ _ _ _ _ H) as (Hkeep & _);
           cbn [update_times_and_loss loss_disp] in Hkeep
       end.
  all: eexists; (split; [trace_ext|]).
  all: autorewrite with observe; cbn [status_lines flat_map app].
  all: first
    [ right; split; [reflexivity|]; split;
      [ intros cur; window_simpl; split; reflexivity
      | try exact I; exact Hkeep ]
    | left; eexists; split; [reflexivity|]; cbn [sl_disp]; split;
      [ rewrite disp_str_loss, Hkeep; reflexivity |];
      split;
      [ intros cur; window_simpl; split; reflexivity
      | try exact I; reflexivity ] ].
Qed.
Lemma iteration_window a tl s p j l w :
  match iteration a tl s p j l w with
  | (r, w') =>
      exists evs, w_trace w' = w_trace w ++ evs /\
        ((exists sl loss, status_lines evs = [sl] /\
            dict_get "loss" (sl_disp sl) =
              Some (DNum (AverageMeter.avg
                            (AverageMeter.update loss (loss_disp (Loop.meters l))))) /\
            (forall cur, pending_losses cur evs = [] /\
                         loss_windows cur evs = [cur ++ [loss]]) /\
            match r with
            | Ok l' => loss_disp (Loop.meters l') = AverageMeter.reset
            | Raise _ => True
            end) \/
         (exists loss, status_lines evs = [] /\
            (forall cur, pending_losses cur evs = cur ++ [loss] /\
                         loss_windows cur evs = []) /\
            match r with
            | Ok l' =>
                loss_disp (Loop.meters l') =
                AverageMeter.update loss (loss_disp (Loop.meters l))
            | Raise _ => True
            end) \/
         (status_lines evs = [] /\
            (forall cur, pending_losses cur evs = cur /\ loss_windows cur evs = []) /\
            match r with
            | Ok l' => loss_disp (Loop.meters l') = loss_disp (Loop.meters l)
            | Raise _ => True
            end))
  end.
Proof.
  exec_iteration.
  all: try use_lead lead_worker_window.
  all: try match goal with
           | H : exists _, _ |- _ =>
               destruct H as (evl & Hevl & Hst);
               cbn [w_trace set_trace set_net set_iters set_files] in Hevl; rewrite Hevl
           end.
  all: eexists; (split; [trace_ext|]).
  all: autorewrite with observe; cbn [status_lines flat_map app].
  all: try (right; right; split; [reflexivity|]; split;
            [intros cur; window_simpl; split; reflexivity|try exact I; reflexivity]).

  all: destruct Hst as [(sl & Hsl & Hshown & Hwin & Hm)|(Hsl & Hwin & Hm)]; rewrite Hsl.
  all: try (left; exists sl; eexists; split; [reflexivity|]; split; [exact Hshown|];
            split; [intros cur; window_simpl; apply Hwin|exact Hm]).
  all: right; left; eexists; split; [reflexivity|]; split;
       [intros cur; window_simpl; apply Hwin|exact Hm].
Qed.

Lemma shown_losses_app (e1 e2 : list Event) :
  shown_losses (e1 ++ e2) = shown_losses e1 ++ shown_losses e2.
Proof. unfold shown_losses. now rewrite status_lines_app, map_app. Qed.

(** Over an epoch, every status line shows the mean of the losses logged
    since the status line before it. *)
Lemma epoch_window a tl acc it w :
  match train_one_epoch a tl acc it w with
  | (r, w') =>
      exists evs, w_trace w' = w_trace w ++ evs /\
        Forall2 shows_mean (shown_losses evs) (loss_windows [] evs)
  end.
Proof.
  destruct (Z.eq_dec (Epoch.total_it_each_epoch a) 0) as [HT|HT].
  { destruct (train_one_epoch_zero a tl acc it w HT) as (Hr & Htr & _).
    destruct (train_one_epoch a tl acc it w) as [r w']. cbn [fst snd] in *.
    exists []. rewrite List.app_nil_r. split; [exact Htr|]. constructor. }
  pose (Inv := fun (j : Z) (l : Loop.vars) (w' : World) =>
    exists evs, w_trace w' = w_trace w ++ evs /\
      loss_disp (Loop.meters l) = AverageMeter.of_list (pending_losses [] evs) /\
      Forall2 shows_mean (shown_losses evs) (loss_windows [] evs)).
  pose (Ex := fun (e : Exn) (w' : World) =>
    exists evs, w_trace w' = w_trace w ++ evs /\
      Forall2 shows_mean (shown_losses evs) (loss_windows [] evs)).
  pose proof (epoch_rule Inv Ex a tl acc it w HT) as Hrule. cbv zeta in Hrule.
  lapply Hrule; clear Hrule.
  2:{ destruct (epoch_entry_trace a tl w) as (ev0 & H0 & Hev0). exists ev0.
      split; [exact H0|].
      destruct Hev0; subst ev0; cbn; split; try reflexivity; constructor. }
  intros Hrule. lapply Hrule; clear Hrule.
  2:{ intros j l w' Hj (evs & Htr & Hm & Hall).
      pose proof (iteration_window a tl (acc mod Epoch.total_it_each_epoch a)
        (time_time PbarCreated (Epoch.cur_epoch a) (acc mod Epoch.total_it_each_epoch a))
        j l w') as Hit.
      assert (Hstep : forall ev1,
        ((exists sl loss, status_lines ev1 = [sl] /\
            dict_get "loss" (sl_disp sl) =
              Some (DNum (AverageMeter.avg
                            (AverageMeter.update loss (loss_disp (Loop.meters l))))) /\
            (forall cur, pending_losses cur ev1 = [] /\
                         loss_windows cur ev1 = [cur ++ [loss]])) \/
         (status_lines ev1 = [] /\ forall cur, loss_windows cur ev1 = [])) ->
        Forall2 shows_mean (shown_losses (evs ++ ev1)) (loss_windows [] (evs ++ ev1))).
      { intros ev1 Hcase. rewrite shown_losses_app, loss_windows_app.
        apply Forall2_app; [exact Hall|].
        destruct Hcase as [(sl & loss & Hsl & Hshown & Hwin)|(Hsl & Hwin)].
        - unfold shown_losses. rewrite Hsl. cbn [map].
          destruct (Hwin (pending_losses [] evs)) as (_ & ->).
          constructor; [|constructor].
          eexists. split; [exact Hshown|]. split; [now destruct (pending_losses [] evs)|].
          rewrite Hm, <- of_list_snoc. apply of_list_avg.
        - unfold shown_losses. rewrite Hsl, Hwin. constructor. }
      destruct (iteration _ _ _ _ j l w') as [[l'|e] w''];
        destruct Hit as (ev1 & Htr1 & Hcase);
        exists (evs ++ ev1); rewrite Htr1, Htr, <- List.app_assoc;
        (split; [reflexivity|]).
      - split.
        + rewrite pending_losses_app.
          destruct Hcase as [(sl & loss & Hsl & Hshown & Hwin & Hl')
                            |[(loss & Hsl & Hwin & Hl')|(Hsl & Hwin & Hl')]];
            destruct (Hwin (pending_losses [] evs)) as (-> & _); rewrite Hl'.
          * reflexivity.
          * now rewrite Hm, of_list_snoc.
          * exact Hm.
        + apply Hstep.
          destruct Hcase as [(sl & loss & Hsl & Hshown & Hwin & Hl')
                            |[(loss & Hsl & Hwin & Hl')|(Hsl & Hwin & Hl')]].
          * left. exists sl, loss. repeat split; try assumption; apply Hwin.
          * right. split; [exact Hsl|]. intros cur. apply Hwin.
          * right. split; [exact Hsl|]. intros cur. apply Hwin.
      - apply Hstep.
        destruct Hcase as [(sl & loss & Hsl & Hshown & Hwin & Hl')
                          |[(loss & Hsl & Hwin & Hl')|(Hsl & Hwin & Hl')]].
        * left. exists sl, loss. repeat split; try assumption; apply Hwin.
        * right. split; [exact Hsl|]. intros cur. apply Hwin.
        * right. split; [exact Hsl|]. intros cur. apply Hwin. }
  intros Hrule.
  destruct (train_one_epoch a tl acc it w) as [[r|e] w'].
  - destruct Hrule as (l & w3 & (evs & Htr & Hm & Hall) & Hr & Hw').
    destruct (epoch_exit_trace a w3) as (ev1 & Htr1 & Hev1).
    exists (evs ++ ev1). subst w'. rewrite Htr1, Htr, <- List.app_assoc.
    split; [reflexivity|].
    rewrite shown_losses_app, loss_windows_app.
    destruct Hev1; subst ev1; cbn [shown_losses status_lines flat_map map loss_windows app];
      rewrite !List.app_nil_r; exact Hall.
  - exact Hrule.
Qed.
End Windows.

(** ** The checkpoint directory *)

Lemma fs_write_names (f : File) (fs : list File) :
  map f_name (fs_write f fs) =
  if existsb (file_named (f_name f)) fs
  then map f_name fs
  else map f_name fs ++ [f_name f].
Proof.
  induction fs as [|g fs IH]; [reflexivity|].
  cbn [fs_write existsb map].
  destruct (file_named (f_name f) g) eqn:E; cbn [orb map].
  - unfold file_named in E. apply String.eqb_eq in E. now rewrite E.
  - rewrite IH. now destruct (existsb _ fs).
Qed.

Lemma existsb_file_named (name : string) (fs : list File) :
  existsb (file_named name) fs = true <-> In name (map f_name fs).
Proof.
  rewrite existsb_exists, in_map_iff. unfold file_named.
  split; intros (g & H1 & H2).
  - exists g. apply String.eqb_eq in H2. auto.
  - exists g. split; [exact H2|]. now apply String.eqb_eq.
Qed.

Lemma fs_write_NoDup (f : File) (fs : list File) :
  List.NoDup (map f_name fs) -> List.NoDup (map f_name (fs_write f fs)).
Proof.
  intros Hnd. rewrite fs_write_names.
  destruct (existsb (file_named (f_name f)) fs) eqn:E; [exact Hnd|].
  apply List.NoDup_app; [exact Hnd|constructor; [intros []|constructor]|].
  intros x Hx [<-|[]].
  apply existsb_file_named in Hx. congruence.
Qed.

(** Writing a file that is no epoch-numbered checkpoint leaves these as
    they are. *)
Lemma fs_write_other (f : File) (fs : list File) :
  is_epoch_checkpoint (f_name f) = false ->
  epoch_checkpoints (fs_write f fs) = epoch_checkpoints fs.
Proof.
  intros Hf. unfold epoch_checkpoints.
  induction fs as [|g fs IH]; cbn [fs_write List.filter].
  - now rewrite Hf.
  - destruct (file_named (f_name f) g) eqn:E; cbn [List.filter].
    + unfold file_named in E. apply String.eqb_eq in E.
      rewrite Hf, E, Hf. reflexivity.
    + now rewrite IH.
Qed.

Section QuietFacts.
Context {env : Env}.

Lemma quiet_nil : quiet [].
Proof. intros cur. split; reflexivity. Qed.

Lemma hook_epochs_app (e1 e2 : list Event) : forall cur,
  hook_epochs cur (e1 ++ e2) = hook_epochs cur e1 ++ hook_epochs (last_epoch cur e1) e2.
Proof.
  induction e1 as [|e e1 IH]; intros cur; [reflexivity|].
  destruct e; cbn [app hook_epochs last_epoch]; try apply IH.
  destruct l; cbn [app]; try apply IH. now rewrite IH.
Qed.

Lemma last_epoch_app (e1 e2 : list Event) : forall cur,
  last_epoch cur (e1 ++ e2) = last_epoch (last_epoch cur e1) e2.
Proof.
  induction e1 as [|e e1 IH]; intros cur; [reflexivity|].
  destruct e; cbn [app last_epoch]; apply IH.
Qed.

Lemma quiet_app (e1 e2 : list Event) : quiet e1 -> quiet e2 -> quiet (e1 ++ e2).
Proof.
  intros H1 H2 cur. rewrite hook_epochs_app, last_epoch_app.
  destruct (H1 cur) as (-> & ->). destruct (H2 cur) as (-> & ->). split; reflexivity.
Qed.

Lemma quiet_tb_scalars loss cur_lr tb_dict acc : quiet (tb_scalars loss cur_lr tb_dict acc).
Proof.
  intros cur. unfold tb_scalars. cbn [hook_epochs last_epoch].
  induction tb_dict as [|kv d IH]; [split; reflexivity|exact IH].
Qed.

End QuietFacts.

(** Events written out are quiet by inspection. *)
Ltac quiet_tac :=
  repeat first
    [ apply quiet_app
    | apply quiet_tb_scalars
    | apply quiet_nil
    | assumption
    | (intros ?cur; split; reflexivity) ].

Section Quiet.
Context {env : Env}.

(** What the lead worker leaves alone: the augmentor, the epoch-numbered
    checkpoints and the uniqueness of the file names. *)
Lemma lead_worker_quiet a s p j b lr out d f bt acc cnt m w :
  match lead_worker a s p j b lr out d f bt acc cnt m w with
  | (r, w') =>
      w_augmentor w' = w_augmentor w /\
      epoch_checkpoints (w_files w') = epoch_checkpoints (w_files w) /\
      (List.NoDup (map f_name (w_files w)) -> List.NoDup (map f_name (w_files w'))) /\
      exists evs, w_trace w' = w_trace w ++ evs /\ quiet evs /\ hook_firings evs = []
  end.
Proof.
  exec_lead.
  all: change (append "latest_model" ".pth") with "latest_model.pth"%string.
  all: split; [reflexivity|].
  all: split; [try reflexivity; now apply fs_write_other|].
  all: split; [try (intros H; exact H); apply fs_write_NoDup|].
  all: eexists; (split; [trace_ext|]).
  all: autorewrite with observe; cbn [hook_firings flat_map app].
  all: split; [quiet_tac|reflexivity].
Qed.

Lemma iteration_quiet a tl s p j l w :
  match iteration a tl s p j l w with
  | (r, w') =>
      w_augmentor w' = w_augmentor w /\
      epoch_checkpoints (w_files w') = epoch_checkpoints (w_files w) /\
      (List.NoDup (map f_name (w_files w)) -> List.NoDup (map f_name (w_files w'))) /\
      exists evs, w_trace w' = w_trace w ++ evs /\ quiet evs /\ hook_firings evs = []
  end.
Proof.
  exec_iteration.
  all: try use_lead lead_worker_quiet.
  all: try match goal with
           | H : _ /\ _ /\ _ /\ exists _, _ |- _ =>
               destruct H as (Haug & Hfiles & Hnd & evl & Hevl & Hq & Hf);
               cbn [w_trace set_trace set_net set_iters set_files w_files w_augmentor]
                 in Hevl, Haug, Hfiles, Hnd;
               rewrite Hevl
           end.
  all: split; [try reflexivity; exact Haug|].
  all: split; [try reflexivity; exact Hfiles|].
  all: split; [try (intros H; exact H); exact Hnd|].
  all: eexists; (split; [trace_ext|]).
  all: autorewrite with observe; cbn [hook_firings flat_map app]; rewrite ?Hf.
  all: split; [quiet_tac|reflexivity].
Qed.

(** An epoch leaves alone what its iterations leave alone. *)
Lemma epoch_quiet a tl acc it w :
  match train_one_epoch a tl acc it w with
  | (r, w') =>
      w_augmentor w' = w_augmentor w /\
      epoch_checkpoints (w_files w') = epoch_checkpoints (w_files w) /\
      (List.NoDup (map f_name (w_files w)) -> List.NoDup (map f_name (w_files w'))) /\
      exists evs, w_trace w' = w_trace w ++ evs /\ quiet evs /\ hook_firings evs = []
  end.
Proof.
  destruct (Z.eq_dec (Epoch.total_it_each_epoch a) 0) as [HT|HT].
  { destruct (train_one_epoch_zero a tl acc it w HT) as (Hr & Htr & Hfs & Haug).
    destruct (train_one_epoch a tl acc it w) as [r w']. cbn [fst snd] in *.
    rewrite Hfs, Haug. split; [reflexivity|]. split; [reflexivity|]. split; [auto|].
    exists []. rewrite List.app_nil_r. split; [exact Htr|]. split; [apply quiet_nil|reflexivity]. }
  pose (Inv := fun (j : Z) (l : Loop.vars) (w' : World) =>
      w_augmentor w' = w_augmentor w /\
      epoch_checkpoints (w_files w') = epoch_checkpoints (w_files w) /\
      (List.NoDup (map f_name (w_files w)) -> List.NoDup (map f_name (w_files w'))) /\
      exists evs, w_trace w' = w_trace w ++ evs /\ quiet evs /\ hook_firings evs = []).
  pose (Ex := fun (e : Exn) (w' : World) => Inv 0 (loop_init a acc it) w').
  pose proof (epoch_rule Inv Ex a tl acc it w HT) as Hrule. cbv zeta in Hrule.
  lapply Hrule; clear Hrule.
  2:{ unfold Inv, epoch_entry.
      destruct (Epoch.rank a =? 0), (_ =? Z.of_nat _);
        cbn [w_trace w_files w_augmentor set_trace set_iters];
        (split; [reflexivity|]); (split; [reflexivity|]); (split; [auto|]);
        eexists; (split; [trace_ext|]); (split; [quiet_tac|reflexivity]). }
  intros Hrule. lapply Hrule; clear Hrule.
  2:{ intros j l w' Hj (Haug & Hfs & Hnd & evs & Htr & Hq & Hf).
      pose proof (iteration_quiet a tl (acc mod Epoch.total_it_each_epoch a)
        (time_time PbarCreated (Epoch.cur_epoch a) (acc mod Epoch.total_it_each_epoch a))
        j l w') as Hit.
      destruct (iteration _ _ _ _ j l w') as [[l'|e] w''];
        destruct Hit as (Haug1 & Hfs1 & Hnd1 & ev1 & Htr1 & Hq1 & Hf1);
        (split; [congruence|]); (split; [congruence|]); (split; [auto|]);
        exists (evs ++ ev1); rewrite Htr1, Htr, <- List.app_assoc;
        (split; [reflexivity|]); (split; [now apply quiet_app|]);
        now rewrite hook_firings_app, Hf, Hf1. }
  intros Hrule.
  destruct (train_one_epoch a tl acc it w) as [[r|e] w'].
  - destruct Hrule as (l & w3 & (Haug & Hfs & Hnd & evs & Htr & Hq & Hf) & Hr & Hw').
    subst w'. unfold epoch_exit.
    destruct (Epoch.rank a =? 0); cbn [w_trace w_files w_augmentor set_trace];
      (split; [exact Haug|]); (split; [exact Hfs|]); (split; [exact Hnd|]).
    + exists (evs ++ [EvPbarClose]). rewrite Htr, <- List.app_assoc.
      split; [reflexivity|]. split; [apply quiet_app; [exact Hq|quiet_tac]|].
      now rewrite hook_firings_app, Hf.
    + exists evs. split; [exact Htr|]. split; [exact Hq|exact Hf].
  - exact Hrule.
Qed.

(** The end-of-epoch checkpoint leaves the augmentor alone, whatever its
    end. *)
Lemma save_trained_model_quiet a e acc w :
  match save_trained_model a e acc w with
  | (r, w') =>
      w_augmentor w' = w_augmentor w /\
      exists evs, w_trace w' = w_trace w ++ evs /\ quiet evs /\ hook_firings evs = []
  end.
Proof.
  unfold save_trained_model.
  destruct (Run.ckpt_save_interval a =? 0).
  { unfold raise. split; [reflexivity|]. exists []. rewrite List.app_nil_r.
    split; [reflexivity|]. split; [apply quiet_nil|reflexivity]. }
  destruct (_ && _).
  2:{ unfold ret. split; [reflexivity|]. exists []. rewrite List.app_nil_r.
      split; [reflexivity|]. split; [apply quiet_nil|reflexivity]. }
  unfold bind at 1. unfold glob_epoch_checkpoints at 1.
  set (ckpt_list := sort_by_mtime _).
  unfold bind at 1.
  pose (Inv := fun (_ : Z) (_ : unit) (w' : World) =>
      w_augmentor w' = w_augmentor w /\
      exists evs, w_trace w' = w_trace w ++ evs /\ quiet evs /\ hook_firings evs = []).
  assert (Hprune :
    match (if Run.max_ckpt_save_num a <=? Z.of_nat (List.length ckpt_list)
           then for_range 0 (Z.of_nat (List.length ckpt_list) - Run.max_ckpt_save_num a + 1)
                          (remove_oldest ckpt_list) tt
           else ret tt) w with
    | (_, w') => Inv 0 tt w'
    end).
  { assert (H0 : Inv 0 tt w).
    { split; [reflexivity|]. exists []. rewrite List.app_nil_r.
      split; [reflexivity|]. split; [apply quiet_nil|reflexivity]. }
    destruct (_ <=? _); [|exact H0].
    pose proof (for_range_rule Inv (fun _ w' => Inv 0 tt w') (remove_oldest ckpt_list)
                  0 (Z.of_nat (List.length ckpt_list) - Run.max_ckpt_save_num a + 1)
                  tt w H0) as Hloop.
    lapply Hloop.
    - intros H. destruct (for_range _ _ _ _ _) as [[[]|?] ?]; exact H.
    - intros j [] w' _ (Haug & evs & Htr & Hq & Hf).
      unfold remove_oldest. destruct (ckpt_list !! Z.to_nat j) as [f|].
      + unfold os_remove. destruct (existsb _ _);
          cbn [w_augmentor w_trace set_files set_trace];
          (split; [exact Haug|]).
        * exists (evs ++ [EvRemove (f_name f)]). rewrite Htr, <- List.app_assoc.
          split; [reflexivity|]. split; [apply quiet_app; [exact Hq|quiet_tac]|].
          now rewrite hook_firings_app, Hf.
        * exists evs. auto.
      + unfold raise. split; [exact Haug|]. exists evs. auto. }
  match type of Hprune with
  | match ?t with _ => _ end => destruct t as [[[]|ex] w1]; [|exact Hprune]
  end.
  destruct Hprune as (Haug & evs & Htr & Hq & Hf).
  unfold save_checkpoint, torch_save. unfold_prims.
  destruct (version_ge torch_version "1.4");
    cbn [w_augmentor w_trace set_files set_trace fst snd];
    (split; [exact Haug|]);
    eexists; rewrite Htr, <- List.app_assoc; (split; [reflexivity|]);
    (split; [apply quiet_app; [exact Hq|quiet_tac]|]);
    now rewrite hook_firings_app, Hf.
Qed.

End Quiet.

(** ** The augmentation hook *)

Section Hook.

Context {env : Env}.

(** The hook at one epoch: it fires when line 220 says so, and then logs,
    replaces the augmentor and sets the flag; otherwise it does nothing. *)
Lemma hook_spec a e flag w :
  let fires := hook_fires a e flag in
  match disable_augmentation_hook a e flag w with
  | (r, w') =>
      w_augmentor w' =
        (if fires then DataAugmentor (hook_list a) else w_augmentor w) /\
      w_trace w' =
        w_trace w ++
        (if fires then [EvLoggerInfo (DisableAugmentations (hook_list a))] else []) /\
      match r with
      | Ok flag' => flag' = flag || fires
      | Raise _ => Run.cfg a = None
      end
  end.
Proof.
  cbv zeta. unfold disable_augmentation_hook, hook_fires, hook_list, hook_of.
  destruct (Run.cfg a) as [cfg|].
  2:{ unfold raise. rewrite List.app_nil_r. repeat split; reflexivity. }
  destruct (HOOK cfg) as [hook_config|].
  2:{ unfold ret. rewrite List.app_nil_r, orb_false_r. repeat split; reflexivity. }
  destruct (DisableAugmentationHook hook_config) as [hook|].
  2:{ unfold ret. rewrite List.app_nil_r, orb_false_r. repeat split; reflexivity. }
  destruct (_ <=? e), flag; cbn [andb negb orb]; unfold_prims;
    cbn [w_trace w_augmentor set_trace set_augmentor];
    rewrite ?List.app_nil_r; repeat split; reflexivity.
Qed.

Lemma run_epoch_hook a tl tbar T it e acc flag w :
  let fires := hook_fires a e flag in
  match run_epoch a tl tbar T it e (acc, flag) w with
  | (r, w') =>
      w_augmentor w' =
        (if fires then DataAugmentor (hook_list a) else w_augmentor w) /\
      exists evs, w_trace w' = w_trace w ++ evs /\
        (forall cur, last_epoch cur evs = e /\
                     hook_epochs cur evs = (if fires then [e] else [])) /\
        hook_firings evs = (if fires then [hook_list a] else []) /\
        match r with
        | Ok (_, flag') => flag' = flag || fires
        | Raise _ => True
        end
  end.
Proof.
  cbv zeta. unfold run_epoch.
  unfold bind, when, emit, emit_all, modify, ret.
  destruct (Run.train_sampler a); cbn beta iota.
  all: match goal with
  | |- context [disable_augmentation_hook ?a ?e ?flag ?w2] =>
      assert (Hw2 : w_augmentor w2 = w_augmentor w /\
                    exists ev0, w_trace w2 = w_trace w ++ ev0 /\
                      (forall cur, last_epoch cur ev0 = e /\ hook_epochs cur ev0 = []) /\
                      hook_firings ev0 = [])
        by (cbn [w_augmentor w_trace set_trace]; split; [reflexivity|];
            eexists; (split; [trace_ext|]);
            (split; [intros cur; split; reflexivity|reflexivity]));
      pose proof (hook_spec a e flag w2) as Hhook; cbv zeta in Hhook;
      destruct (disable_augmentation_hook a e flag w2) as [[flag'|ex] w3]
  end.
  all: destruct Hw2 as (Haug2 & ev0 & Htr2 & Hq2 & Hf2);
       destruct Hhook as (Haug3 & Htr3 & Hr3).
  all: try (rewrite Haug3, Haug2; (split; [reflexivity|]);
      eexists; rewrite Htr3, Htr2, <- List.app_assoc; (split; [reflexivity|]);
      (split; [|split; [|exact I]]);
      [ intros cur; rewrite hook_epochs_app, last_epoch_app;
        destruct (Hq2 cur) as (-> & ->);
        destruct (hook_fires a e flag); split; reflexivity
      | rewrite hook_firings_app, Hf2; now destruct (hook_fires a e flag) ]).
  all: match goal with
  | |- context [train_one_epoch ?x ?y ?z ?u ?w3] =>
      pose proof (epoch_quiet x y z u w3) as Hep;
      destruct (train_one_epoch x y z u w3) as [[acc'|ex] w4]
  end; destruct Hep as (Haug4 & _ & _ & ev4 & Htr4 & Hq4 & Hf4).
  all: try (rewrite Haug4, Haug3, Haug2; (split; [reflexivity|]);
      eexists; rewrite Htr4, Htr3, Htr2, <- !List.app_assoc; (split; [reflexivity|]);
      (split; [|split; [|exact I]]);
      [ intros cur; rewrite !hook_epochs_app, !last_epoch_app;
        destruct (Hq2 cur) as (-> & ->);
        destruct (hook_fires a e flag); cbn [last_epoch hook_epochs app];
          destruct (Hq4 e) as (-> & ->); split; reflexivity
      | rewrite !hook_firings_app, Hf2, Hf4;
        now destruct (hook_fires a e flag) ]).
  all: match goal with
  | |- context [save_trained_model ?a ?e ?acc' ?w4] =>
    pose proof (save_trained_model_quiet a e acc' w4) as Hsave;
    destruct (save_trained_model a e acc' w4) as [[[]|ex] w5]
  end;
    destruct Hsave as (Haug5 & ev5 & Htr5 & Hq5 & Hf5);
    rewrite Haug5, Haug4, Haug3, Haug2; (split; [reflexivity|]);
    eexists; rewrite Htr5, Htr4, Htr3, Htr2, <- !List.app_assoc; (split; [reflexivity|]);
    (split; [|split; [|try exact I; exact Hr3]]).
  all: try (intros cur; rewrite !hook_epochs_app, !last_epoch_app;
            destruct (Hq2 cur) as (-> & ->);
            destruct (hook_fires a e flag); cbn [last_epoch hook_epochs app];
            destruct (Hq4 e) as (-> & ->); destruct (Hq5 e) as (-> & ->);
            split; reflexivity).
  all: rewrite !hook_firings_app, Hf2, Hf4, Hf5; now destruct (hook_fires a e flag).
Qed.

(** [train_model] is its loop over the epochs after a prologue. *)
Lemma train_model_unfold a tl w :
  train_model a tl w =
  match run_loader a tl with
  | None => (Raise AssertionError, run_entry a w)
  | Some (train_loader, total_it_each_epoch) =>
      let w1 := run_entry a w in
      match for_range (Run.start_epoch a) (Run.total_epochs a)
              (run_epoch a train_loader (time_time TbarCreated (Run.start_epoch a) 0)
                         total_it_each_epoch (List.length (w_iters w1)))
              (Run.start_iter a, false)
              (set_iters (w_iters w1 ++ [train_loader]) w1) with
      | (Ok _, w') => (Ok tt, w')
      | (Raise e, w') => (Raise e, w')
      end
  end.
Proof.
  unfold train_model, run_loader, run_entry.
  unfold when, emit_all, modify, iter, raise, bind, ret.
  destruct (Run.rank a =? 0), (Run.merge_all_iters_to_one_epoch a);
    try destruct merge_all_iters_to_one_epoch; cbv zeta; try reflexivity.
  all: match goal with
       | |- context [for_range ?a ?b ?c ?d ?e] =>
           destruct (for_range a b c d e) as [[?|?] ?]
       end; reflexivity.
Qed.

Lemma run_entry_trace a w :
  w_augmentor (run_entry a w) = w_augmentor w /\
  w_files (run_entry a w) = w_files w /\
  exists ev0, w_trace (run_entry a w) = w_trace w ++ ev0 /\
    quiet ev0 /\ hook_firings ev0 = [] /\ status_lines ev0 = [].
Proof.
  unfold run_entry. destruct (Run.rank a =? 0); cbn [w_augmentor w_files w_trace set_trace];
    (split; [reflexivity|]); (split; [reflexivity|]);
    eexists; (split; [trace_ext|]); (split; [quiet_tac|split; reflexivity]).
Qed.

Lemma hook_fires_first a j :
  Run.start_epoch a <= j ->
  hook_fires a j (fired_before a j) =
  match hook_of a with Some hook => j =? first_hook_epoch a hook | None => false end.
Proof.
  intros Hj. unfold hook_fires, fired_before.
  destruct (hook_of a) as [hook|]; [|reflexivity].
  unfold first_hook_epoch.
  destruct (Z.leb_spec (Run.total_epochs a - NUM_LAST_EPOCHS hook) j),
           (Z.ltb_spec (Z.max (Run.start_epoch a)
                              (Run.total_epochs a - NUM_LAST_EPOCHS hook)) j),
           (Z.eqb_spec j (Z.max (Run.start_epoch a)
                                (Run.total_epochs a - NUM_LAST_EPOCHS hook)));
    cbn [andb negb]; try reflexivity; lia.
Qed.

Lemma fired_before_succ a j :
  Run.start_epoch a <= j ->
  fired_before a (j + 1) = fired_before a j || hook_fires a j (fired_before a j).
Proof.
  intros Hj. rewrite hook_fires_first by exact Hj. unfold fired_before.
  destruct (hook_of a) as [hook|]; [|reflexivity].
  destruct (Z.ltb_spec (first_hook_epoch a hook) (j + 1)),
           (Z.ltb_spec (first_hook_epoch a hook) j),
           (Z.eqb_spec j (first_hook_epoch a hook)); cbn [orb]; try reflexivity; lia.
Qed.

Lemma fired_before_mono a j j' :
  j <= j' -> fired_before a j = true -> fired_before a j' = true.
Proof.
  unfold fired_before. destruct (hook_of a); [|discriminate].
  intros Hj H. apply Z.ltb_lt in H. apply Z.ltb_lt. lia.
Qed.

(** Over a run the hook fires at most once, at its epoch, and the
    augmentor it sets stays. *)
Lemma run_hook a tl w :
  match train_model a tl w with
  | (r, w') =>
      exists evs (fired : bool), w_trace w' = w_trace w ++ evs /\
        hook_firings evs = (if fired then [hook_list a] else []) /\
        (forall cur, hook_epochs cur evs = (if fired then [hook_epoch a] else [])) /\
        w_augmentor w' = (if fired then DataAugmentor (hook_list a) else w_augmentor w) /\
        (fired = true -> fired_before a (Run.total_epochs a) = true) /\
        match r with
        | Ok _ => fired = fired_before a (Run.total_epochs a)
        | Raise _ => True
        end
  end.
Proof.
  rewrite train_model_unfold.
  destruct (run_entry_trace a w) as (Haug1 & _ & ev0 & Htr1 & Hq1 & Hf1 & _).
  destruct (run_loader a tl) as [[train_loader T]|].
  2:{ exists ev0, false. repeat split; auto; try discriminate. intros cur. apply Hq1. }
  cbv zeta.
  set (w1 := run_entry a w) in *.
  set (w2 := set_iters _ w1).
  set (start := Run.start_epoch a). set (total := Run.total_epochs a).
  pose (Facts := fun (fired : bool) (w' : World) =>
    exists evs, w_trace w' = w_trace w ++ evs /\
      hook_firings evs = (if fired then [hook_list a] else []) /\
      (forall cur, hook_epochs cur evs = (if fired then [hook_epoch a] else [])) /\
      w_augmentor w' = (if fired then DataAugmentor (hook_list a) else w_augmentor w)).
  pose (Inv := fun (j : Z) (s : Z * bool) (w' : World) =>
    j <= Z.max start total /\ snd s = fired_before a j /\ Facts (snd s) w').
  pose (Ex := fun (e : Exn) (w' : World) =>
    exists fired, (fired = true -> fired_before a total = true) /\ Facts fired w').
  match goal with
  | |- context [for_range start total ?body ?s w2] =>
      pose proof (for_range_rule Inv Ex body start total s w2) as Hloop
  end.
  lapply Hloop; clear Hloop.
  2:{ split; [lia|]. cbn [snd]. split.
      - unfold fired_before. destruct (hook_of a) as [hook|]; [|reflexivity].
        unfold first_hook_epoch. symmetry. apply Z.ltb_ge. fold start. lia.
      - exists ev0. subst w2. cbn [w_trace w_augmentor set_iters].
        repeat split; auto. intros cur. apply Hq1. }
  intros Hloop. lapply Hloop; clear Hloop.
  2:{ intros j [acc flag] w' Hj (Hle & Hflag & evs & Htr & Hf & He & Haug).
      cbn [snd] in *.
      pose proof (run_epoch_hook a train_loader
                    (time_time TbarCreated (Run.start_epoch a) 0) T
                    (List.length (w_iters w1)) j acc flag w') as Hep.
      cbv zeta in Hep.
      assert (Hfires : hook_fires a j flag =
                match hook_of a with
                | Some hook => j =? first_hook_epoch a hook
                | None => false
                end) by (rewrite Hflag; apply hook_fires_first; fold start; lia).
      assert (Hsucc : fired_before a (j + 1) = flag || hook_fires a j flag)
        by (rewrite Hflag; apply fired_before_succ; fold start; lia).
      assert (Hnew : Facts (flag || hook_fires a j flag)
                       (snd (run_epoch a train_loader
                               (time_time TbarCreated (Run.start_epoch a) 0) T
                               (List.length (w_iters w1)) j (acc, flag) w'))).
      { destruct (run_epoch _ _ _ _ _ j (acc, flag) w') as [r w'']. cbn [snd].
        destruct Hep as (Haug' & ev1 & Htr' & Hq' & Hf' & _).
        exists (evs ++ ev1). rewrite Htr', Htr, <- List.app_assoc. split; [reflexivity|].
        rewrite hook_firings_app, Hf, Hf', Haug', Haug.
        assert (Hboth : flag = true -> hook_fires a j flag = false).
        { intros ->. unfold hook_fires. destruct (hook_of a); [|reflexivity].
          now rewrite andb_false_r. }
        assert (Hj' : hook_fires a j flag = true -> j = hook_epoch a).
        { rewrite Hfires. unfold hook_epoch. destruct (hook_of a); [|discriminate].
          apply Z.eqb_eq. }
        destruct flag; [rewrite Hboth by reflexivity|];
          cbn [orb app]; (split; [|split]).
        all: try (rewrite ?List.app_nil_r; reflexivity).
        all: try (intros cur; rewrite hook_epochs_app, He;
                  destruct (Hq' (last_epoch cur evs)) as (_ & ->);
                  rewrite ?Hboth by reflexivity; rewrite ?List.app_nil_r;
                  first [ reflexivity
                        | destruct (hook_fires a j false) eqn:E;
                          [rewrite <- Hj' by reflexivity|]; reflexivity ]).
        all: now destruct (hook_fires a j false). }
      destruct (run_epoch _ _ _ _ _ j (acc, flag) w') as [[[acc' flag']|ex] w''];
        destruct Hep as (_ & ev1 & _ & _ & _ & Hr); cbn [snd] in *.
      - subst flag'. split; [lia|]. split; [now rewrite Hsucc|exact Hnew].
      - exists (flag || hook_fires a j flag). split; [|exact Hnew].
        rewrite <- Hsucc. apply fired_before_mono. lia. }
  intros Hloop.
  destruct (for_range start total _ _ w2) as [[[acc flag]|ex] w3].
  - destruct Hloop as (_ & Hflag & evs & Hfacts). cbn [snd] in *.
    assert (Hfinal : fired_before a (Z.max start total) = fired_before a total).
    { destruct (Z.le_ge_cases start total); [now rewrite Z.max_r|].
      rewrite Z.max_l by lia. unfold fired_before.
      destruct (hook_of a) as [hook|]; [|reflexivity].
      unfold first_hook_epoch. fold start. fold total.
      destruct (Z.ltb_spec (Z.max start (total - NUM_LAST_EPOCHS hook)) start),
               (Z.ltb_spec (Z.max start (total - NUM_LAST_EPOCHS hook)) total);
        try reflexivity; lia. }
    exists evs, flag. destruct Hfacts as (H1 & H2 & H3 & H4).
    repeat split; auto; rewrite Hflag, Hfinal; auto.
  - destruct Hloop as (fired & Hfired & evs & H1 & H2 & H3 & H4).
    exists evs, fired. repeat split; auto.
Qed.
End Hook.

(** ** Sorting by modification time *)

Lemma insert_by_mtime_perm f l : Permutation (insert_by_mtime f l) (f :: l).
Proof.
  induction l as [|g l IH]; cbn [insert_by_mtime]; [reflexivity|].
  destruct (Qle_bool (f_mtime f) (f_mtime g)); [reflexivity|].
  rewrite IH. apply perm_swap.
Qed.

Lemma sort_by_mtime_perm l : Permutation (sort_by_mtime l) l.
Proof.
  induction l as [|f l IH]; cbn [sort_by_mtime fold_right]; [reflexivity|].
  fold (sort_by_mtime l). rewrite insert_by_mtime_perm. now constructor.
Qed.







(** ** Counting files *)










(** ** The retention sweep *)

Section Sweep.

Context {env : Env}.


(** Whatever the path, the listing has the epoch-numbered checkpoints of
    the directory or nothing. *)
Lemma glob_lists (dir : string) (w : World) :
  exists ckpt_list,
    glob_epoch_checkpoints dir w = (Ok ckpt_list, w) /\
    (ckpt_list = epoch_checkpoints (w_files w) \/ ckpt_list = []).
Proof.
  unfold glob_epoch_checkpoints.
  destruct (if has_magic dir then glob_finds dir else true);
    eexists; (split; [reflexivity|]); [left|right]; reflexivity.
Qed.


End Sweep.

(** ** File names *)

Lemma string_length_append (s t : string) :
  String.length (append s t) = (String.length s + String.length t)%nat.
Proof. induction s as [|c s IH]; cbn [append String.length]; [reflexivity|now rewrite IH]. Qed.

Lemma substring_all (s : string) : substring 0 (String.length s) s = s.
Proof. induction s as [|c s IH]; cbn [substring String.length]; [reflexivity|now rewrite IH]. Qed.

Lemma substring_after (s t : string) :
  substring (String.length s) (String.length t) (append s t) = t.
Proof.
  induction s as [|c s IH]; cbn [append String.length substring]; [apply substring_all|exact IH].
Qed.

Lemma ends_with_append (s suf : string) : ends_with suf (append s suf) = true.
Proof.
  unfold ends_with. rewrite string_length_append.
  apply andb_true_iff. split; [apply Nat.leb_le; lia|].
  replace (String.length s + String.length suf - String.length suf)%nat
    with (String.length s) by lia.
  rewrite substring_after. apply String.eqb_refl.
Qed.

(** The name of an end-of-epoch checkpoint matches the pattern of the
    sweep; the name of the ["latest"] slot does not. *)
Lemma epoch_name_matches (x : string) :
  is_epoch_checkpoint (append (append "checkpoint_epoch_" x) ".pth") = true.
Proof.
  unfold is_epoch_checkpoint. apply andb_true_iff. split.
  - cbn. now destruct (append x ".pth").
  - unfold drop_prefix. cbn [append String.length substring Nat.sub].
    rewrite Nat.sub_0_r, substring_all. apply ends_with_append.
Qed.


Lemma fs_write_in (f : File) (fs : list File) : In f (fs_write f fs).
Proof.
  induction fs as [|g fs IH]; cbn [fs_write]; [now left|].
  destruct (file_named (f_name f) g); [now left|now right].
Qed.


Section Retention.

Context {env : Env}.



Lemma hook_files a e flag w :
  w_files (snd (disable_augmentation_hook a e flag w)) = w_files w.
Proof.
  unfold disable_augmentation_hook.
  destruct (Run.cfg a) as [cfg|]; [|reflexivity].
  destruct (HOOK cfg) as [hook_config|]; [|reflexivity].
  destruct (DisableAugmentationHook hook_config) as [hook|]; [|reflexivity].
  destruct (_ && _); reflexivity.
Qed.





End Retention.

(** ** Snapshots on the host *)

Lemma dict_set_fresh {V} (k : string) (v : V) (d : dict V) :
  ~ In k (map fst d) -> dict_set k v d = d ++ [(k, v)].
Proof.
  induction d as [|[k' v'] d IH]; cbn [dict_set map fst app]; intros Hk; [reflexivity|].
  destruct (String.eqb_spec k k') as [->|_]; [exfalso; apply Hk; now left|].
  rewrite IH; [reflexivity|]. intros H. apply Hk. now right.
Qed.

Lemma dict_set_on_host (k : string) (t : Tensor) (d : StateDict) :
  on_host t = true ->
  Forall (fun kv => on_host (snd kv) = true) d ->
  Forall (fun kv => on_host (snd kv) = true) (dict_set k t d).
Proof.
  intros Ht. induction 1 as [|[k' t'] d Hkv Hd IH]; cbn [dict_set].
  - constructor; [exact Ht|constructor].
  - destruct (String.eqb k k'); constructor; assumption.
Qed.

(** Every tensor of the copy is on the host. *)
Lemma model_state_to_cpu_on_host (sd : StateDict) :
  Forall (fun kv => on_host (snd kv) = true) (model_state_to_cpu sd).
Proof.
  unfold model_state_to_cpu.
  assert (H : forall acc : StateDict,
             Forall (fun kv => on_host (snd kv) = true) acc ->
             Forall (fun kv => on_host (snd kv) = true)
                    (fold_left (fun c kv => dict_set (fst kv) (cpu (snd kv)) c) sd acc)).
  { induction sd as [|kv sd IH]; intros acc Hacc; cbn [fold_left]; [exact Hacc|].
    apply IH. now apply dict_set_on_host. }
  apply H. constructor.
Qed.

(** The copy has the keys of the original, in order, each with its tensor
    moved to the host. *)
Lemma model_state_to_cpu_map (sd : StateDict) :
  List.NoDup (map fst sd) ->
  model_state_to_cpu sd = map (fun kv => (fst kv, cpu (snd kv))) sd.
Proof.
  unfold model_state_to_cpu.
  assert (H : forall acc : StateDict,
             List.NoDup (map fst acc ++ map fst sd) ->
             fold_left (fun c kv => dict_set (fst kv) (cpu (snd kv)) c) sd acc =
             acc ++ map (fun kv => (fst kv, cpu (snd kv))) sd).
  { induction sd as [|[k t] sd IH]; intros acc Hnd; cbn [fold_left map fst snd].
    - now rewrite List.app_nil_r.
    - cbn [map fst] in Hnd.
      rewrite dict_set_fresh.
      + rewrite IH.
        * now rewrite <- List.app_assoc.
        * rewrite map_app. cbn [map fst]. rewrite <- List.app_assoc. exact Hnd.
      + apply List.NoDup_remove_2 in Hnd. intros Hin. apply Hnd.
        apply in_or_app. now left. }
  intros Hnd. apply (H []). exact Hnd.
Qed.

(** ** Whole intervals *)

(** [m <= floor x] when [m <= x], and [floor x <= m] when [x < m + 1]. *)
Lemma floor_ge (x : Q) (m : Z) : (inject_Z m <= x)%Q -> m <= Qfloor x.
Proof. intros H. rewrite <- (Qfloor_Z m). now apply Qfloor_resp_le. Qed.

Lemma floor_le (x : Q) (m : Z) : (x < inject_Z (m + 1))%Q -> Qfloor x <= m.
Proof.
  intros H. pose proof (Qfloor_le x) as Hf.
  assert (Hlt : (inject_Z (Qfloor x) < inject_Z (m + 1))%Q) by (eapply Qle_lt_trans; eassumption).
  rewrite <- Zlt_Qlt in Hlt. lia.
Qed.

Lemma whole_intervals_ge (e : Q) (I m : Z) :
  0 < I -> (inject_Z (m * I) <= e)%Q -> m <= Qfloor (e / inject_Z I).
Proof.
  intros HI He. apply floor_ge. apply Qle_shift_div_l.
  - change 0%Q with (inject_Z 0). now rewrite <- Zlt_Qlt.
  - now rewrite <- inject_Z_mult.
Qed.

Lemma whole_intervals_le (e : Q) (I m : Z) :
  0 < I -> (e < inject_Z ((m + 1) * I))%Q -> Qfloor (e / inject_Z I) <= m.
Proof.
  intros HI He. apply floor_le. apply Qlt_shift_div_r.
  - change 0%Q with (inject_Z 0). now rewrite <- Zlt_Qlt.
  - now rewrite <- inject_Z_mult.
Qed.

(** ** The save counter *)

Lemma count_due_cons I e rs c :
  count_due I (e :: rs) c = count_due I rs (if ckpt_due e I c then c + 1 else c).
Proof. reflexivity. Qed.

(** The counter never goes back, and grows by at most one a check. *)
Lemma count_due_bounds I rs : forall c,
  c <= count_due I rs c <= c + Z.of_nat (List.length rs).
Proof.
  induction rs as [|e rs IH]; intros c.
  - cbn. lia.
  - rewrite count_due_cons. cbn [List.length].
    specialize (IH (if ckpt_due e I c then c + 1 else c)).
    destruct (ckpt_due e I c); lia.
Qed.

(** While no check reads more than [m] whole intervals, the counter stays
    at most [m + 1]. *)
Lemma count_due_upper I m rs : forall c,
  Forall (fun e => Qfloor (e / inject_Z I) <= m) rs ->
  c <= m + 1 -> count_due I rs c <= m + 1.
Proof.
  induction rs as [|e rs IH]; intros c Hall Hc; [exact Hc|].
  rewrite count_due_cons. inversion Hall as [|? ? He Hall']; subst.
  apply IH; [exact Hall'|].
  unfold ckpt_due. destruct (Z.leb_spec c (Qfloor (e / inject_Z I))); lia.
Qed.

(** A check that reads at least [c] whole intervals takes the counter
    past [c]. *)
Lemma count_due_lower I rs : forall c e,
  In e rs -> c <= Qfloor (e / inject_Z I) -> c + 1 <= count_due I rs c.
Proof.
  induction rs as [|e' rs IH]; intros c e Hin He; [destruct Hin|].
  rewrite count_due_cons. destruct Hin as [->|Hin].
  - unfold ckpt_due at 1. destruct (Z.leb_spec c (Qfloor (e / inject_Z I))); [|lia].
    apply count_due_bounds.
  - destruct (ckpt_due e' I c).
    + pose proof (count_due_bounds I rs (c + 1)). lia.
    + now apply (IH c e).
Qed.

Lemma last_nonempty {A} (rs : list A) : forall x d d',
  List.last (x :: rs) d = List.last (x :: rs) d'.
Proof.
  induction rs as [|y rs IH]; intros x d d'; [reflexivity|].
  change (List.last (y :: rs) d = List.last (y :: rs) d'). apply IH.
Qed.

Lemma last_cons_default {A} (rs : list A) (e d : A) :
  List.last (e :: rs) d = List.last rs e.
Proof.
  destruct rs as [|x rs]; [reflexivity|].
  change (List.last (x :: rs) d = List.last (x :: rs) e). apply last_nonempty.
Qed.

(** With such readings the counter is one more than the whole intervals
    the last check read. *)
Lemma count_due_steady I rs : forall prev c,
  0 < I ->
  steady I prev rs ->
  c = Qfloor (prev / inject_Z I) + 1 ->
  count_due I rs c = Qfloor (List.last rs prev / inject_Z I) + 1.
Proof.
  induction rs as [|e rs IH]; intros prev c HI Hs Hc; [exact Hc|].
  destruct Hs as (Hle & Hlt & Hs).
  rewrite count_due_cons.
  assert (HIq : (0 < inject_Z I)%Q)
    by (change 0%Q with (inject_Z 0); now rewrite <- Zlt_Qlt).
  assert (Hlo : Qfloor (prev / inject_Z I) <= Qfloor (e / inject_Z I)).
  { apply Qfloor_resp_le. apply Qmult_le_compat_r; [exact Hle|].
    apply Qlt_le_weak, Qinv_lt_0_compat, HIq. }
  assert (Hhi : Qfloor (e / inject_Z I) <= Qfloor (prev / inject_Z I) + 1).
  { apply floor_le. rewrite inject_Z_plus.
    apply Qlt_shift_div_r; [exact HIq|].
    eapply Qlt_le_trans; [exact Hlt|].
    rewrite Qmult_plus_distr_l.
    apply Qplus_le_compat.
    - pose proof (Qlt_floor (prev / inject_Z I)) as Hf.
      assert (Hp : (prev == prev / inject_Z I * inject_Z I)%Q)
        by (field; intros E; rewrite E in HIq; now apply Qlt_irrefl in HIq).
      apply (Qle_trans _ (prev / inject_Z I * inject_Z I)).
      + apply Qle_lteq. right. exact Hp.
      + apply Qlt_le_weak. apply Qmult_lt_compat_r; [exact HIq|exact Hf].
    - change (inject_Z 1) with 1%Q. rewrite Qmult_1_l. apply Qle_refl. }
  rewrite last_cons_default.
  apply IH; [exact HI|exact Hs|].
  unfold ckpt_due. destruct (Z.leb_spec c (Qfloor (e / inject_Z I))); lia.
Qed.

(** ** Versions *)

(** Comparing a version of one digit each with ['1.4'] as strings compares
    the numbers. *)
Lemma str_ge_1_4 (major minor : N) (rest : string) :
  (major < 10)%N -> (minor < 10)%N ->
  str_ge (version_string major minor rest) "1.4" = at_least_1_4 major minor.
Proof.
  intros HM Hm.
  assert (HM' : (major = 0 \/ major = 1 \/ major = 2 \/ major = 3 \/ major = 4 \/
                major = 5 \/ major = 6 \/ major = 7 \/ major = 8 \/ major = 9)%N) by lia.
  assert (Hm' : (minor = 0 \/ minor = 1 \/ minor = 2 \/ minor = 3 \/ minor = 4 \/
                minor = 5 \/ minor = 6 \/ minor = 7 \/ minor = 8 \/ minor = 9)%N) by lia.
  clear HM Hm.
  repeat (destruct HM' as [->|HM']); try subst major;
    repeat (destruct Hm' as [->|Hm']); try subst minor;
    destruct rest; reflexivity.
Qed.

Lemma drop_zeros_app (a b : list N) :
  drop_zeros (a ++ b) =
    match drop_zeros a with
    | [] => drop_zeros b
    | r => r ++ b
    end.
Proof.
  induction a as [|x a IH]; [reflexivity|].
  cbn [app drop_zeros]. destruct x; [exact IH|reflexivity].
Qed.

(** Stripping the trailing zeros, from the front. *)
Lemma strip_zeros_cons (x : N) (l : list N) :
  strip_zeros (x :: l) =
    match strip_zeros l with
    | [] => if (x =? 0)%N then [] else [x]
    | r => x :: r
    end.
Proof.
  unfold strip_zeros. cbn [rev]. rewrite drop_zeros_app.
  destruct (drop_zeros (rev l)) as [|y r] eqn:E.
  - cbn [rev drop_zeros]. destruct x; reflexivity.
  - rewrite List.rev_app_distr.
    destruct (rev (y :: r)) as [|z t] eqn:E'; [|reflexivity].
    apply (f_equal (@List.length N)) in E'. rewrite List.length_rev in E'. discriminate E'.
Qed.

Ltac cmp_cases :=
  repeat match goal with
         | |- context [N.ltb ?a ?b] => destruct (N.ltb_spec a b)
         | |- context [N.eqb ?a ?b] => destruct (N.eqb_spec a b)
         | |- context [N.leb ?a ?b] => destruct (N.leb_spec a b)
         end;
  cbn [orb andb]; try reflexivity; try lia.

(** The comparison of [torch.__version__] with ['1.4'] tells whether the
    release of the library is 1.4 or a later one, for a [str] of the
    libraries that have one and for a [TorchVersion]. *)
Lemma release_ge_1_4 (v : VersionObject) (major minor : N) :
  library_release v major minor -> version_ge v "1.4" = at_least_1_4 major minor.
Proof.
  intros [M m rest HM Hm _|s ver M m more Hepoch Hrel Hfinal].
  - apply str_ge_1_4; assumption.
  - cbn [version_ge]. change (parse_release "1.4") with (Some [1; 4]%N).
    unfold version_ge_release. rewrite Hepoch. cbn [N.compare].
    change (strip_zeros [1; 4]%N) with [1; 4]%N.
    rewrite Hrel in *. clear Hrel Hepoch.
    rewrite !strip_zeros_cons in *.
    unfold at_least_1_4.
    destruct (strip_zeros more) as [|y r] eqn:Emore.
    + destruct (N.eqb_spec m 0) as [->|Hm0].
      * destruct (N.eqb_spec M 0) as [->|HM0]; [reflexivity|].
        cbn [release_compare].
        destruct (N.compare_spec M 1) as [->|Hlt|Hgt]; cbn [release_compare]; cmp_cases.
      * cbn [release_compare].
        destruct (N.compare_spec M 1) as [->|Hlt|Hgt]; [|cmp_cases..].
        destruct (N.compare_spec m 4) as [->|Hlt|Hgt]; [|cmp_cases..].
        cbn [release_compare]. destruct (Hfinal eq_refl) as (-> & Hd).
        destruct (v_post ver), (v_dev ver); try reflexivity.
        destruct Hd as [Hd|Hd]; [discriminate Hd|contradiction].
    + cbn [release_compare].
      destruct (N.compare_spec M 1) as [->|Hlt|Hgt]; [|cmp_cases..].
      destruct (N.compare_spec m 4) as [->|Hlt|Hgt]; cbn [release_compare]; cmp_cases.
Qed.

(** ** Limits below one *)

Section LowLimit.

Context {env : Env}.




End LowLimit.

(** * Further properties *)

(** ** File names *)

Lemma to_int_nonnil (z : Z) : Z.to_int z <> Decimal.Pos Decimal.Nil /\ Z.to_int z <> Decimal.Neg Decimal.Nil.
Proof.
  destruct z as [|p|p]; cbn; split; try discriminate.
  - intros H. injection H as H. now apply DecimalPos.Unsigned.to_uint_nonnil in H.
  - intros H. injection H as H. now apply DecimalPos.Unsigned.to_uint_nonnil in H.
Qed.

(** ['%d' % z] can be read back. *)
Lemma fmt_d_read (z : Z) : NilZero.int_of_string (fmt_d z) = Some (Z.to_int z).
Proof.
  unfold fmt_d. destruct (to_int_nonnil z) as (H1 & H2). now apply NilZero.isi.
Qed.

Lemma fmt_d_inj (a b : Z) : fmt_d a = fmt_d b -> a = b.
Proof.
  intros H. apply DecimalZ.to_int_inj.
  pose proof (fmt_d_read a) as Ha. rewrite H, fmt_d_read in Ha. now injection Ha.
Qed.

Lemma append_inj_r (s x y : string) : append s x = append s y -> x = y.
Proof.
  induction s as [|c s IH]; cbn [append]; intros H; [exact H|].
  injection H as H. now apply IH.
Qed.

Lemma append_inj_l (t : string) : forall x y : string,
  append x t = append y t -> x = y.
Proof.
  intros x y H.
  assert (Hlen : String.length x = String.length y).
  { apply (f_equal String.length) in H. rewrite !string_length_append in H. lia. }
  revert y H Hlen. induction x as [|c x IH]; intros [|d y] H Hlen;
    try discriminate Hlen; [reflexivity|].
  cbn [append] in H. injection H as -> H. f_equal. apply IH; [exact H|].
  cbn [String.length] in Hlen. lia.
Qed.

(** ** Draws that need no restart *)

Lemma draw_firstn {B} (tl : list B) : forall (n : nat) (cur : list B),
  (n <= List.length cur)%nat -> draw n cur tl = firstn n cur.
Proof.
  induction n as [|n IH]; intros cur Hn; [reflexivity|].
  destruct cur as [|b rest]; [cbn in Hn; lia|].
  cbn [draw firstn]. f_equal. apply IH. cbn [List.length] in Hn. lia.
Qed.

Lemma restarts_none {B} (tl : list B) : forall (n : nat) (cur : list B),
  (n <= List.length cur)%nat -> restarts n cur tl = O.
Proof.
  induction n as [|n IH]; intros cur Hn; [reflexivity|].
  destruct cur as [|b rest]; [cbn in Hn; lia|].
  cbn [restarts]. apply IH. cbn [List.length] in Hn. lia.
Qed.

Lemma leftover_skipn {B} (tl : list B) : forall (n : nat) (cur : list B),
  (n <= List.length cur)%nat -> leftover n cur tl = skipn n cur.
Proof.
  induction n as [|n IH]; intros cur Hn; [reflexivity|].
  destruct cur as [|b rest]; [cbn in Hn; lia|].
  cbn [leftover skipn]. apply IH. cbn [List.length] in Hn. lia.
Qed.

Lemma lookup_file_write (f : File) (fs : list File) (name : string) :
  lookup_file name (fs_write f fs) =
  if String.eqb (f_name f) name then Some f else lookup_file name fs.
Proof.
  unfold lookup_file.
  induction fs as [|g fs IH]; cbn [fs_write List.find].
  - unfold file_named at 1. destruct (String.eqb (f_name f) name); reflexivity.
  - destruct (file_named (f_name f) g) eqn:Eg; cbn [List.find].
    + unfold file_named in Eg. apply String.eqb_eq in Eg.
      unfold file_named at 1 3. rewrite Eg.
      destruct (String.eqb (f_name f) name); reflexivity.
    + destruct (file_named name g) eqn:En.
      * unfold file_named in Eg, En. apply String.eqb_eq in En.
        apply String.eqb_neq in Eg.
        destruct (String.eqb_spec (f_name f) name) as [E|_]; [|reflexivity].
        exfalso. apply Eg. now rewrite En, E.
      * exact IH.
Qed.

Lemma cpu_on_host (t : Tensor) : on_host t = true -> cpu t = t.
Proof. destruct t as [[|i] data]; [reflexivity|discriminate]. Qed.

Lemma py_max_one (k : Z) : 1 <= k -> py_max (inject_Z k) 1 = inject_Z k.
Proof.
  intros Hk. unfold py_max.
  replace (Qle_bool 1 (inject_Z k)) with true; [reflexivity|].
  symmetry. apply Qle_bool_iff. unfold Qle. cbn. lia.
Qed.

Section SavedFacts.
Context {env : Env}.

Lemma saved_files_app (e1 e2 : list Event) :
  saved_files (e1 ++ e2) = saved_files e1 ++ saved_files e2.
Proof. apply flat_map_app. Qed.

(** The end-of-epoch step writes one file when it is due and goes through,
    and none otherwise. *)
Lemma save_trained_model_saves a e acc w :
  match save_trained_model a e acc w with
  | (r, w') =>
      exists evs, w_trace w' = w_trace w ++ evs /\
        saved_files evs =
          match r with
          | Ok _ =>
              if save_due a e
              then [(epoch_file_name e,
                     checkpoint_state (Some (w_model w)) (Some (w_optimizer w)) (e + 1) acc)]
              else []
          | Raise _ => []
          end
  end.
Proof.
  unfold save_trained_model, save_due.
  destruct (Run.ckpt_save_interval a =? 0).
  { unfold raise. exists []. now rewrite List.app_nil_r. }
  destruct (_ && _).
  2:{ unfold ret. exists []. now rewrite List.app_nil_r. }
  unfold bind at 1. unfold glob_epoch_checkpoints at 1.
  set (ckpt_list := sort_by_mtime _).
  unfold bind at 1.
  pose (Inv := fun (_ : Z) (_ : unit) (w' : World) =>
      w_model w' = w_model w /\ w_optimizer w' = w_optimizer w /\
      exists evs, w_trace w' = w_trace w ++ evs /\ saved_files evs = []).
  assert (Hprune :
    match (if Run.max_ckpt_save_num a <=? Z.of_nat (List.length ckpt_list)
           then for_range 0 (Z.of_nat (List.length ckpt_list) - Run.max_ckpt_save_num a + 1)
                          (remove_oldest ckpt_list) tt
           else ret tt) w with
    | (_, w') => Inv 0 tt w'
    end).
  { assert (H0 : Inv 0 tt w).
    { split; [reflexivity|]. split; [reflexivity|]. exists []. now rewrite List.app_nil_r. }
    destruct (_ <=? _); [|exact H0].
    pose proof (for_range_rule Inv (fun _ w' => Inv 0 tt w') (remove_oldest ckpt_list)
                  0 (Z.of_nat (List.length ckpt_list) - Run.max_ckpt_save_num a + 1)
                  tt w H0) as Hloop.
    lapply Hloop.
    - intros H. destruct (for_range _ _ _ _ _) as [[[]|?] ?]; exact H.
    - intros j [] w' _ (Hm & Ho & evs & Htr & Hs).
      unfold remove_oldest. destruct (ckpt_list !! Z.to_nat j) as [f|].
      + unfold os_remove. destruct (existsb _ _);
          cbn [w_model w_optimizer w_trace set_files set_trace];
          (split; [exact Hm|]); (split; [exact Ho|]).
        * exists (evs ++ [EvRemove (f_name f)]). rewrite Htr, <- List.app_assoc.
          split; [reflexivity|]. now rewrite saved_files_app, Hs.
        * exists evs. auto.
      + unfold raise. split; [exact Hm|]. split; [exact Ho|]. exists evs. auto. }
  match type of Hprune with
  | match ?t with _ => _ end => destruct t as [[[]|ex] w1]
  end.
  2:{ destruct Hprune as (_ & _ & evs & Htr & Hs). exists evs. auto. }
  destruct Hprune as (Hm & Ho & evs & Htr & Hs).
  unfold save_checkpoint, torch_save. unfold_prims.
  destruct (version_ge torch_version "1.4");
    cbn [w_trace set_files set_trace fst snd];
    eexists; rewrite Htr, <- List.app_assoc; (split; [reflexivity|]);
    rewrite saved_files_app, Hs, Hm, Ho; reflexivity.
Qed.

End SavedFacts.

Section Followers.
Context {env : Env}.

Lemma iteration_follower a tl s p j l w :
  Epoch.rank a <> 0 ->
  match iteration a tl s p j l w with
  | (r, w') =>
      w_files w' = w_files w /\
      exists evs, w_trace w' = w_trace w ++ evs /\ forallb worker_event evs = true
  end.
Proof.
  intros Hrank. apply Z.eqb_neq in Hrank.
  unfold iteration. rewrite Hrank.
  exec_with ltac:(unfold training_step, next_batch).
  all: split; [reflexivity|].
  all: eexists; (split; [trace_ext|]); reflexivity.
Qed.

Lemma epoch_follower a tl acc it w :
  Epoch.rank a <> 0 ->
  match train_one_epoch a tl acc it w with
  | (r, w') =>
      w_files w' = w_files w /\
      exists evs, w_trace w' = w_trace w ++ evs /\ forallb worker_event evs = true
  end.
Proof.
  intros Hrank.
  destruct (Z.eq_dec (Epoch.total_it_each_epoch a) 0) as [HT|HT].
  { destruct (train_one_epoch_zero a tl acc it w HT) as (Hr & Htr & Hfs & _).
    destruct (train_one_epoch a tl acc it w) as [r w']. cbn [fst snd] in *.
    split; [exact Hfs|]. exists []. rewrite List.app_nil_r. split; [exact Htr|reflexivity]. }
  pose (Inv := fun (j : Z) (l : Loop.vars) (w' : World) =>
      w_files w' = w_files w /\
      exists evs, w_trace w' = w_trace w ++ evs /\ forallb worker_event evs = true).
  pose (Ex := fun (e : Exn) (w' : World) => Inv 0 (loop_init a acc it) w').
  pose proof (epoch_rule Inv Ex a tl acc it w HT) as Hrule. cbv zeta in Hrule.
  assert (Hr0 : (Epoch.rank a =? 0) = false) by now apply Z.eqb_neq.
  lapply Hrule; clear Hrule.
  2:{ unfold Inv, epoch_entry. rewrite Hr0.
      destruct (_ =? Z.of_nat _); cbn [w_trace w_files set_iters];
        (split; [reflexivity|]); exists []; rewrite List.app_nil_r; split; reflexivity. }
  intros Hrule. lapply Hrule; clear Hrule.
  2:{ intros j l w' Hj (Hfs & evs & Htr & Hev).
      pose proof (iteration_follower a tl (acc mod Epoch.total_it_each_epoch a)
        (time_time PbarCreated (Epoch.cur_epoch a) (acc mod Epoch.total_it_each_epoch a))
        j l w' Hrank) as Hit.
      destruct (iteration _ _ _ _ j l w') as [[l'|e] w''];
        destruct Hit as (Hfs1 & ev1 & Htr1 & Hev1);
        (split; [congruence|]);
        exists (evs ++ ev1); rewrite Htr1, Htr, <- List.app_assoc;
        (split; [reflexivity|]); rewrite forallb_app, Hev, Hev1; reflexivity. }
  intros Hrule.
  destruct (train_one_epoch a tl acc it w) as [[r|e] w'].
  - destruct Hrule as (l & w3 & (Hfs & evs & Htr & Hev) & Hr & Hw').
    subst w'. unfold epoch_exit. rewrite Hr0.
    split; [exact Hfs|]. exists evs. split; [exact Htr|exact Hev].
  - exact Hrule.
Qed.

(** Off the lead worker the end of an epoch does nothing, but divide by a
    zero interval. *)
Lemma save_trained_model_follower a e acc w :
  Run.rank a <> 0 ->
  snd (save_trained_model a e acc w) = w.
Proof.
  intros Hrank. apply Z.eqb_neq in Hrank.
  unfold save_trained_model. rewrite Hrank, andb_false_r.
  destruct (Run.ckpt_save_interval a =? 0); reflexivity.
Qed.

Lemma worker_follower (evs : list Event) :
  forallb worker_event evs = true -> forallb follower_event evs = true.
Proof.
  intros H. apply forallb_forall. intros e He.
  unfold follower_event. rewrite (proj1 (forallb_forall _ _) H e He). reflexivity.
Qed.

Lemma run_epoch_follower a tl tbar T it e s w :
  Run.rank a <> 0 ->
  match run_epoch a tl tbar T it e s w with
  | (r, w') =>
      w_files w' = w_files w /\
      exists evs, w_trace w' = w_trace w ++ evs /\ forallb follower_event evs = true
  end.
Proof.
  intros Hrank. destruct s as [acc flag].
  unfold run_epoch. unfold bind, when, emit, emit_all, modify, ret.
  destruct (Run.train_sampler a); cbn beta iota.
  all: match goal with
       | |- context [disable_augmentation_hook ?a ?e ?flag ?w2] =>
           pose proof (hook_files a e flag w2) as Hhook;
           pose proof (hook_spec a e flag w2) as Hspec; cbv zeta in Hspec;
           destruct (disable_augmentation_hook a e flag w2) as [[flag'|ex] w3]
       end; cbn [snd] in Hhook; destruct Hspec as (_ & Htr3 & _);
       cbn [w_files w_trace set_trace] in Hhook, Htr3.
  all: try (split; [exact Hhook|]; eexists; rewrite Htr3, <- ?List.app_assoc;
            (split; [reflexivity|]); cbn [app];
            destruct (hook_fires a e flag); reflexivity).
  all: match goal with
       | |- context [train_one_epoch ?x ?y ?z ?u ?w3] =>
           pose proof (epoch_follower x y z u w3 Hrank) as Hep;
           destruct (train_one_epoch x y z u w3) as [[acc'|ex] w4]
       end; destruct Hep as (Hfs4 & ev4 & Htr4 & Hev4).
  all: try (split; [congruence|]; eexists; rewrite Htr4, Htr3, <- ?List.app_assoc;
            (split; [reflexivity|]); cbn [app];
            rewrite ?forallb_app; cbn [forallb follower_event worker_event orb andb];
            rewrite ?forallb_app, (worker_follower ev4 Hev4);
            destruct (hook_fires a e flag); reflexivity).
  all: match goal with
       | |- context [save_trained_model ?a ?e ?acc' ?w4] =>
           pose proof (save_trained_model_follower a e acc' w4 Hrank) as Hsave;
           destruct (save_trained_model a e acc' w4) as [[[]|ex] w5]
       end; cbn [snd] in Hsave; subst w5.
  all: split; [congruence|]; eexists; rewrite Htr4, Htr3, <- ?List.app_assoc;
       (split; [reflexivity|]); cbn [app];
       rewrite ?forallb_app; cbn [forallb follower_event worker_event orb andb];
       rewrite ?forallb_app, (worker_follower ev4 Hev4);
       destruct (hook_fires a e flag); reflexivity.
Qed.

Lemma run_follower a tl w :
  Run.rank a <> 0 ->
  match train_model a tl w with
  | (r, w') =>
      w_files w' = w_files w /\
      exists evs, w_trace w' = w_trace w ++ evs /\ forallb follower_event evs = true
  end.
Proof.
  intros Hrank. rewrite train_model_unfold.
  assert (Hentry : run_entry a w = w).
  { unfold run_entry. apply Z.eqb_neq in Hrank. now rewrite Hrank. }
  rewrite Hentry.
  destruct (run_loader a tl) as [[train_loader T]|].
  2:{ split; [reflexivity|]. exists []. rewrite List.app_nil_r. split; reflexivity. }
  cbv zeta.
  pose (Inv := fun (_ : Z) (_ : Z * bool) (w' : World) =>
      w_files w' = w_files w /\
      exists evs, w_trace w' = w_trace w ++ evs /\ forallb follower_event evs = true).
  match goal with
  | |- context [for_range ?lo ?hi ?body ?s ?w2] =>
      pose proof (for_range_rule Inv (fun _ w' => Inv 0 (0, false) w') body lo hi s w2)
        as Hloop
  end.
  lapply Hloop; clear Hloop.
  2:{ split; [reflexivity|]. exists []. cbn [w_trace set_iters].
      rewrite List.app_nil_r. split; reflexivity. }
  intros Hloop. lapply Hloop; clear Hloop.
  2:{ intros j s w' _ (Hfs & evs & Htr & Hev).
      pose proof (run_epoch_follower a train_loader
                    (time_time TbarCreated (Run.start_epoch a) 0) T
                    (List.length (w_iters w)) j s w' Hrank) as H.
      destruct (run_epoch _ _ _ _ _ j s w') as [[?|?] ?];
        destruct H as (Hfs1 & ev1 & Htr1 & Hev1);
        (split; [congruence|]);
        exists (evs ++ ev1); rewrite Htr1, Htr, <- List.app_assoc;
        (split; [reflexivity|]); rewrite forallb_app, Hev, Hev1; reflexivity. }
  intros Hloop.
  destruct (for_range _ _ _ _ _) as [[?|?] ?]; exact Hloop.
Qed.

End Followers.

Lemma foreign_write (f : File) (fs : list File) :
  foreign f = false ->
  List.filter foreign (fs_write f fs) = List.filter foreign fs.
Proof.
  intros Hf. induction fs as [|g fs IH]; cbn [fs_write List.filter].
  - now rewrite Hf.
  - destruct (file_named (f_name f) g) eqn:E; cbn [List.filter].
    + unfold file_named in E. apply String.eqb_eq in E.
      assert (Hg : foreign g = false) by (unfold foreign in *; now rewrite E).
      now rewrite Hf, Hg.
    + now rewrite IH.
Qed.

Lemma foreign_remove (name : string) (fs : list File) :
  is_epoch_checkpoint name = true ->
  List.filter foreign (fs_remove name fs) = List.filter foreign fs.
Proof.
  intros Hname. unfold fs_remove.
  induction fs as [|g fs IH]; [reflexivity|]. cbn [List.filter].
  destruct (file_named name g) eqn:E; cbn [negb List.filter].
  - unfold file_named in E. apply String.eqb_eq in E.
    assert (Hg : foreign g = false) by (unfold foreign; now rewrite E, Hname).
    now rewrite Hg.
  - now rewrite IH.
Qed.

Section Foreign.
Context {env : Env}.

Lemma lead_worker_foreign a s p j b lr out d f bt acc cnt m w :
  List.filter foreign
    (w_files (snd (lead_worker a s p j b lr out d f bt acc cnt m w)))
  = List.filter foreign (w_files w).
Proof.
  destruct (lead_worker a s p j b lr out d f bt acc cnt m w) as [r w'] eqn:E.
  revert E. exec_lead.
  all: intros E; injection E as <- <-; cbn [snd w_files set_files set_trace].
  all: try reflexivity.
  all: change (append "latest_model" ".pth") with "latest_model.pth"%string.
  all: now apply foreign_write.
Qed.

Lemma iteration_foreign a tl s p j l w :
  List.filter foreign (w_files (snd (iteration a tl s p j l w)))
  = List.filter foreign (w_files w).
Proof.
  destruct (iteration a tl s p j l w) as [r w'] eqn:E.
  revert E. exec_iteration.
  all: try match goal with
           | H : lead_worker ?a ?s ?p ?j ?b ?lr ?out ?d ?f ?bt ?acc ?cnt ?m ?w = _ |- _ =>
               pose proof (lead_worker_foreign a s p j b lr out d f bt acc cnt m w) as Hl;
               rewrite H in Hl; cbn [snd w_files set_net set_trace set_iters] in Hl
           end.
  all: intros E; injection E as <- <-; cbn [snd w_files set_files set_trace set_net set_iters].
  all: try reflexivity.
  all: exact Hl.
Qed.

Lemma epoch_foreign a tl acc it w :
  List.filter foreign (w_files (snd (train_one_epoch a tl acc it w)))
  = List.filter foreign (w_files w).
Proof.
  destruct (Z.eq_dec (Epoch.total_it_each_epoch a) 0) as [HT|HT].
  { destruct (train_one_epoch_zero a tl acc it w HT) as (_ & _ & -> & _). reflexivity. }
  pose (Inv := fun (j : Z) (l : Loop.vars) (w' : World) =>
      List.filter foreign (w_files w') = List.filter foreign (w_files w)).
  pose (Ex := fun (e : Exn) (w' : World) => Inv 0 (loop_init a acc it) w').
  pose proof (epoch_rule Inv Ex a tl acc it w HT) as Hrule. cbv zeta in Hrule.
  lapply Hrule; clear Hrule.
  2:{ unfold Inv, epoch_entry.
      destruct (Epoch.rank a =? 0), (_ =? Z.of_nat _); reflexivity. }
  intros Hrule. lapply Hrule; clear Hrule.
  2:{ intros j l w' Hj Hfs.
      pose proof (iteration_foreign a tl (acc mod Epoch.total_it_each_epoch a)
        (time_time PbarCreated (Epoch.cur_epoch a) (acc mod Epoch.total_it_each_epoch a))
        j l w') as Hit.
      destruct (iteration _ _ _ _ j l w') as [[l'|e] w'']; cbn [snd] in Hit;
        unfold Ex, Inv; congruence. }
  intros Hrule.
  destruct (train_one_epoch a tl acc it w) as [[r|e] w']; cbn [snd].
  - destruct Hrule as (l & w3 & Hfs & Hr & Hw').
    subst w'. unfold epoch_exit. destruct (Epoch.rank a =? 0); exact Hfs.
  - exact Hrule.
Qed.

Lemma save_trained_model_foreign a e acc w :
  List.filter foreign (w_files (snd (save_trained_model a e acc w)))
  = List.filter foreign (w_files w).
Proof.
  unfold save_trained_model.
  destruct (Run.ckpt_save_interval a =? 0); [reflexivity|].
  destruct (_ && _); [|reflexivity].
  unfold bind at 1.
  destruct (glob_lists (Run.ckpt_save_dir a) w) as (listed & -> & Hlist).
  set (ckpt_list := sort_by_mtime _).
  assert (Hlisted : forall f, In f ckpt_list -> is_epoch_checkpoint (f_name f) = true).
  { intros f Hf.
    apply (Permutation_in _ (sort_by_mtime_perm _)) in Hf.
    destruct Hlist as [->| ->]; [|destruct Hf].
    unfold epoch_checkpoints in Hf. now apply filter_In in Hf. }
  unfold bind at 1.
  pose (Inv := fun (_ : Z) (_ : unit) (w' : World) =>
      List.filter foreign (w_files w') = List.filter foreign (w_files w)).
  assert (Hprune :
    match (if Run.max_ckpt_save_num a <=? Z.of_nat (List.length ckpt_list)
           then for_range 0 (Z.of_nat (List.length ckpt_list) - Run.max_ckpt_save_num a + 1)
                          (remove_oldest ckpt_list) tt
           else ret tt) w with
    | (_, w') => Inv 0 tt w'
    end).
  { assert (H0 : Inv 0 tt w) by reflexivity.
    destruct (_ <=? _); [|exact H0].
    pose proof (for_range_rule Inv (fun _ w' => Inv 0 tt w') (remove_oldest ckpt_list)
                  0 (Z.of_nat (List.length ckpt_list) - Run.max_ckpt_save_num a + 1)
                  tt w H0) as Hloop.
    lapply Hloop.
    - intros H. destruct (for_range _ _ _ _ _) as [[[]|?] ?]; exact H.
    - intros j [] w' _ Hfs.
      unfold remove_oldest. destruct (ckpt_list !! Z.to_nat j) as [f|] eqn:Hf.
      + unfold os_remove. destruct (existsb _ _); cbn [w_files set_files set_trace];
          unfold Inv; [|exact Hfs].
        cbn [w_files set_files set_trace].
        rewrite foreign_remove; [exact Hfs|].
        apply Hlisted. apply list_elem_of_In. eapply list_elem_of_lookup_2. exact Hf.
      + exact Hfs. }
  match type of Hprune with
  | match ?t with _ => _ end => destruct t as [[[]|ex] w1]; [|exact Hprune]
  end.
  unfold Inv in Hprune.
  unfold save_checkpoint, torch_save. unfold_prims.
  destruct (version_ge torch_version "1.4"); cbn [w_files set_files set_trace fst snd];
    (rewrite foreign_write; [exact Hprune|]);
    unfold foreign; cbn [f_name]; now rewrite epoch_name_matches.
Qed.

Lemma run_epoch_foreign a tl tbar T it e s w :
  List.filter foreign (w_files (snd (run_epoch a tl tbar T it e s w)))
  = List.filter foreign (w_files w).
Proof.
  destruct s as [acc flag].
  unfold run_epoch. unfold bind, when, emit, emit_all, modify, ret.
  destruct (Run.train_sampler a); cbn beta iota.
  all: match goal with
       | |- context [disable_augmentation_hook ?a ?e ?flag ?w2] =>
           pose proof (hook_files a e flag w2) as Hhook;
           cbn [w_files set_trace] in Hhook;
           destruct (disable_augmentation_hook a e flag w2) as [[flag'|ex] w3]
       end; cbn [snd] in *.
  all: try (now rewrite Hhook).
  all: match goal with
       | |- context [train_one_epoch ?x ?y ?z ?u ?w3] =>
           pose proof (epoch_foreign x y z u w3) as Hep;
           destruct (train_one_epoch x y z u w3) as [[acc'|ex] w4]
       end; cbn [snd] in *.
  all: try (now rewrite Hep, Hhook).
  all: match goal with
       | |- context [save_trained_model ?a ?e ?acc' ?w4] =>
           pose proof (save_trained_model_foreign a e acc' w4) as Hsave;
           destruct (save_trained_model a e acc' w4) as [[[]|ex] w5]
       end; cbn [snd] in *; now rewrite Hsave, Hep, Hhook.
Qed.

Lemma run_foreign a tl w :
  List.filter foreign (w_files (snd (train_model a tl w)))
  = List.filter foreign (w_files w).
Proof.
  rewrite train_model_unfold.
  assert (Hentry : w_files (run_entry a w) = w_files w).
  { unfold run_entry. destruct (Run.rank a =? 0); reflexivity. }
  destruct (run_loader a tl) as [[train_loader T]|]; cbn [snd]; [|now rewrite Hentry].
  cbv zeta.
  pose (Inv := fun (_ : Z) (_ : Z * bool) (w' : World) =>
      List.filter foreign (w_files w') = List.filter foreign (w_files w)).
  match goal with
  | |- context [for_range ?lo ?hi ?body ?s ?w2] =>
      pose proof (for_range_rule Inv (fun _ w' => Inv 0 (0, false) w') body lo hi s w2)
        as Hloop
  end.
  lapply Hloop; clear Hloop.
  2:{ unfold Inv. cbn [w_files set_iters]. now rewrite Hentry. }
  intros Hloop. lapply Hloop; clear Hloop.
  2:{ intros j s w' _ Hfs.
      pose proof (run_epoch_foreign a train_loader
                    (time_time TbarCreated (Run.start_epoch a) 0) T
                    (List.length (w_iters (run_entry a w))) j s w') as H.
      destruct (run_epoch _ _ _ _ _ j s w') as [[?|?] ?]; cbn [snd] in H;
        unfold Inv; congruence. }
  intros Hloop.
  destruct (for_range _ _ _ _ _) as [[?|?] ?]; exact Hloop.
Qed.

End Foreign.

Section FirstEpoch.
Context {env : Env}.

(** A loop with something to do starts with its first iteration. *)
Lemma for_range_first {S} (lo hi : Z) (body : Z -> S -> M S) (s : S) (w : World) :
  lo < hi ->
  for_range lo hi body s w =
  match body lo s w with
  | (Ok s', w') => for_range (lo + 1) hi body s' w'
  | (Raise e, w') => (Raise e, w')
  end.
Proof.
  intros Hlt. unfold for_range.
  replace (Z.to_nat (hi - lo)) with (Datatypes.S (Z.to_nat (hi - (lo + 1)))) by lia.
  cbn [for_loop]. unfold bind. reflexivity.
Qed.

(** A run without a configuration stops at the hook of its first epoch. *)
Lemma run_without_cfg a tl w train_loader T :
  Run.cfg a = None ->
  Run.start_epoch a < Run.total_epochs a ->
  run_loader a tl = Some (train_loader, T) ->
  train_model a tl w = (Raise AttributeError, first_epoch_entry a train_loader w).
Proof.
  intros Hcfg Hlt Hloader.
  rewrite train_model_unfold, Hloader. cbv zeta.
  rewrite for_range_first by exact Hlt.
  unfold run_epoch, disable_augmentation_hook, first_epoch_entry.
  rewrite Hcfg. unfold_prims.
  destruct (Run.train_sampler a); cbn [w_trace w_iters set_trace set_iters];
    rewrite <- ?List.app_assoc; reflexivity.
Qed.

End FirstEpoch.

Lemma not_latest_write (f : File) (fs : list File) :
  not_latest f = false ->
  List.filter not_latest (fs_write f fs) = List.filter not_latest fs.
Proof.
  intros Hf. induction fs as [|g fs IH]; cbn [fs_write List.filter].
  - now rewrite Hf.
  - destruct (file_named (f_name f) g) eqn:E; cbn [List.filter].
    + unfold file_named in E. apply String.eqb_eq in E.
      assert (Hg : not_latest g = false) by (unfold not_latest in *; now rewrite E).
      now rewrite Hf, Hg.
    + now rewrite IH.
Qed.

Section Latest.
Context {env : Env}.

Lemma newest_latest_app before e1 e2 :
  newest_latest before (e1 ++ e2) = newest_latest (newest_latest before e1) e2.
Proof.
  unfold newest_latest. rewrite latest_saves_app, rev_app_distr.
  destruct (rev (latest_saves e2)); [rewrite List.app_nil_l|]; reflexivity.
Qed.

Lemma lead_worker_latest_slot a s p j b lr out d f bt acc cnt m w :
  match lead_worker a s p j b lr out d f bt acc cnt m w with
  | (r, w') =>
      List.filter not_latest (w_files w') = List.filter not_latest (w_files w) /\
      exists evs, w_trace w' = w_trace w ++ evs /\
        latest_slot (w_files w') = newest_latest (latest_slot (w_files w)) evs
  end.
Proof.
  exec_lead.
  all: change (append "latest_model" ".pth") with "latest_model.pth"%string.
  all: split; [try reflexivity; now apply not_latest_write|].
  all: eexists; (split; [trace_ext|]).
  all: unfold newest_latest; autorewrite with observe;
       cbn [latest_saves flat_map app String.eqb Ascii.eqb Bool.eqb andb rev].
  all: try reflexivity.
  all: unfold latest_slot; rewrite lookup_file_write; cbn [f_name];
       rewrite String.eqb_refl; reflexivity.
Qed.

Lemma iteration_latest_slot a tl s p j l w :
  match iteration a tl s p j l w with
  | (r, w') =>
      List.filter not_latest (w_files w') = List.filter not_latest (w_files w) /\
      exists evs, w_trace w' = w_trace w ++ evs /\
        latest_slot (w_files w') = newest_latest (latest_slot (w_files w)) evs
  end.
Proof.
  exec_iteration.
  all: try use_lead lead_worker_latest_slot.
  all: try match goal with
           | H : _ /\ exists _, _ |- _ =>
               destruct H as (Hfiles & evl & Hevl & Hslot);
               cbn [w_trace set_trace set_net set_iters set_files w_files]
                 in Hevl, Hfiles, Hslot;
               rewrite Hevl
           end.
  all: split; [try reflexivity; exact Hfiles|].
  all: eexists; (split; [trace_ext|]).
  all: rewrite ?newest_latest_app; try exact Hslot; reflexivity.
Qed.

Lemma epoch_latest_slot a tl acc it w :
  match train_one_epoch a tl acc it w with
  | (r, w') =>
      List.filter not_latest (w_files w') = List.filter not_latest (w_files w) /\
      exists evs, w_trace w' = w_trace w ++ evs /\
        latest_slot (w_files w') = newest_latest (latest_slot (w_files w)) evs
  end.
Proof.
  destruct (Z.eq_dec (Epoch.total_it_each_epoch a) 0) as [HT|HT].
  { destruct (train_one_epoch_zero a tl acc it w HT) as (Hr & Htr & Hfs & _).
    destruct (train_one_epoch a tl acc it w) as [r w']. cbn [fst snd] in *.
    rewrite Hfs. split; [reflexivity|]. exists []. rewrite List.app_nil_r.
    split; [exact Htr|reflexivity]. }
  pose (Inv := fun (j : Z) (l : Loop.vars) (w' : World) =>
      List.filter not_latest (w_files w') = List.filter not_latest (w_files w) /\
      exists evs, w_trace w' = w_trace w ++ evs /\
        latest_slot (w_files w') = newest_latest (latest_slot (w_files w)) evs).
  pose (Ex := fun (e : Exn) (w' : World) => Inv 0 (loop_init a acc it) w').
  pose proof (epoch_rule Inv Ex a tl acc it w HT) as Hrule. cbv zeta in Hrule.
  lapply Hrule; clear Hrule.
  2:{ unfold Inv, epoch_entry.
      destruct (Epoch.rank a =? 0), (_ =? Z.of_nat _);
        cbn [w_trace w_files set_trace set_iters];
        (split; [reflexivity|]); eexists; (split; [trace_ext|]); reflexivity. }
  intros Hrule. lapply Hrule; clear Hrule.
  2:{ intros j l w' Hj (Hfs & evs & Htr & Hslot).
      pose proof (iteration_latest_slot a tl (acc mod Epoch.total_it_each_epoch a)
        (time_time PbarCreated (Epoch.cur_epoch a) (acc mod Epoch.total_it_each_epoch a))
        j l w') as Hit.
      destruct (iteration _ _ _ _ j l w') as [[l'|e] w''];
        destruct Hit as (Hfs1 & ev1 & Htr1 & Hslot1);
        (split; [congruence|]);
        exists (evs ++ ev1); rewrite Htr1, Htr, <- List.app_assoc;
        (split; [reflexivity|]); rewrite newest_latest_app, <- Hslot; exact Hslot1. }
  intros Hrule.
  destruct (train_one_epoch a tl acc it w) as [[r|e] w'].
  - destruct Hrule as (l & w3 & (Hfs & evs & Htr & Hslot) & Hr & Hw').
    subst w'. unfold epoch_exit.
    destruct (Epoch.rank a =? 0); cbn [w_trace w_files set_trace];
      (split; [exact Hfs|]).
    + exists (evs ++ [EvPbarClose]). rewrite Htr, <- List.app_assoc.
      split; [reflexivity|]. rewrite newest_latest_app, <- Hslot. reflexivity.
    + exists evs. split; [exact Htr|exact Hslot].
  - exact Hrule.
Qed.

End Latest.

Lemma scheduler_eqb_refl s : scheduler_eqb s s = true.
Proof. now destruct s. Qed.

Lemma scheduler_eqb_eq s s' : scheduler_eqb s s' = true -> s' = s.
Proof. now destruct s, s'. Qed.

Section Schedulers.
Context {env : Env}.

Lemma epoch_schedulers_app cur e1 e2 :
  epoch_schedulers cur (e1 ++ e2) =
  epoch_schedulers cur e1 ++ epoch_schedulers (last_epoch cur e1) e2.
Proof.
  revert cur. induction e1 as [|e e1 IH]; intros cur; [reflexivity|].
  destruct e; cbn [app epoch_schedulers last_epoch]; rewrite ?IH; reflexivity.
Qed.

Lemma steps_only_spec s evs :
  forallb (steps_only s) evs = true ->
  forall cur, last_epoch cur evs = cur /\
              Forall (fun p => p = (cur, s)) (epoch_schedulers cur evs).
Proof.
  induction evs as [|e evs IH]; intros H cur; [split; [reflexivity|constructor]|].
  cbn [forallb] in H. apply andb_true_iff in H. destruct H as (He & H).
  destruct (IH H cur) as (IH1 & IH2).
  destruct e; cbn [steps_only] in He; try discriminate He;
    cbn [last_epoch epoch_schedulers]; (split; [exact IH1|]); try exact IH2.
  constructor; [|exact IH2]. now rewrite (scheduler_eqb_eq _ _ He).
Qed.

Lemma steps_only_tb_scalars s loss cur_lr tb_dict acc :
  forallb (steps_only s) (tb_scalars loss cur_lr tb_dict acc) = true.
Proof.
  unfold tb_scalars. cbn [forallb steps_only andb].
  induction tb_dict as [|kv d IH]; [reflexivity|exact IH].
Qed.

Lemma lead_worker_steps s0 a s p j b lr out d f bt acc cnt m w :
  match lead_worker a s p j b lr out d f bt acc cnt m w with
  | (r, w') =>
      exists evs, w_trace w' = w_trace w ++ evs /\ forallb (steps_only s0) evs = true
  end.
Proof.
  exec_lead.
  all: eexists; (split; [trace_ext|]).
  all: rewrite ?forallb_app, ?steps_only_tb_scalars; reflexivity.
Qed.

Lemma iteration_steps a tl s p j l w :
  match iteration a tl s p j l w with
  | (r, w') =>
      exists evs, w_trace w' = w_trace w ++ evs /\
        forallb (steps_only (Epoch.lr_scheduler a)) evs = true
  end.
Proof.
  exec_iteration.
  all: try match goal with
           | H : lead_worker ?a ?s ?p ?j ?b ?lr ?out ?d ?f ?bt ?acc ?cnt ?m ?w = _ |- _ =>
               pose proof (lead_worker_steps (Epoch.lr_scheduler a)
                             a s p j b lr out d f bt acc cnt m w) as Hl;
               rewrite H in Hl; destruct Hl as (evl & Hevl & Hsl);
               cbn [w_trace set_trace set_net set_iters set_files] in Hevl; rewrite Hevl
           end.
  all: eexists; (split; [trace_ext|]).
  all: rewrite ?forallb_app; cbn [forallb steps_only andb];
       rewrite ?scheduler_eqb_refl, ?Hsl; reflexivity.
Qed.

Lemma epoch_steps a tl acc it w :
  match train_one_epoch a tl acc it w with
  | (r, w') =>
      exists evs, w_trace w' = w_trace w ++ evs /\
        forallb (steps_only (Epoch.lr_scheduler a)) evs = true
  end.
Proof.
  destruct (Z.eq_dec (Epoch.total_it_each_epoch a) 0) as [HT|HT].
  { destruct (train_one_epoch_zero a tl acc it w HT) as (Hr & Htr & _).
    destruct (train_one_epoch a tl acc it w) as [r w']. cbn [fst snd] in *.
    exists []. rewrite List.app_nil_r. split; [exact Htr|reflexivity]. }
  pose (Inv := fun (j : Z) (l : Loop.vars) (w' : World) =>
      exists evs, w_trace w' = w_trace w ++ evs /\
        forallb (steps_only (Epoch.lr_scheduler a)) evs = true).
  pose (Ex := fun (e : Exn) (w' : World) => Inv 0 (loop_init a acc it) w').
  pose proof (epoch_rule Inv Ex a tl acc it w HT) as Hrule. cbv zeta in Hrule.
  lapply Hrule; clear Hrule.
  2:{ unfold Inv, epoch_entry.
      destruct (Epoch.rank a =? 0), (_ =? Z.of_nat _);
        cbn [w_trace set_trace set_iters];
        eexists; (split; [trace_ext|]); reflexivity. }
  intros Hrule. lapply Hrule; clear Hrule.
  2:{ intros j l w' Hj (evs & Htr & Hs).
      pose proof (iteration_steps a tl (acc mod Epoch.total_it_each_epoch a)
        (time_time PbarCreated (Epoch.cur_epoch a) (acc mod Epoch.total_it_each_epoch a))
        j l w') as Hit.
      destruct (iteration _ _ _ _ j l w') as [[l'|e] w''];
        destruct Hit as (ev1 & Htr1 & Hs1);
        exists (evs ++ ev1); rewrite Htr1, Htr, <- List.app_assoc;
        (split; [reflexivity|]); rewrite forallb_app, Hs, Hs1; reflexivity. }
  intros Hrule.
  destruct (train_one_epoch a tl acc it w) as [[r|e] w'].
  - destruct Hrule as (l & w3 & (evs & Htr & Hs) & Hr & Hw').
    subst w'. unfold epoch_exit.
    destruct (Epoch.rank a =? 0); cbn [w_trace set_trace].
    + exists (evs ++ [EvPbarClose]). rewrite Htr, <- List.app_assoc.
      split; [reflexivity|]. rewrite forallb_app, Hs. reflexivity.
    + exists evs. split; [exact Htr|exact Hs].
  - exact Hrule.
Qed.

(** The end-of-epoch step shows removals and one save at most. *)
Lemma save_trained_model_steps s a e acc w :
  match save_trained_model a e acc w with
  | (r, w') =>
      exists evs, w_trace w' = w_trace w ++ evs /\ forallb (steps_only s) evs = true
  end.
Proof.
  unfold save_trained_model.
  destruct (Run.ckpt_save_interval a =? 0).
  { unfold raise. exists []. now rewrite List.app_nil_r. }
  destruct (_ && _).
  2:{ unfold ret. exists []. now rewrite List.app_nil_r. }
  unfold bind at 1. unfold glob_epoch_checkpoints at 1.
  set (ckpt_list := sort_by_mtime _).
  unfold bind at 1.
  pose (Inv := fun (_ : Z) (_ : unit) (w' : World) =>
      exists evs, w_trace w' = w_trace w ++ evs /\ forallb (steps_only s) evs = true).
  assert (Hprune :
    match (if Run.max_ckpt_save_num a <=? Z.of_nat (List.length ckpt_list)
           then for_range 0 (Z.of_nat (List.length ckpt_list) - Run.max_ckpt_save_num a + 1)
                          (remove_oldest ckpt_list) tt
           else ret tt) w with
    | (_, w') => Inv 0 tt w'
    end).
  { assert (H0 : Inv 0 tt w) by (exists []; now rewrite List.app_nil_r).
    destruct (_ <=? _); [|exact H0].
    pose proof (for_range_rule Inv (fun _ w' => Inv 0 tt w') (remove_oldest ckpt_list)
                  0 (Z.of_nat (List.length ckpt_list) - Run.max_ckpt_save_num a + 1)
                  tt w H0) as Hloop.
    lapply Hloop.
    - intros H. destruct (for_range _ _ _ _ _) as [[[]|?] ?]; exact H.
    - intros j [] w' _ (evs & Htr & Hs).
      unfold remove_oldest. destruct (ckpt_list !! Z.to_nat j) as [f|].
      + unfold os_remove. destruct (existsb _ _); cbn [w_trace set_files set_trace].
        * exists (evs ++ [EvRemove (f_name f)]). rewrite Htr, <- List.app_assoc.
          split; [reflexivity|]. now rewrite forallb_app, Hs.
        * exists evs. auto.
      + unfold raise. exists evs. auto. }
  match type of Hprune with
  | match ?t with _ => _ end => destruct t as [[[]|ex] w1]; [|exact Hprune]
  end.
  destruct Hprune as (evs & Htr & Hs).
  unfold save_checkpoint, torch_save. unfold_prims.
  destruct (version_ge torch_version "1.4");
    cbn [w_trace set_files set_trace fst snd];
    eexists; rewrite Htr, <- List.app_assoc; (split; [reflexivity|]);
    now rewrite forallb_app, Hs.
Qed.

Lemma run_epoch_steps a tl tbar T it e s w :
  match run_epoch a tl tbar T it e s w with
  | (r, w') =>
      exists evs, w_trace w' = w_trace w ++ evs /\
        forall cur, last_epoch cur evs = e /\
                    Forall (fun p => p = (e, cur_scheduler a e)) (epoch_schedulers cur evs)
  end.
Proof.
  destruct s as [acc flag].
  unfold run_epoch. unfold bind, when, emit, emit_all, modify, ret.
  fold (cur_scheduler a e).
  destruct (Run.train_sampler a) eqn:Hsampler; cbn beta iota.
  all: match goal with
       | |- context [disable_augmentation_hook ?a ?e ?flag ?w2] =>
           pose proof (hook_spec a e flag w2) as Hspec; cbv zeta in Hspec;
           destruct (disable_augmentation_hook a e flag w2) as [[flag'|ex] w3]
       end; destruct Hspec as (_ & Htr3 & _);
       cbn [w_files w_trace w_iters set_trace set_iters] in Htr3; cbv beta iota.
  all: try (eexists; rewrite Htr3, <- ?List.app_assoc; (split; [reflexivity|]);
            intros cur; destruct (hook_fires a e flag);
            cbn [app last_epoch epoch_schedulers]; (split; [reflexivity|constructor])).
  all: match goal with
       | |- context [train_one_epoch ?x ?y ?z ?u ?w3] =>
           pose proof (epoch_steps x y z u w3) as Hep;
           destruct (train_one_epoch x y z u w3) as [[acc'|ex] w4]
       end; destruct Hep as (ev4 & Htr4 & Hs4);
       cbn [epoch_args Epoch.lr_scheduler] in Hs4.
  all: try (eexists; rewrite Htr4, Htr3, <- ?List.app_assoc; (split; [reflexivity|]);
            intros cur; destruct (hook_fires a e flag);
            cbn [app last_epoch epoch_schedulers]; apply steps_only_spec; exact Hs4).
  all: match goal with
       | |- context [save_trained_model ?a ?e ?acc' ?w4] =>
           pose proof (save_trained_model_steps (cur_scheduler a e) a e acc' w4) as Hsave;
           destruct (save_trained_model a e acc' w4) as [[[]|ex] w5]
       end; destruct Hsave as (ev5 & Htr5 & Hs5).
  all: eexists; rewrite Htr5, Htr4, Htr3, <- ?List.app_assoc; (split; [reflexivity|]);
       intros cur;
       assert (H45 : forallb (steps_only (cur_scheduler a e)) (ev4 ++ ev5) = true)
         by (now rewrite forallb_app, Hs4, Hs5);
       destruct (hook_fires a e flag);
       cbn [app last_epoch epoch_schedulers]; apply steps_only_spec; exact H45.
Qed.

Lemma run_steps a tl w :
  match train_model a tl w with
  | (r, w') =>
      exists evs, w_trace w' = w_trace w ++ evs /\
        forall cur, Forall (fun p => snd p = cur_scheduler a (fst p))
                           (epoch_schedulers cur evs)
  end.
Proof.
  rewrite train_model_unfold.
  assert (Hentry : exists ev0, w_trace (run_entry a w) = w_trace w ++ ev0 /\
            forall cur, last_epoch cur ev0 = cur /\ epoch_schedulers cur ev0 = []).
  { unfold run_entry. destruct (Run.rank a =? 0); cbn [w_trace set_trace].
    - eexists. split; [reflexivity|]. intros cur. split; reflexivity.
    - exists []. rewrite List.app_nil_r. split; [reflexivity|]. intros cur. split; reflexivity. }
  destruct Hentry as (ev0 & Htr0 & H0).
  destruct (run_loader a tl) as [[train_loader T]|].
  2:{ exists ev0. split; [exact Htr0|]. intros cur. destruct (H0 cur) as (_ & ->). constructor. }
  cbv zeta.
  pose (Inv := fun (_ : Z) (_ : Z * bool) (w' : World) =>
      exists evs, w_trace w' = w_trace w ++ evs /\
        forall cur, Forall (fun p => snd p = cur_scheduler a (fst p))
                           (epoch_schedulers cur evs)).
  match goal with
  | |- context [for_range ?lo ?hi ?body ?s ?w2] =>
      pose proof (for_range_rule Inv (fun _ w' => Inv 0 (0, false) w') body lo hi s w2)
        as Hloop
  end.
  lapply Hloop; clear Hloop.
  2:{ exists ev0. cbn [w_trace set_iters]. split; [exact Htr0|].
      intros cur. destruct (H0 cur) as (_ & ->). constructor. }
  intros Hloop. lapply Hloop; clear Hloop.
  2:{ intros j s w' _ (evs & Htr & Hs).
      pose proof (run_epoch_steps a train_loader
                    (time_time TbarCreated (Run.start_epoch a) 0) T
                    (List.length (w_iters (run_entry a w))) j s w') as H.
      destruct (run_epoch _ _ _ _ _ j s w') as [[?|?] ?];
        destruct H as (ev1 & Htr1 & Hs1);
        exists (evs ++ ev1); rewrite Htr1, Htr, <- List.app_assoc;
        (split; [reflexivity|]); intros cur; rewrite epoch_schedulers_app;
        (apply Forall_app; split; [apply Hs|]);
        destruct (Hs1 (last_epoch cur evs)) as (_ & Hall);
        (eapply List.Forall_impl; [|exact Hall]); intros p ->; reflexivity. }
  intros Hloop.
  destruct (for_range _ _ _ _ _) as [[?|?] ?]; exact Hloop.
Qed.

End Schedulers.

Section SavedEpoch.
Context {env : Env}.

Lemma saved_files_tb_scalars loss cur_lr tb_dict acc :
  saved_files (tb_scalars loss cur_lr tb_dict acc) = [].
Proof. now apply flat_map_tb_scalars. Qed.

Lemma lead_worker_saved a s p j b lr out d f bt acc cnt m w :
  match lead_worker a s p j b lr out d f bt acc cnt m w with
  | (r, w') =>
      exists evs, w_trace w' = w_trace w ++ evs /\
        Forall (fun q => fst q = "latest_model.pth"%string) (saved_files evs)
  end.
Proof.
  exec_lead.
  all: change (append "latest_model" ".pth") with "latest_model.pth"%string.
  all: eexists; (split; [trace_ext|]).
  all: rewrite ?saved_files_app, ?saved_files_tb_scalars;
       cbn [saved_files flat_map app]; rewrite ?saved_files_tb_scalars;
       repeat constructor.
Qed.

Lemma iteration_saved a tl s p j l w :
  match iteration a tl s p j l w with
  | (r, w') =>
      exists evs, w_trace w' = w_trace w ++ evs /\
        Forall (fun q => fst q = "latest_model.pth"%string) (saved_files evs)
  end.
Proof.
  exec_iteration.
  all: try use_lead lead_worker_saved.
  all: try match goal with
           | H : exists _, _ |- _ =>
               destruct H as (evl & Hevl & Hsl);
               cbn [w_trace set_trace set_net set_iters set_files] in Hevl; rewrite Hevl
           end.
  all: eexists; (split; [trace_ext|]).
  all: rewrite ?saved_files_app; cbn [saved_files flat_map app];
       first [ exact Hsl | constructor ].
Qed.

Lemma epoch_saved a tl acc it w :
  match train_one_epoch a tl acc it w with
  | (r, w') =>
      exists evs, w_trace w' = w_trace w ++ evs /\
        Forall (fun q => fst q = "latest_model.pth"%string) (saved_files evs)
  end.
Proof.
  destruct (Z.eq_dec (Epoch.total_it_each_epoch a) 0) as [HT|HT].
  { destruct (train_one_epoch_zero a tl acc it w HT) as (Hr & Htr & _).
    destruct (train_one_epoch a tl acc it w) as [r w']. cbn [fst snd] in *.
    exists []. rewrite List.app_nil_r. split; [exact Htr|constructor]. }
  pose (Inv := fun (j : Z) (l : Loop.vars) (w' : World) =>
      exists evs, w_trace w' = w_trace w ++ evs /\
        Forall (fun q => fst q = "latest_model.pth"%string) (saved_files evs)).
  pose (Ex := fun (e : Exn) (w' : World) => Inv 0 (loop_init a acc it) w').
  pose proof (epoch_rule Inv Ex a tl acc it w HT) as Hrule. cbv zeta in Hrule.
  lapply Hrule; clear Hrule.
  2:{ unfold Inv, epoch_entry.
      destruct (Epoch.rank a =? 0), (_ =? Z.of_nat _);
        cbn [w_trace set_trace set_iters];
        eexists; (split; [trace_ext|]); constructor. }
  intros Hrule. lapply Hrule; clear Hrule.
  2:{ intros j l w' Hj (evs & Htr & Hs).
      pose proof (iteration_saved a tl (acc mod Epoch.total_it_each_epoch a)
        (time_time PbarCreated (Epoch.cur_epoch a) (acc mod Epoch.total_it_each_epoch a))
        j l w') as Hit.
      destruct (iteration _ _ _ _ j l w') as [[l'|e] w''];
        destruct Hit as (ev1 & Htr1 & Hs1);
        exists (evs ++ ev1); rewrite Htr1, Htr, <- List.app_assoc;
        (split; [reflexivity|]); rewrite saved_files_app; apply Forall_app; split;
        assumption. }
  intros Hrule.
  destruct (train_one_epoch a tl acc it w) as [[r|e] w'].
  - destruct Hrule as (l & w3 & (evs & Htr & Hs) & Hr & Hw').
    subst w'. unfold epoch_exit.
    destruct (Epoch.rank a =? 0); cbn [w_trace set_trace].
    + exists (evs ++ [EvPbarClose]). rewrite Htr, <- List.app_assoc.
      split; [reflexivity|]. rewrite saved_files_app. apply Forall_app. split;
        [exact Hs|constructor].
    + exists evs. split; [exact Htr|exact Hs].
  - exact Hrule.
Qed.

Lemma run_epoch_saved a tl tbar T it e s w :
  0 <= T ->
  match run_epoch a tl tbar T it e s w with
  | (r, w') =>
      exists evs, w_trace w' = w_trace w ++ evs /\
        Forall (saved_in_epoch T e) (saved_files evs)
  end.
Proof.
  intros HT. destruct s as [acc flag].
  unfold run_epoch. unfold bind, when, emit, emit_all, modify, ret.
  destruct (Run.train_sampler a); cbn beta iota.
  all: match goal with
       | |- context [disable_augmentation_hook ?a ?e ?flag ?w2] =>
           pose proof (hook_spec a e flag w2) as Hspec; cbv zeta in Hspec;
           destruct (disable_augmentation_hook a e flag w2) as [[flag'|ex] w3]
       end; destruct Hspec as (_ & Htr3 & _);
       cbn [w_files w_trace w_iters set_trace set_iters] in Htr3; cbv beta iota.
  all: try (eexists; rewrite Htr3, <- ?List.app_assoc; (split; [reflexivity|]);
            destruct (hook_fires a e flag); constructor).
  all: match goal with
       | |- context [train_one_epoch ?x ?y ?z ?u ?w3] =>
           pose proof (epoch_saved x y z u w3) as Hep;
           pose proof (epoch_counter x y z u w3) as Hcount; cbv zeta in Hcount;
           cbn [epoch_args Epoch.total_it_each_epoch] in Hcount;
           destruct (train_one_epoch x y z u w3) as [[acc'|ex] w4]
       end; destruct Hep as (ev4 & Htr4 & Hs4);
       assert (Hs4' : Forall (saved_in_epoch T e) (saved_files ev4))
         by (eapply List.Forall_impl; [|exact Hs4]; intros q Hq; left; exact Hq).
  all: try (eexists; rewrite Htr4, Htr3, <- ?List.app_assoc; (split; [reflexivity|]);
            rewrite ?saved_files_app; cbn [saved_files flat_map app];
            destruct (hook_fires a e flag); cbn [saved_files flat_map app];
            exact Hs4').
  all: destruct Hcount as (_ & _ & _ & _ & HT0 & _ & _ & Hacc').
  all: assert (Hmod : acc' mod T = 0)
         by (pose proof (Z.mod_pos_bound acc T ltac:(lia)) as Hb;
             pose proof (Z.div_mod acc T ltac:(lia)) as Hdm;
             rewrite Hacc', Z2Nat.id by lia;
             replace (acc + (T - acc mod T)) with ((acc / T + 1) * T) by lia;
             apply Z.mod_mul; lia).
  all: match goal with
       | |- context [save_trained_model ?a ?e ?acc' ?w4] =>
           pose proof (save_trained_model_saves a e acc' w4) as Hsave;
           destruct (save_trained_model a e acc' w4) as [[[]|ex] w5]
       end; destruct Hsave as (ev5 & Htr5 & Hs5).
  all: eexists; rewrite Htr5, Htr4, Htr3, <- ?List.app_assoc; (split; [reflexivity|]).
  all: rewrite ?saved_files_app, Hs5.
  all: destruct (hook_fires a e flag); cbn [saved_files flat_map app].
  all: apply Forall_app; (split; [exact Hs4'|]).
  all: try destruct (save_due a e).
  all: first [ apply List.Forall_nil
             | apply List.Forall_cons;
               [right; cbn [fst snd checkpoint_state ck_epoch ck_it];
                (split; [reflexivity|]); (split; [reflexivity|exact Hmod])
               |apply List.Forall_nil] ].
Qed.

Lemma run_loader_nonneg a tl train_loader T :
  run_loader a tl = Some (train_loader, T) -> 0 <= T.
Proof.
  unfold run_loader.
  destruct (Run.merge_all_iters_to_one_epoch a).
  - destruct merge_all_iters_to_one_epoch as [merge|]; [|discriminate].
    intros H. injection H as _ <-. apply Z.div_pos; lia.
  - intros H. injection H as _ <-. lia.
Qed.

Lemma run_saved a tl w :
  match train_model a tl w with
  | (r, w') =>
      exists evs, w_trace w' = w_trace w ++ evs /\
        Forall (fun q =>
                  exists e T, Run.start_epoch a <= e < Run.total_epochs a /\
                    option_map snd (run_loader a tl) = Some T /\
                    saved_in_epoch T e q)
               (saved_files evs)
  end.
Proof.
  rewrite train_model_unfold.
  assert (Hentry : exists ev0, w_trace (run_entry a w) = w_trace w ++ ev0 /\
                     saved_files ev0 = []).
  { unfold run_entry. destruct (Run.rank a =? 0); cbn [w_trace set_trace].
    - eexists. split; [reflexivity|]. reflexivity.
    - exists []. now rewrite List.app_nil_r. }
  destruct Hentry as (ev0 & Htr0 & H0).
  destruct (run_loader a tl) as [[train_loader T]|] eqn:Hloader.
  2:{ exists ev0. split; [exact Htr0|]. rewrite H0. constructor. }
  pose proof (run_loader_nonneg a tl train_loader T Hloader) as HT.
  cbv zeta. cbn [option_map snd].
  pose (Inv := fun (_ : Z) (_ : Z * bool) (w' : World) =>
      exists evs, w_trace w' = w_trace w ++ evs /\
        Forall (fun q =>
                  exists e T', Run.start_epoch a <= e < Run.total_epochs a /\
                    Some T = Some T' /\ saved_in_epoch T' e q)
               (saved_files evs)).
  match goal with
  | |- context [for_range ?lo ?hi ?body ?s ?w2] =>
      pose proof (for_range_rule Inv (fun _ w' => Inv 0 (0, false) w') body lo hi s w2)
        as Hloop
  end.
  lapply Hloop; clear Hloop.
  2:{ exists ev0. cbn [w_trace set_iters]. split; [exact Htr0|]. rewrite H0. constructor. }
  intros Hloop. lapply Hloop; clear Hloop.
  2:{ intros j s w' Hj (evs & Htr & Hs).
      pose proof (run_epoch_saved a train_loader
                    (time_time TbarCreated (Run.start_epoch a) 0) T
                    (List.length (w_iters (run_entry a w))) j s w' HT) as H.
      destruct (run_epoch _ _ _ _ _ j s w') as [[?|?] ?];
        destruct H as (ev1 & Htr1 & Hs1);
        exists (evs ++ ev1); rewrite Htr1, Htr, <- List.app_assoc;
        (split; [reflexivity|]); rewrite saved_files_app; apply Forall_app;
        (split; [exact Hs|]);
        (eapply List.Forall_impl; [|exact Hs1]); intros q Hq;
        exists j, T; (split; [exact Hj|]); (split; [reflexivity|exact Hq]). }
  intros Hloop.
  destruct (for_range _ _ _ _ _) as [[?|?] ?]; exact Hloop.
Qed.

End SavedEpoch.

Section Handback.
Context {env : Env}.

(** One iteration, seen from the iterator the caller holds: whether or not
    the loop still draws from it, it loses one batch when it has one. *)
Lemma iteration_handback a tl s p j l w it0 c0 cur :
  tl <> [] ->
  w_iters w !! it0 = Some c0 ->
  w_iters w !! Loop.dataloader_iter l = Some cur ->
  Loop.dataloader_iter l = it0 \/ (Loop.dataloader_iter l <> it0 /\ c0 = []) ->
  match iteration a tl s p j l w with
  | (Ok l', w') =>
      w_iters w' !! it0 = Some (skipn 1 c0) /\
      w_iters w' !! Loop.dataloader_iter l' = Some (leftover 1 cur tl) /\
      (Loop.dataloader_iter l' = it0 \/
       (Loop.dataloader_iter l' <> it0 /\ skipn 1 c0 = []))
  | (Raise _, _) => True
  end.
Proof.
  intros Htl Hc0 Hcur Hsame.
  pose proof (lookup_lt_Some _ _ _ Hcur) as Hlt.
  pose proof (lookup_lt_Some _ _ _ Hc0) as Hlt0.
  assert (Hstep : forall it' (w1 : World),
    w_iters w1 !! it0 = Some (skipn 1 c0) ->
    w_iters w1 !! it' = Some (leftover 1 cur tl) ->
    (it' = it0 \/ (it' <> it0 /\ skipn 1 c0 = [])) ->
    forall batch,
    match
      (stepped <- training_step a (Loop.accumulated_iter l) batch ;;
       let (cur_lr, out) := stepped : Q * StepOut in
       let accumulated_iter := Loop.accumulated_iter l + 1 in
       let data_timer := time_time DataTimer (Epoch.cur_epoch a) j in
       let cur_forward_time := (time_time ForwardTime (Epoch.cur_epoch a) j - data_timer)%Q in
       let cur_batch_time := (time_time BatchTime (Epoch.cur_epoch a) j - Loop.end_ l)%Q in
       let end_ := time_time EndOfIteration (Epoch.cur_epoch a) j in
       let avg_data_time := average_reduce_value (data_timer - Loop.end_ l)%Q in
       let avg_forward_time := average_reduce_value cur_forward_time in
       let avg_batch_time := average_reduce_value cur_batch_time in
       if Epoch.rank a =? 0 then
         led <- lead_worker a s p j batch cur_lr out
                            avg_data_time avg_forward_time avg_batch_time
                            accumulated_iter (Loop.ckpt_save_cnt l) (Loop.meters l) ;;
         let (ckpt_save_cnt, m) := led : Z * Meters in
         ret {| Loop.accumulated_iter := accumulated_iter;
                Loop.dataloader_iter := it';
                Loop.ckpt_save_cnt := ckpt_save_cnt; Loop.end_ := end_;
                Loop.meters := m |}
       else
         ret {| Loop.accumulated_iter := accumulated_iter;
                Loop.dataloader_iter := it';
                Loop.ckpt_save_cnt := Loop.ckpt_save_cnt l; Loop.end_ := end_;
                Loop.meters := Loop.meters l |}) w1
    with
    | (Ok l', w') =>
        w_iters w' !! it0 = Some (skipn 1 c0) /\
        w_iters w' !! Loop.dataloader_iter l' = Some (leftover 1 cur tl) /\
        (Loop.dataloader_iter l' = it0 \/
         (Loop.dataloader_iter l' <> it0 /\ skipn 1 c0 = []))
    | (Raise _, _) => True
    end).
  { intros it' w1 H0 H1 H2 batch.
    exec_with ltac:(unfold training_step).
    all: try exact I.
    all: try use_lead lead_worker_frame.
    all: try match goal with
             | H : _ /\ exists _, _ |- _ =>
                 destruct H as (Hits & _);
                 cbn [w_iters set_trace set_net] in Hits; rewrite Hits
             end.
    all: auto. }
  unfold iteration. unfold bind at 1. rewrite (next_batch_spec tl _ w cur Hcur).
  destruct cur as [|b rest]; [destruct tl as [|b rest]; [contradiction|]|].
  - (* the iterator in use is exhausted: a new one is made *)
    apply (Hstep (List.length (w_iters w))).
    + cbn [w_iters set_trace set_iters].
      rewrite list_lookup_insert_ne by lia.
      rewrite lookup_app_l by lia.
      destruct Hsame as [Hsame|(_ & ->)]; [|exact Hc0].
      rewrite Hsame in Hcur. rewrite Hcur in Hc0. injection Hc0 as <-. exact Hcur.
    + cbn [w_iters set_trace set_iters leftover].
      apply list_lookup_insert_eq. rewrite List.length_app. cbn [List.length]. lia.
    + right. split; [lia|].
      destruct Hsame as [Hsame|(_ & ->)]; [|reflexivity].
      rewrite Hsame in Hcur. rewrite Hcur in Hc0. now injection Hc0 as <-.
  - (* the iterator in use has a batch *)
    apply (Hstep (Loop.dataloader_iter l)).
    + cbn [w_iters set_iters].
      destruct Hsame as [Hsame|(Hne & ->)].
      * rewrite Hsame in *. rewrite Hcur in Hc0. injection Hc0 as <-.
        cbn [skipn]. apply list_lookup_insert_eq. exact Hlt0.
      * rewrite list_lookup_insert_ne by exact Hne. exact Hc0.
    + cbn [w_iters set_iters leftover]. apply list_lookup_insert_eq. exact Hlt.
    + destruct Hsame as [Hsame|(Hne & ->)]; [left; exact Hsame|right; split; [exact Hne|reflexivity]].
Qed.

End Handback.

Section HandbackEpoch.
Context {env : Env}.

(** Over an epoch that draws from the iterator it was given: what that
    iterator has left for the caller. *)
Lemma epoch_handback a tl acc it w cur0 :
  let T := Epoch.total_it_each_epoch a in
  let N := Z.to_nat (T - acc mod T) in
  tl <> [] ->
  T <> Z.of_nat (List.length tl) ->
  w_iters w !! it = Some cur0 ->
  match train_one_epoch a tl acc it w with
  | (Ok _, w') => w_iters w' !! it = Some (skipn N cur0)
  | (Raise _, _) => True
  end.
Proof.
  cbv zeta. intros Htl Hlen Hcur0.
  destruct (Z.eq_dec (Epoch.total_it_each_epoch a) 0) as [HT|HT].
  { destruct (train_one_epoch_zero a tl acc it w HT) as (Hr & _).
    destruct (train_one_epoch a tl acc it w) as [r w']. cbn [fst] in Hr. now subst r. }
  set (T := Epoch.total_it_each_epoch a) in *.
  set (start := acc mod T).
  pose (Inv := fun (j : Z) (l : Loop.vars) (w' : World) =>
    let k := Z.to_nat (j - start) in
    w_iters w' !! it = Some (skipn k cur0) /\
    w_iters w' !! Loop.dataloader_iter l = Some (leftover k cur0 tl) /\
    (Loop.dataloader_iter l = it \/
     (Loop.dataloader_iter l <> it /\ skipn k cur0 = []))).
  pose proof (epoch_rule Inv (fun _ _ => True) a tl acc it w HT) as Hrule.
  cbv zeta in Hrule. fold T in Hrule. fold start in Hrule.
  assert (Hneq : (T =? Z.of_nat (List.length tl)) = false) by now apply Z.eqb_neq.
  lapply Hrule; clear Hrule.
  2:{ unfold Inv, epoch_entry, entry_iter. fold T. rewrite Hneq.
      replace (start - start) with 0 by lia. cbn [Z.to_nat skipn leftover].
      cbn [loop_init Loop.dataloader_iter].
      destruct (Epoch.rank a =? 0); cbn [w_iters set_trace]; auto. }
  intros Hrule. lapply Hrule; clear Hrule.
  2:{ intros j l w' Hj (H0 & H1 & H2). cbv zeta in *.
      pose proof (iteration_handback a tl start
        (time_time PbarCreated (Epoch.cur_epoch a) start) j l w' it _ _ Htl H0 H1 H2) as Hit.
      destruct (iteration _ _ _ _ j l w') as [[l'|e] w'']; [|exact I].
      destruct Hit as (H0' & H1' & H2').
      unfold Inv. cbv zeta.
      replace (Z.to_nat (j + 1 - start)) with (Z.to_nat (j - start) + 1)%nat by lia.
      rewrite leftover_add.
      replace (skipn (Z.to_nat (j - start) + 1) cur0)
        with (skipn 1 (skipn (Z.to_nat (j - start)) cur0))
        by (rewrite skipn_skipn; f_equal; lia).
      auto. }
  intros Hrule.
  destruct (train_one_epoch a tl acc it w) as [[r|e] w']; [|exact I].
  destruct Hrule as (l & w3 & (H0 & _) & _ & ->). cbv zeta in H0.
  replace (Z.to_nat (Z.max start T - start)) with (Z.to_nat (T - start)) in H0 by lia.
  unfold epoch_exit. destruct (Epoch.rank a =? 0); exact H0.
Qed.

End HandbackEpoch.

(** ** The end of the data *)

Section NoStop.
Context {env : Env}.

Lemma hook_iters a e flag w :
  w_iters (snd (disable_augmentation_hook a e flag w)) = w_iters w /\
  fst (disable_augmentation_hook a e flag w) <> Raise StopIteration.
Proof.
  unfold disable_augmentation_hook.
  destruct (Run.cfg a) as [cfg|]; [|split; [reflexivity|discriminate]].
  destruct (HOOK cfg) as [hook_config|]; [|split; [reflexivity|discriminate]].
  destruct (DisableAugmentationHook hook_config) as [hook|];
    [|split; [reflexivity|discriminate]].
  destruct (_ && _); split; try reflexivity; discriminate.
Qed.

(** The checkpoint at the end of an epoch leaves the iterators alone and
    never raises [StopIteration]. *)
Lemma save_trained_model_iters a e acc w :
  match save_trained_model a e acc w with
  | (r, w') => w_iters w' = w_iters w /\ r <> Raise StopIteration
  end.
Proof.
  unfold save_trained_model.
  destruct (Run.ckpt_save_interval a =? 0); [split; [reflexivity|discriminate]|].
  destruct (_ && _); [|split; [reflexivity|discriminate]].
  unfold bind at 1.
  destruct (glob_lists (Run.ckpt_save_dir a) w) as (listed & -> & _).
  set (ckpt_list := sort_by_mtime _).
  unfold bind at 1.
  pose (Inv := fun (_ : Z) (_ : unit) (w' : World) => w_iters w' = w_iters w).
  pose (Ex := fun (e : Exn) (w' : World) => w_iters w' = w_iters w /\ e <> StopIteration).
  assert (Hprune :
    match (if Run.max_ckpt_save_num a <=? Z.of_nat (List.length ckpt_list)
           then for_range 0 (Z.of_nat (List.length ckpt_list) - Run.max_ckpt_save_num a + 1)
                          (remove_oldest ckpt_list) tt
           else ret tt) w with
    | (Ok _, w') => Inv 0 tt w'
    | (Raise e, w') => Ex e w'
    end).
  { assert (H0 : Inv 0 tt w) by reflexivity.
    destruct (_ <=? _); [|exact H0].
    pose proof (for_range_rule Inv Ex (remove_oldest ckpt_list)
                  0 (Z.of_nat (List.length ckpt_list) - Run.max_ckpt_save_num a + 1)
                  tt w H0) as Hloop.
    lapply Hloop.
    - intros H. destruct (for_range _ _ _ _ _) as [[[]|?] ?]; exact H.
    - intros j [] w' _ Hits.
      unfold remove_oldest. destruct (ckpt_list !! Z.to_nat j) as [f|].
      + unfold os_remove. destruct (existsb _ _); cbn [w_iters set_files set_trace].
        * exact Hits.
        * split; [exact Hits|discriminate].
      + unfold raise. split; [exact Hits|discriminate]. }
  match type of Hprune with
  | match ?t with _ => _ end => destruct t as [[[]|ex] w1]
  end.
  2:{ destruct Hprune as (Hits & Hne). split; [exact Hits|congruence]. }
  unfold Inv in Hprune.
  unfold save_checkpoint, torch_save. unfold_prims.
  destruct (version_ge torch_version "1.4"); cbn [w_iters set_files set_trace];
    (split; [exact Hprune|discriminate]).
Qed.

(** An epoch over a loader that has a batch whenever the epoch has an
    iteration, with an iterator of the store: the end of the data does not
    get out, and the iterator is still of the store afterwards. *)
Lemma epoch_no_stop a tl acc it w :
  let T := Epoch.total_it_each_epoch a in
  (T <> 0 -> tl <> []) ->
  (T = Z.of_nat (List.length tl) \/ exists cur, w_iters w !! it = Some cur) ->
  match train_one_epoch a tl acc it w with
  | (Ok _, w') => T = Z.of_nat (List.length tl) \/ exists cur, w_iters w' !! it = Some cur
  | (Raise e, _) => e <> StopIteration
  end.
Proof.
  cbv zeta. intros Htl Hit.
  destruct (Z.eq_dec (Epoch.total_it_each_epoch a) 0) as [HT|HT].
  { destruct (train_one_epoch_zero a tl acc it w HT) as (Hr & _).
    destruct (train_one_epoch a tl acc it w) as [r w']. cbn [fst] in Hr. subst r.
    discriminate. }
  specialize (Htl HT).
  assert (Hentry : exists cur0, entry_batches a tl it w = Some cur0).
  { unfold entry_batches.
    destruct (Z.eqb_spec (Epoch.total_it_each_epoch a) (Z.of_nat (List.length tl)))
      as [E|E]; [now exists tl|].
    destruct Hit as [Hit|Hit]; [contradiction|exact Hit]. }
  destruct Hentry as (cur0 & Hentry).
  pose proof (epoch_draws a tl acc it w cur0 Htl Hentry) as Hdraw. cbv zeta in Hdraw.
  destruct (Z.eq_dec (Epoch.total_it_each_epoch a) (Z.of_nat (List.length tl))) as [E|E].
  - destruct (train_one_epoch a tl acc it w) as [[r|e] w']; [now left|].
    destruct Hdraw as (evs & _ & _ & _ & [(-> & _)|[(-> & _)|(-> & _)]]); discriminate.
  - destruct Hit as [Hit|(cur & Hcur)]; [contradiction|].
    pose proof (epoch_handback a tl acc it w cur Htl E Hcur) as Hback. cbv zeta in Hback.
    destruct (train_one_epoch a tl acc it w) as [[r|e] w'].
    + right. eexists. exact Hback.
    + destruct Hdraw as (evs & _ & _ & _ & [(-> & _)|[(-> & _)|(-> & _)]]); discriminate.
Qed.

Lemma run_epoch_no_stop a tl tbar T it e s w :
  (T <> 0 -> tl <> []) ->
  (T = Z.of_nat (List.length tl) \/ exists cur, w_iters w !! it = Some cur) ->
  match run_epoch a tl tbar T it e s w with
  | (Ok _, w') => T = Z.of_nat (List.length tl) \/ exists cur, w_iters w' !! it = Some cur
  | (Raise ex, _) => ex <> StopIteration
  end.
Proof.
  intros Htl Hit. destruct s as [acc flag].
  unfold run_epoch. unfold bind, when, emit, emit_all, modify, ret.
  destruct (Run.train_sampler a); cbn beta iota.
  all: match goal with
       | |- context [disable_augmentation_hook ?a ?e ?flag ?w2] =>
           destruct (hook_iters a e flag w2) as (Hhook & Hnot);
           cbn [w_iters set_trace] in Hhook;
           destruct (disable_augmentation_hook a e flag w2) as [[flag'|ex] w3]
       end; cbn [fst snd] in *.
  all: try congruence.
  all: rewrite <- Hhook in Hit.
  all: match goal with
       | |- context [train_one_epoch ?x ?y ?z ?u ?w3] =>
           pose proof (epoch_no_stop x y z u w3 Htl Hit) as Hep; cbv zeta in Hep;
           cbn [epoch_args Epoch.total_it_each_epoch] in Hep;
           destruct (train_one_epoch x y z u w3) as [[acc'|ex] w4]
       end; [|exact Hep].
  all: match goal with
       | |- context [save_trained_model ?a ?e ?acc' ?w4] =>
           pose proof (save_trained_model_iters a e acc' w4) as Hsave;
           destruct (save_trained_model a e acc' w4) as [[[]|ex] w5]
       end; destruct Hsave as (Hits & Hne); [rewrite Hits; exact Hep|congruence].
Qed.

(** Over a run the end of the data never gets out of [train_model]. *)
Lemma run_no_stop a tl w : fst (train_model a tl w) <> Raise StopIteration.
Proof.
  rewrite train_model_unfold.
  destruct (run_loader a tl) as [[train_loader T]|] eqn:Hloader; [|discriminate].
  cbv zeta.
  assert (Htl : T <> 0 -> train_loader <> []).
  { intros HT Hnil. apply HT. unfold run_loader in Hloader.
    destruct (Run.merge_all_iters_to_one_epoch a).
    - destruct merge_all_iters_to_one_epoch as [merge|]; [|discriminate].
      injection Hloader as E1 E2. rewrite <- E2, E1, Hnil. reflexivity.
    - injection Hloader as E1 E2. rewrite <- E2, E1, Hnil. reflexivity. }
  pose (it := List.length (w_iters (run_entry a w))). fold it.
  pose (Inv := fun (_ : Z) (_ : Z * bool) (w' : World) =>
      T = Z.of_nat (List.length train_loader) \/ exists cur, w_iters w' !! it = Some cur).
  match goal with
  | |- context [for_range ?lo ?hi ?body ?s ?w2] =>
      pose proof (for_range_rule Inv (fun ex _ => ex <> StopIteration) body lo hi s w2)
        as Hloop
  end.
  lapply Hloop; clear Hloop.
  2:{ right. exists train_loader. cbn [w_iters set_iters]. unfold it.
      rewrite lookup_app_r by lia. now rewrite Nat.sub_diag. }
  intros Hloop. lapply Hloop; clear Hloop.
  2:{ intros j s w' _ Hinv.
      exact (run_epoch_no_stop a train_loader _ T it j s w' Htl Hinv). }
  intros Hloop.
  destruct (for_range _ _ _ _ _) as [[?|ex] ?]; cbn [fst]; [discriminate|].
  intros E. injection E as ->. now apply Hloop.
Qed.

End NoStop.

(** ** The windows of all the meters *)

Lemma dict_get_app {V} (k : string) (d1 d2 : dict V) :
  dict_get k (d1 ++ d2) =
    match dict_get k d1 with
    | Some v => Some v
    | None => dict_get k d2
    end.
Proof.
  induction d1 as [|[k0 v0] d1 IH]; cbn [dict_get app]; [reflexivity|].
  destruct (String.eqb k k0); [reflexivity|exact IH].
Qed.

(** [disp_str] moves ['lr'] and keeps what the other keys show. *)
Lemma disp_str_other (k : string) (d : dict DispVal) :
  String.eqb k "lr" = false -> dict_get k (disp_str d) = dict_get k d.
Proof.
  intros Hk. unfold disp_str. rewrite dict_get_app, dict_get_filter_other by exact Hk.
  destruct (dict_get k d) as [v|]; [reflexivity|].
  destruct (dict_get "lr" d); cbn [dict_get]; [now rewrite Hk|reflexivity].
Qed.

Lemma of_list_val vs v : AverageMeter.val (AverageMeter.of_list (vs ++ [v])) = v.
Proof. now rewrite of_list_snoc. Qed.

Lemma shows_mean_of_snoc (wrap : Q -> DispVal) sl key vs v :
  dict_get key (sl_disp sl) = Some (wrap (AverageMeter.avg (AverageMeter.of_list (vs ++ [v])))) ->
  shows_mean_of wrap sl key (vs ++ [v]).
Proof.
  intros H. eexists. split; [exact H|]. split; [now destruct vs|apply of_list_avg].
Qed.

(** Lines 106 to 121 on meters that hold the windows [ws]: the meters
    hold the windows fed, and the heads the step reports are displayed. *)
Lemma head_updates_windows out d f bt ws m' disp :
  update_rcnn (so_tb_dict out)
    (update_center_head (so_tb_dict out)
       (update_times_and_loss d f bt (so_loss out) (meters_of ws), so_disp_dict out))
  = (m', disp) ->
  m' = meters_of (fed out d f bt ws) /\
  (has_center_head out = true ->
   dict_get "loss_hm" disp = Some (DFixed 4 (AverageMeter.avg (hm_loss_disp m'))) /\
   dict_get "loss_loc" disp = Some (DFixed 4 (AverageMeter.avg (loc_loss_disp m')))) /\
  (has_rcnn out = true ->
   dict_get "loss_rcnn_cls" disp = Some (DFixed 4 (AverageMeter.avg (rcnn_cls_loss_disp m'))) /\
   dict_get "loss_rcnn_reg" disp = Some (DFixed 4 (AverageMeter.avg (rcnn_reg_loss_disp m')))).
Proof.
  unfold update_rcnn, update_center_head, has_center_head, has_rcnn, fed, meters_of.
  unfold has_center_head, has_rcnn.
  destruct (dict_has "hm_loss_head_0" (so_tb_dict out)
            && dict_has "loc_loss_head_0" (so_tb_dict out));
    destruct (dict_has "rcnn_loss_reg" (so_tb_dict out)
              && dict_has "rcnn_loss_cls" (so_tb_dict out));
    intros H; injection H as <- <-;
    cbn [update_times_and_loss data_time batch_time forward_time loss_disp hm_loss_disp
         loc_loss_disp rcnn_cls_loss_disp rcnn_reg_loss_disp
         win_data_time win_batch_time win_forward_time win_loss win_hm_loss win_loc_loss
         win_rcnn_cls_loss win_rcnn_reg_loss];
    rewrite ?of_list_snoc, ?List.app_nil_r;
    (split; [reflexivity|]); split; intros Hflag; try discriminate Hflag;
    unfold dict_update; cbn [fold_left fst snd];
    rewrite ?dict_get_set_eq;
    repeat (rewrite dict_get_set_ne by reflexivity; rewrite ?dict_get_set_eq);
    split; reflexivity.
Qed.

(** A status line made from meters that hold the windows [ws] shows their
    means. *)
Lemma status_shows_windows out d f bt ws0 disp cur_lr total_norm sl :
  let ws := fed out d f bt ws0 in
  sl_disp sl = disp_str (update_disp (meters_of ws) cur_lr total_norm disp) ->
  (has_center_head out = true ->
   dict_get "loss_hm" disp = Some (DFixed 4 (AverageMeter.avg (hm_loss_disp (meters_of ws)))) /\
   dict_get "loss_loc" disp = Some (DFixed 4 (AverageMeter.avg (loc_loss_disp (meters_of ws))))) ->
  (has_rcnn out = true ->
   dict_get "loss_rcnn_cls" disp
     = Some (DFixed 4 (AverageMeter.avg (rcnn_cls_loss_disp (meters_of ws)))) /\
   dict_get "loss_rcnn_reg" disp
     = Some (DFixed 4 (AverageMeter.avg (rcnn_reg_loss_disp (meters_of ws))))) ->
  shows_windows out ws sl.
Proof.
  intros ws Hdisp Hcenter Hrcnn.
  assert (Hget : forall k,
    String.eqb k "lr" = false ->
    dict_get k (sl_disp sl) = dict_get k (update_disp (meters_of ws) cur_lr total_norm disp)).
  { intros k Hk. rewrite Hdisp. now apply disp_str_other. }
  assert (Hkeep : forall k,
    String.eqb k "loss" = false -> String.eqb k "lr" = false ->
    String.eqb k "d_time" = false -> String.eqb k "f_time" = false ->
    String.eqb k "b_time" = false -> String.eqb k "norm" = false ->
    dict_get k (sl_disp sl) = dict_get k disp).
  { intros k H1 H2 H3 H4 H5 H6. rewrite Hget by exact H2.
    unfold update_disp, dict_update. cbn [fold_left fst snd].
    now rewrite !dict_get_set_ne by assumption. }
  unfold shows_windows. subst ws. unfold fed in *.
  cbn [win_data_time win_batch_time win_forward_time win_loss win_hm_loss win_loc_loss
       win_rcnn_cls_loss win_rcnn_reg_loss meters_of hm_loss_disp loc_loss_disp
       rcnn_cls_loss_disp rcnn_reg_loss_disp] in *.
  rewrite !List.last_last.
  split.
  { apply shows_mean_of_snoc. rewrite Hget by reflexivity.
    unfold update_disp, dict_update. cbn [fold_left fst snd loss_disp meters_of win_loss].
    rewrite !dict_get_set_ne by reflexivity. apply dict_get_set_eq. }
  split.
  { intros Hflag. destruct (Hcenter Hflag) as (Hhm & Hloc). rewrite Hflag in *.
    split; apply shows_mean_of_snoc; rewrite Hkeep by reflexivity; assumption. }
  split.
  { intros Hflag. destruct (Hrcnn Hflag) as (Hcls & Hreg). rewrite Hflag in *.
    split; apply shows_mean_of_snoc; rewrite Hkeep by reflexivity; assumption. }
  repeat split.
  all: eexists; (split; [|split; [|apply of_list_avg]]);
       [rewrite Hget by reflexivity;
        unfold update_disp, dict_update;
        cbn [fold_left fst snd data_time forward_time batch_time meters_of
             win_data_time win_forward_time win_batch_time];
        rewrite ?dict_get_set_eq;
        repeat (rewrite dict_get_set_ne by reflexivity; rewrite ?dict_get_set_eq);
        rewrite of_list_val; reflexivity
       |match goal with |- ?l ++ _ <> [] => now destruct l end].
Qed.

Section MeterWindows.
Context {env : Env}.

(** What the lead worker does to meters that hold the windows [ws]: its
    status line, when it makes one, shows the means of the windows fed, and
    then the loss meters are emptied and the timing meters are not. *)
Lemma lead_worker_windows a s p j b lr out d f bt acc cnt ws w :
  let now := fed out d f bt ws in
  match lead_worker a s p j b lr out d f bt acc cnt (meters_of ws) w with
  | (r, w') =>
      exists evs, w_trace w' = w_trace w ++ evs /\
        Forall (fun sl => sl_cur_it sl = j /\ shows_windows out now sl) (status_lines evs) /\
        match r with
        | Ok (_, m') =>
            m' = meters_of (match status_lines evs with
                            | [] => now
                            | _ :: _ => emptied now
                            end)
        | Raise _ => True
        end
  end.
Proof.
  cbv zeta.
  exec_lead.
  all: match goal with
       | H : update_rcnn _ _ = (_, _) |- _ =>
           destruct (head_updates_windows _ _ _ _ _ _ _ H) as (-> & Hcenter & Hrcnn)
       end.
  all: eexists; (split; [trace_ext|]).
  all: autorewrite with observe; cbn [status_lines flat_map app].
  all: split; [|try exact I; reflexivity].
  all: try apply List.Forall_nil.
  all: apply List.Forall_cons; [|apply List.Forall_nil].
  all: split; [reflexivity|].
  all: eapply status_shows_windows; [reflexivity|exact Hcenter|exact Hrcnn].
Qed.

End MeterWindows.

Section EpochTimes.
Context {env : Env}.

(** One iteration on meters that hold the windows [ws]: its status line,
    which only the lead worker makes, shows the three times of the
    iteration and the means of their windows, and the meters hold windows
    again, those of the times with one value more. *)
Lemma iteration_windows a tl s p j l w ws :
  Loop.meters l = meters_of ws ->
  let d := average_reduce_value (time_time DataTimer (Epoch.cur_epoch a) j - Loop.end_ l)%Q in
  let f := avg_forward_time a j in
  let bt := average_reduce_value (time_time BatchTime (Epoch.cur_epoch a) j - Loop.end_ l)%Q in
  match iteration a tl s p j l w with
  | (r, w') =>
      exists evs, w_trace w' = w_trace w ++ evs /\
        Forall (fun sl =>
                  Epoch.rank a = 0 /\ sl_cur_it sl = j /\
                  shows_mean_of (DValAvg 2 d) sl "d_time" (win_data_time ws ++ [d]) /\
                  shows_mean_of (DValAvg 2 f) sl "f_time" (win_forward_time ws ++ [f]) /\
                  shows_mean_of (DValAvg 2 bt) sl "b_time" (win_batch_time ws ++ [bt]))
               (status_lines evs) /\
        match r with
        | Ok l' =>
            Loop.end_ l' = time_time EndOfIteration (Epoch.cur_epoch a) j /\
            exists ws', Loop.meters l' = meters_of ws' /\
              (Epoch.rank a = 0 ->
               win_data_time ws' = win_data_time ws ++ [d] /\
               win_forward_time ws' = win_forward_time ws ++ [f] /\
               win_batch_time ws' = win_batch_time ws ++ [bt])
        | Raise _ => True
        end
  end.
Proof.
  intros Hm. cbv zeta. unfold avg_forward_time.
  exec_with ltac:(unfold iteration, training_step, next_batch; rewrite ?Hm).
  all: try match goal with
           | H : lead_worker ?a ?s ?p ?j ?b ?lr ?out ?d ?f ?bt ?acc ?cnt (meters_of ?ws) ?w = _
             |- _ =>
               let P := fresh "Hlead" in
               pose proof (lead_worker_windows a s p j b lr out d f bt acc cnt ws w) as P;
               cbv zeta in P; rewrite H in P; cbn beta iota in P;
               destruct P as (evl & Hevl & Hshown & Hl');
               cbn [w_trace set_trace set_net set_iters set_files] in Hevl; rewrite Hevl
           end.
  all: eexists; (split; [trace_ext|]).
  all: autorewrite with observe; cbn [status_lines flat_map app].
  all: try (split; [apply List.Forall_nil|exact I]).
  all: try (split; [apply List.Forall_nil|];
            split; [reflexivity|]; exists ws; split; [reflexivity|];
            intros Hrank;
            match goal with H : (Epoch.rank _ =? 0) = false |- _ =>
              apply Z.eqb_neq in H; contradiction end).
  all: match goal with H : (Epoch.rank _ =? 0) = true |- _ => apply Z.eqb_eq in H end.
  all: split;
       [ eapply List.Forall_impl; [|exact Hshown]; cbv beta;
         intros sl (Hcur & _ & _ & _ & Hd & Hf & Hb);
         unfold fed in Hd, Hf, Hb;
         cbn [win_data_time win_forward_time win_batch_time] in Hd, Hf, Hb;
         rewrite List.last_last in Hd, Hf, Hb;
         repeat split; assumption
       | try exact I ].
  all: split; [reflexivity|].
  all: eexists; split; [exact Hl'|]; intros _;
       destruct (status_lines evl); repeat split; reflexivity.
Qed.

(** Over an epoch every status line shows, for each of the three times,
    the time of its iteration and the mean over all the iterations of the
    call so far: the timing meters are never emptied. *)
Lemma epoch_times a tl acc it w :
  let start := acc mod Epoch.total_it_each_epoch a in
  match train_one_epoch a tl acc it w with
  | (r, w') =>
      exists evs, w_trace w' = w_trace w ++ evs /\
        Forall (shows_epoch_times a start) (status_lines evs)
  end.
Proof.
  cbv zeta.
  destruct (Z.eq_dec (Epoch.total_it_each_epoch a) 0) as [HT|HT].
  { destruct (train_one_epoch_zero a tl acc it w HT) as (Hr & Htr & _).
    destruct (train_one_epoch a tl acc it w) as [r w']. cbn [fst snd] in *.
    exists []. rewrite List.app_nil_r. split; [exact Htr|]. constructor. }
  set (start := acc mod Epoch.total_it_each_epoch a).
  pose (Inv := fun (j : Z) (l : Loop.vars) (w' : World) =>
    exists evs, w_trace w' = w_trace w ++ evs /\
      Loop.end_ l = end_at a start j /\
      (exists ws, Loop.meters l = meters_of ws /\
         (Epoch.rank a = 0 ->
          let so_far := range_from start (Z.to_nat (j - start)) in
          win_data_time ws = map (avg_data_time a start) so_far /\
          win_forward_time ws = map (avg_forward_time a) so_far /\
          win_batch_time ws = map (avg_batch_time a start) so_far)) /\
      Forall (shows_epoch_times a start) (status_lines evs)).
  pose (Ex := fun (e : Exn) (w' : World) =>
    exists evs, w_trace w' = w_trace w ++ evs /\
      Forall (shows_epoch_times a start) (status_lines evs)).
  pose proof (epoch_rule Inv Ex a tl acc it w HT) as Hrule. cbv zeta in Hrule.
  fold start in Hrule.
  lapply Hrule; clear Hrule.
  2:{ destruct (epoch_entry_trace a tl w) as (ev0 & H0 & Hev0). exists ev0.
      split; [exact H0|].
      split; [unfold end_at, loop_init; cbn [Loop.end_]; now rewrite Z.eqb_refl|].
      split.
      - exists {| win_data_time := []; win_batch_time := []; win_forward_time := [];
                  win_loss := []; win_hm_loss := []; win_loc_loss := [];
                  win_rcnn_cls_loss := []; win_rcnn_reg_loss := [] |}.
        split; [reflexivity|]. intros _. replace (start - start) with 0 by lia.
        repeat split; reflexivity.
      - destruct Hev0; subst ev0; constructor. }
  intros Hrule. lapply Hrule; clear Hrule.
  2:{ intros j l w' Hj (evs & Htr & Hend & (ws & Hm & Hws) & Hall).
      pose proof (iteration_windows a tl start
        (time_time PbarCreated (Epoch.cur_epoch a) start) j l w' ws Hm) as Hit.
      cbv zeta in Hit. rewrite Hend in Hit.
      fold (avg_data_time a start j) in Hit. fold (avg_batch_time a start j) in Hit.
      assert (Hk : Z.to_nat (j + 1 - start) = S (Z.to_nat (j - start))) by lia.
      assert (Hj' : start + Z.of_nat (Z.to_nat (j - start)) = j) by lia.
      assert (Hlines : forall ev1,
        Forall (fun sl =>
                  Epoch.rank a = 0 /\ sl_cur_it sl = j /\
                  shows_mean_of (DValAvg 2 (avg_data_time a start j)) sl "d_time"
                                (win_data_time ws ++ [avg_data_time a start j]) /\
                  shows_mean_of (DValAvg 2 (avg_forward_time a j)) sl "f_time"
                                (win_forward_time ws ++ [avg_forward_time a j]) /\
                  shows_mean_of (DValAvg 2 (avg_batch_time a start j)) sl "b_time"
                                (win_batch_time ws ++ [avg_batch_time a start j]))
               (status_lines ev1) ->
        Forall (shows_epoch_times a start) (status_lines (evs ++ ev1))).
      { intros ev1 H1. rewrite status_lines_app. apply List.Forall_app. split; [exact Hall|].
        eapply List.Forall_impl; [|exact H1]. cbv beta.
        intros sl (Hrank & Hcur & Hd & Hf & Hb).
        destruct (Hws Hrank) as (Wd & Wf & Wb). cbv zeta in Wd, Wf, Wb.
        unfold shows_epoch_times. cbv zeta. rewrite Hcur. unfold range.
        rewrite Hk, range_from_snoc, !map_app, Hj'. cbn [map].
        rewrite <- Wd, <- Wf, <- Wb. repeat split; assumption. }
      destruct (iteration _ _ _ _ j l w') as [[l'|e] w''];
        destruct Hit as (ev1 & Htr1 & Hshown & Hres);
        exists (evs ++ ev1); rewrite Htr1, Htr, <- List.app_assoc;
        (split; [reflexivity|]); [|now apply Hlines].
      destruct Hres as (Hend' & ws' & Hm' & Hws').
      split.
      { rewrite Hend'. unfold end_at.
        destruct (Z.eqb_spec (j + 1) start) as [E|_]; [lia|].
        now replace (j + 1 - 1) with j by lia. }
      split; [|now apply Hlines].
      exists ws'. split; [exact Hm'|]. intros Hrank. cbv zeta.
      destruct (Hws Hrank) as (Wd & Wf & Wb). cbv zeta in Wd, Wf, Wb.
      destruct (Hws' Hrank) as (Wd' & Wf' & Wb').
      rewrite Hk, range_from_snoc, !map_app, Hj'. cbn [map].
      rewrite Wd', Wf', Wb', Wd, Wf, Wb. repeat split; reflexivity. }
  intros Hrule.
  destruct (train_one_epoch a tl acc it w) as [[r|e] w'].
  - destruct Hrule as (l & w3 & (evs & Htr & _ & _ & Hall) & Hr & Hw').
    destruct (epoch_exit_trace a w3) as (ev1 & Htr1 & Hev1).
    exists (evs ++ ev1). subst w'. rewrite Htr1, Htr, <- List.app_assoc.
    split; [reflexivity|].
    rewrite status_lines_app.
    destruct Hev1; subst ev1; cbn [status_lines flat_map app];
      rewrite ?List.app_nil_r; exact Hall.
  - exact Hrule.
Qed.

End EpochTimes.

(** ** The pattern of the sweep *)

Lemma list_ascii_of_append (s t : string) :
  list_ascii_of_string (append s t) = list_ascii_of_string s ++ list_ascii_of_string t.
Proof. induction s as [|c s IH]; cbn; [reflexivity|now rewrite IH]. Qed.

Lemma substring_split (s : string) : forall k : nat,
  (k <= String.length s)%nat ->
  s = append (substring 0 k s) (substring k (String.length s - k) s).
Proof.
  induction s as [|c s IH]; intros k Hk.
  - destruct k; reflexivity.
  - destruct k as [|k].
    + cbn [substring append]. rewrite Nat.sub_0_r. cbn [String.length].
      now rewrite substring_all.
    + cbn [substring append String.length Nat.sub]. f_equal. apply IH.
      cbn [String.length] in Hk. lia.
Qed.

(** [ends_with] is what its name says. *)
Lemma ends_with_spec (suf s : string) :
  ends_with suf s = true <-> exists s1, s = append s1 suf.
Proof.
  split.
  - unfold ends_with. intros H. apply andb_true_iff in H. destruct H as (Hle & Heq).
    apply Nat.leb_le in Hle. apply String.eqb_eq in Heq.
    exists (substring 0 (String.length s - String.length suf) s).
    pose proof (substring_split s (String.length s - String.length suf) ltac:(lia)) as H.
    replace (String.length s - (String.length s - String.length suf))%nat
      with (String.length suf) in H by lia.
    now rewrite Heq in H.
  - intros (s1 & ->). apply ends_with_append.
Qed.

(** A pattern of plain characters matches its own text only. *)
Lemma glob_match_chars (suf : list ascii) : forall l : list ascii,
  glob_match (map GChar suf) l = true <-> l = suf.
Proof.
  induction suf as [|c suf IH]; intros l; cbn [map glob_match].
  - destruct l; split; intros H; try reflexivity; discriminate H.
  - destruct l as [|d l]; [split; intros H; discriminate H|].
    rewrite andb_true_iff, IH. split.
    + intros (Hc & ->). apply Ascii.eqb_eq in Hc. now subst.
    + intros H. injection H as -> ->. split; [apply Ascii.eqb_refl|reflexivity].
Qed.

(** [*] followed by plain characters matches the texts that end with
    them. *)
Lemma glob_match_star (suf : list ascii) : forall l : list ascii,
  glob_match (GStar :: map GChar suf) l = true <-> exists l1, l = l1 ++ suf.
Proof.
  induction l as [|d l IH].
  - cbn [glob_match]. rewrite orb_false_r, glob_match_chars. split.
    + intros <-. now exists [].
    + intros (l1 & H). symmetry in H. apply app_eq_nil in H. now destruct H.
  - change (glob_match (GStar :: map GChar suf) (d :: l))
      with (glob_match (map GChar suf) (d :: l) || glob_match (GStar :: map GChar suf) l).
    rewrite orb_true_iff, glob_match_chars, IH. split.
    + intros [<-|(l1 & ->)]; [now exists []|now exists (d :: l1)].
    + intros ([|c l1] & H); [left; exact H|right].
      injection H as -> ->. now exists l1.
Qed.

Lemma glob_match_star_suffix (suf s : string) :
  glob_match (GStar :: map GChar (list_ascii_of_string suf)) (list_ascii_of_string s)
  = ends_with suf s.
Proof.
  apply eq_true_iff_eq. rewrite glob_match_star, ends_with_spec. split.
  - intros (l1 & H). exists (string_of_list_ascii l1).
    rewrite <- (string_of_list_ascii_of_string s), H.
    rewrite <- (list_ascii_of_string_of_list_ascii l1) at 1.
    rewrite <- list_ascii_of_append. apply string_of_list_ascii_of_string.
  - intros (s1 & ->). exists (list_ascii_of_string s1). apply list_ascii_of_append.
Qed.

(** Plain characters at the head of a pattern are a prefix of the text. *)
Lemma glob_match_prefix (pre : string) (p : list Glob) : forall name : string,
  glob_match (map GChar (list_ascii_of_string pre) ++ p) (list_ascii_of_string name)
  = String.prefix pre name
    && glob_match p (list_ascii_of_string (drop_prefix (String.length pre) name)).
Proof.
  induction pre as [|c pre IH]; intros name.
  - cbn [list_ascii_of_string map app String.length]. unfold drop_prefix.
    rewrite Nat.sub_0_r, substring_all. now destruct name.
  - destruct name as [|d name]; [reflexivity|].
    cbn [list_ascii_of_string map app glob_match String.prefix String.length].
    rewrite IH. unfold drop_prefix. cbn [String.length Nat.sub substring].
    destruct (ascii_dec c d) as [->|Hne].
    + now rewrite Ascii.eqb_refl.
    + apply Ascii.eqb_neq in Hne. now rewrite Hne.
Qed.

(** The names [fnmatch] finds for [checkpoint_epoch_*.pth] are the
    epoch-numbered checkpoints. *)
Lemma fnmatch_epoch_checkpoint (name : string) :
  fnmatch name "checkpoint_epoch_*.pth" = is_epoch_checkpoint name.
Proof.
  unfold fnmatch, is_epoch_checkpoint.
  change (translate _ (list_ascii_of_string "checkpoint_epoch_*.pth"))
    with (map GChar (list_ascii_of_string "checkpoint_epoch_")
          ++ GStar :: map GChar (list_ascii_of_string ".pth")).
  rewrite glob_match_prefix, glob_match_star_suffix. reflexivity.
Qed.


(** * The specification, statement by statement *)

(** ** The global step counter *)

(** C1: the global step counter goes up by exactly one with each training
    iteration and never down. An iteration of the loop that returns has
    stepped the schedule with the counter it found, has taken one training
    step and leaves the counter one above. Along any call of the epoch
    driver the schedule is stepped with consecutive values from the
    incoming counter and the run tracker is given consecutive values from
    the one after it; when the driver returns, it returns the incoming
    counter plus the number of training steps that went through, which is
    the number of iterations from [accumulated_iter mod total_it_each_epoch]
    to the end of the epoch. *)
Theorem accumulated_iter_counts_iterations {env : Env} a train_loader accumulated_iter
    dataloader_iter w start_it pbar cur_it l w0 :
  let T := Epoch.total_it_each_epoch a in
  let step := iteration a train_loader start_it pbar cur_it l w0 in
  let r := train_one_epoch a train_loader accumulated_iter dataloader_iter w in
  match fst step with
  | Ok l' =>
      Loop.accumulated_iter l' = Loop.accumulated_iter l + 1 /\
      exists evs,
        w_trace (snd step) = w_trace w0 ++ evs /\
        lr_steps evs = [Loop.accumulated_iter l] /\
        List.length (model_batches evs) = 1%nat
  | Raise _ => True
  end /\
  exists evs,
    w_trace (snd r) = w_trace w ++ evs /\
    counts_by_one accumulated_iter evs /\
    match fst r with
    | Ok returned =>
        returned = accumulated_iter + Z.of_nat (List.length (model_batches evs)) /\
        returned = accumulated_iter + Z.max 0 (T - accumulated_iter mod T) /\
        accumulated_iter <= returned
    | Raise _ => True
    end.
Proof.
  intros T step r. subst step r. split.
  - pose proof (iteration_counter a train_loader start_it pbar cur_it l w0) as H.
    cbv zeta in H.
    destruct (iteration a train_loader start_it pbar cur_it l w0) as [[l'|e] w1];
      cbn [fst snd]; [|exact I].
    destruct H as (evs & Hext & Hacc & Hlr & Hmb & _).
    split; [exact Hacc|]. exists evs. repeat split; assumption.
  - pose proof (epoch_counter a train_loader accumulated_iter dataloader_iter w) as H.
    cbv zeta in H. fold T in H.
    destruct (train_one_epoch a train_loader accumulated_iter dataloader_iter w)
      as [res w'].
    destruct H as (evs & Hext & Hcount & _ & Hres).
    exists evs. cbn [fst snd]. split; [exact Hext|]. split; [exact Hcount|].
    destruct res as [returned|e]; [|exact I].
    destruct Hres as (_ & Hn & _ & ->). rewrite Hn. repeat split; lia.
Qed.

(** ** Retention *)




(** ** Exhausted iterators *)

(** C3: the end of the data is never propagated as an error. No run of
    [train_model] raises [StopIteration], whatever its arguments and its
    loader: an epoch has an iteration only when the loader has a batch. And
    with a loader that has at least one batch, an epoch that starts with an
    iterator of the store gives its training steps what the iterator has
    left and then, again and again, the batches of the loader from the
    first one, with one ['new iters'] for each restart; the call goes on to
    the last iteration of the epoch unless the training step itself raises
    or a division by zero stops it. *)
Theorem exhaustion_restarts_the_iterator {env : Env} a train_loader accumulated_iter
    dataloader_iter w cur run_args w0 :
  let T := Epoch.total_it_each_epoch a in
  let N := Z.to_nat (T - accumulated_iter mod T) in
  let r := train_one_epoch a train_loader accumulated_iter dataloader_iter w in
  let run := train_model run_args train_loader w0 in
  fst run <> Raise StopIteration /\
  (train_loader <> [] ->
   entry_batches a train_loader dataloader_iter w = Some cur ->
   exists evs,
     w_trace (snd r) = w_trace w ++ evs /\
     let n := List.length (model_batches evs) in
     model_batches evs = draw n cur train_loader /\
     match fst r with
     | Ok _ =>
         n = N /\ List.length (new_iters evs) = restarts N cur train_loader
     | Raise e =>
         e <> StopIteration /\
         ((e = StepError /\ ~ steps_succeed) \/
          (e = ZeroDivisionError /\ (~ intervals_nonzero a \/ T = 0)))
     end).
Proof.
  intros T N r run. subst r run. split; [apply run_no_stop|].
  intros Htl Hcur.
  pose proof (epoch_draws a train_loader accumulated_iter dataloader_iter w cur Htl Hcur)
    as H.
  cbv zeta in H. fold T in H. fold N in H.
  destruct (train_one_epoch a train_loader accumulated_iter dataloader_iter w) as [res w'].
  destruct H as (evs & Hext & Hdraw & _ & Hres).
  exists evs. cbn [fst snd]. split; [exact Hext|]. cbv zeta. split; [exact Hdraw|].
  destruct res as [returned|e]; [exact Hres|].
  destruct Hres as [(-> & Hs)|[(-> & Hi)|(-> & HT)]].
  - split; [discriminate|]. left. split; [reflexivity|exact Hs].
  - split; [discriminate|]. right. split; [reflexivity|]. left. exact Hi.
  - split; [discriminate|]. right. split; [reflexivity|]. right. exact HT.
Qed.

(** An epoch of three iterations over a loader of two batches, entered
    with an iterator that has one batch left: the iterator gives out after
    the first step and is restarted once. *)
Lemma exhaustion_restarts_the_iterator_witness :
  [5; 6]%nat <> [] /\
  entry_batches (env := recent_env) (example_epoch 3 2 300 true) [5; 6]%nat 0%nat
                (example_world recent_env [[7]%nat] []) = Some [7]%nat /\
  model_batches
    (w_trace (snd (train_one_epoch (env := recent_env) (example_epoch 3 2 300 true)
                     [5; 6]%nat 0 0%nat (example_world recent_env [[7]%nat] []))))
  = [7; 5; 6]%nat.
Proof.
  split; [discriminate|]. split; [reflexivity|].
  destruct (exhaustion_restarts_the_iterator (env := recent_env)
              (example_epoch 3 2 300 true) [5; 6]%nat 0 0%nat
              (example_world recent_env [[7]%nat] []) [7]%nat
              (example_run 2 1 5 50 None) (example_world recent_env [] []))
    as (_ & Hepoch).
  destruct (Hepoch ltac:(discriminate) eq_refl) as (evs & Hext & Hdraw & Hres).
  cbn [example_world w_trace app] in Hext. rewrite Hext.
  destruct (fst _) as [returned|e] eqn:E in Hres.
  - destruct Hres as (Hn & _). rewrite Hdraw, Hn. reflexivity.
  - vm_compute in E. discriminate E.
Defined.

(** A run over a loader without batches stops at line 30 of its first
    epoch, before any batch is asked for; only [train_one_epoch] called on
    its own with such a loader and a number of iterations other than zero,
    which no run does, meets the end of the data twice and lets it out. *)
Example empty_loader_outside_a_run :
  fst (train_model (env := recent_env) (example_run 2 1 5 50 (Some {| HOOK := None |})) []
         (example_world recent_env [] [])) = Raise ZeroDivisionError /\
  fst (train_one_epoch (env := recent_env) (example_epoch 1 50 300 true) [] 0 0%nat
         (example_world recent_env [[]] [])) = Raise StopIteration.
Proof. split; vm_compute; reflexivity. Qed.

(** ** Checkpoints *)

(** C4: the record [checkpoint_state] returns has the epoch and the
    iteration it was given; it has the state of the optimizer when one was
    given and none otherwise; for a model wrapped in
    [DistributedDataParallel] it has the state of the wrapped module, key
    by key and in the same order, with every tensor copied to the host,
    for a bare model its state as it is, and none without a model. The
    keys of a state are distinct, as those of any dict. *)
Theorem checkpoint_state_captures {env : Env} model optimizer epoch it :
  let state := checkpoint_state model optimizer epoch it in
  List.NoDup (model_keys model) ->
  ck_epoch state = epoch /\
  ck_it state = it /\
  (ck_optimizer_state state <> None <-> optimizer <> None) /\
  ck_optimizer_state state = option_map opt_state_dict optimizer /\
  match model with
  | Some (DistributedDataParallel module) =>
      exists model_state,
        ck_model_state state = Some model_state /\
        model_state = map (fun kv => (fst kv, cpu (snd kv))) (state_dict module) /\
        Forall (fun kv => on_host (snd kv) = true) model_state
  | Some (Bare m) => ck_model_state state = Some (state_dict m)
  | None => ck_model_state state = None
  end.
Proof.
  intros state Hkeys. subst state.
  split; [reflexivity|]. split; [reflexivity|].
  split.
  { destruct optimizer; cbn; split; intros H; try discriminate;
    exfalso; apply H; reflexivity. }
  split; [destruct optimizer; reflexivity|].
  destruct model as [[m|module]|]; [reflexivity| |reflexivity].
  exists (model_state_to_cpu (state_dict module)).
  split; [reflexivity|].
  split; [apply model_state_to_cpu_map; exact Hkeys|].
  apply model_state_to_cpu_on_host.
Qed.

(** The state of a wrapped module with two tensors on two devices. *)
Lemma checkpoint_state_captures_witness :
  List.NoDup (model_keys (Some (DistributedDataParallel example_module))) /\
  ck_model_state (checkpoint_state (env := recent_env)
                    (Some (DistributedDataParallel example_module))
                    (Some example_optimizer) 3 75)
  = Some [("weight"%string, {| t_device := CPU; t_data := [1; 2]%Q |});
          ("bias"%string, {| t_device := CPU; t_data := [3]%Q |})].
Proof.
  assert (Hkeys : List.NoDup (model_keys (Some (DistributedDataParallel example_module)))).
  { cbn. repeat constructor; cbn; intuition discriminate. }
  split; [exact Hkeys|].
  destruct (checkpoint_state_captures (env := recent_env)
              (Some (DistributedDataParallel example_module))
              (Some example_optimizer) 3 75 Hkeys)
    as (_ & _ & _ & _ & model_state & -> & -> & _).
  reflexivity.
Defined.

(** C5, as amended: [save_checkpoint] writes the record to the file named
    by the path followed by [.pth]. It asks for the legacy format, passing
    [_use_new_zipfile_serialization=False], exactly when the library is of
    release 1.4 or later, and with an earlier one it calls [torch.save]
    with the record and the name alone. This holds for the libraries whose
    version is a [str], up to 1.9, and for those whose version is a
    [TorchVersion], from 1.10 on. *)
Theorem save_checkpoint_writes {env : Env} state filename now w (major minor : N) :
  let zipfile_arg := if at_least_1_4 major minor then Some false else None in
  let f := {| f_name := append filename ".pth"; f_mtime := now; f_state := state;
              f_zipfile_arg := zipfile_arg |} in
  library_release torch_version major minor ->
  save_checkpoint state filename now w =
    (Ok tt,
     set_files (fs_write f (w_files w))
       (set_trace (w_trace w ++ [EvTorchSave state (append filename ".pth") zipfile_arg])
                  w)) /\
  requests_legacy zipfile_arg = at_least_1_4 major minor.
Proof.
  intros zipfile_arg f Hversion. subst f zipfile_arg.
  unfold save_checkpoint.
  rewrite (release_ge_1_4 torch_version major minor Hversion).
  destruct (at_least_1_4 major minor); split; reflexivity.
Qed.

(** With the library 1.8.1 the [latest] slot is written in the legacy
    format. *)
Lemma save_checkpoint_writes_witness :
  library_release (torch_version (Env := recent_env)) 1 8 /\
  w_files (snd (save_checkpoint (env := recent_env) example_checkpoint "latest_model" 5
                  (example_world recent_env [] [])))
  = [{| f_name := "latest_model.pth"; f_mtime := 5; f_state := example_checkpoint;
        f_zipfile_arg := Some false |}].
Proof.
  assert (Hversion : library_release (torch_version (Env := recent_env)) 1 8)
    by exact (release_of_str 1 8 ".1" eq_refl eq_refl eq_refl).
  split; [exact Hversion|].
  destruct (save_checkpoint_writes (env := recent_env) example_checkpoint "latest_model" 5
              (example_world recent_env [] []) 1 8 Hversion)
    as (-> & _).
  reflexivity.
Defined.

(** C5 as stated fails: it is the recent library, not the old one, that
    is asked for the legacy format. With the library 1.8.1, whose version
    is a [str], and with the library 1.13.1, whose version is a
    [TorchVersion], the specification has the default format where
    [save_checkpoint] asks for the legacy one. *)
Lemma legacy_format_for_the_recent_library :
  map f_zipfile_arg
      (w_files (snd (save_checkpoint (env := example_env (ticking_clock 10) "1.8.1")
                       example_checkpoint "latest_model" 5
                       (example_world (example_env (ticking_clock 10) "1.8.1") [] []))))
  = [Some false] /\
  spec_legacy_format 1 8 = false /\
  map f_zipfile_arg
      (w_files (snd (save_checkpoint
                       (env := example_env_with (ticking_clock 10)
                                 (TorchVersion "1.13.1" (Some (final_release [1; 13; 1]%N))))
                       example_checkpoint "latest_model" 5
                       (example_world
                          (example_env_with (ticking_clock 10)
                             (TorchVersion "1.13.1" (Some (final_release [1; 13; 1]%N))))
                          [] []))))
  = [Some false] /\
  spec_legacy_format 1 13 = false.
Proof. repeat split; vm_compute; reflexivity. Qed.

(** From the library 1.10 on it is the release numbers that are compared:
    as a [str], the text [1.13.1] comes before [1.4]. *)
Example release_numbers_decide_from_1_10 :
  version_ge (TorchVersion "1.13.1" (Some (final_release [1; 13; 1]%N))) "1.4" = true /\
  version_ge (Str "1.13.1") "1.4" = false /\
  library_release (TorchVersion "1.13.1" (Some (final_release [1; 13; 1]%N))) 1 13.
Proof.
  split; [reflexivity|]. split; [reflexivity|].
  apply (release_of_version "1.13.1" (final_release [1; 13; 1]%N) 1 13 [1%N]);
    [reflexivity|reflexivity|discriminate].
Qed.

(** ** The verbose logger *)

(** C6, as amended: a status line is followed by the reset of the five
    loss meters (the loss and the four losses of the heads) and of none of
    the three timing meters. On meters that hold the values they were given
    since they were last emptied, what the lead worker does at the end of
    an iteration gives each meter its value of the iteration, shows in the
    status line, when there is one, the arithmetic mean of the values of
    each meter, and then leaves the loss meters empty and the timing meters
    as they are. So over an epoch every status line shows as its ['loss']
    the mean of the losses logged since the status line before it, and for
    each of the three times the mean over all the iterations of the call so
    far. *)
Theorem emission_resets_the_loss_meters {env : Env} a train_loader accumulated_iter
    dataloader_iter w start_it pbar cur_it batch cur_lr out avg_data_time avg_forward_time
    avg_batch_time acc ckpt_save_cnt ws w0 :
  let now := fed out avg_data_time avg_forward_time avg_batch_time ws in
  let led := lead_worker a start_it pbar cur_it batch cur_lr out avg_data_time
               avg_forward_time avg_batch_time acc ckpt_save_cnt (meters_of ws) w0 in
  let r := train_one_epoch a train_loader accumulated_iter dataloader_iter w in
  (exists evs,
     w_trace (snd led) = w_trace w0 ++ evs /\
     Forall (shows_windows out now) (status_lines evs) /\
     match fst led with
     | Ok (_, m') =>
         m' = meters_of (match status_lines evs with
                         | [] => now
                         | _ :: _ => emptied now
                         end)
     | Raise _ => True
     end) /\
  exists evs,
    w_trace (snd r) = w_trace w ++ evs /\
    Forall2 shows_mean (shown_losses evs) (loss_windows [] evs) /\
    Forall (shows_epoch_times a (accumulated_iter mod Epoch.total_it_each_epoch a))
           (status_lines evs).
Proof.
  intros now led r. subst now led r. split.
  - pose proof (lead_worker_windows a start_it pbar cur_it batch cur_lr out avg_data_time
                  avg_forward_time avg_batch_time acc ckpt_save_cnt ws w0) as H.
    cbv zeta in H.
    destruct (lead_worker a start_it pbar cur_it batch cur_lr out avg_data_time
                avg_forward_time avg_batch_time acc ckpt_save_cnt (meters_of ws) w0)
      as [res w1].
    destruct H as (evs & Hext & Hshown & Hres).
    exists evs. cbn [fst snd]. split; [exact Hext|]. split; [|exact Hres].
    eapply List.Forall_impl; [|exact Hshown]. cbv beta. intros sl (_ & H). exact H.
  - pose proof (epoch_window a train_loader accumulated_iter dataloader_iter w) as H.
    pose proof (epoch_times a train_loader accumulated_iter dataloader_iter w) as Ht.
    cbv zeta in Ht.
    destruct (train_one_epoch a train_loader accumulated_iter dataloader_iter w)
      as [res w1].
    destruct H as (evs & Hext & Hloss). destruct Ht as (evs' & Hext' & Htimes).
    assert (evs' = evs) as -> by (rewrite Hext in Hext'; now apply app_inv_head in Hext').
    exists evs. cbn [snd]. split; [exact Hext|]. split; [exact Hloss|exact Htimes].
Qed.

(** C6 as stated fails for the timing meters, which nothing resets. In an
    epoch of three iterations that wait one, two and three seconds for
    their batch, with a status line after the second and after the third,
    the second line shows as the average of ['d_time'] the mean of all
    three waits, not the wait of the one iteration since the line before;
    and after an iteration that ends with a status line the meter of the
    data time still holds its value, while that of the loss is empty. *)
Lemma timing_meters_outlive_the_emission :
  map (fun sl => (sl_cur_it sl, dict_get "d_time" (sl_disp sl)))
      (status_lines
         (w_trace (snd (train_one_epoch (env := recent_env) (example_epoch 3 1 300 true)
                          [5; 6; 9]%nat 0 0%nat (example_world recent_env [] [])))))
  = [(1, Some (DValAvg 2 2 (3 # 2))); (2, Some (DValAvg 2 3 (6 # 3)))] /\
  ~ (6 # 3 == mean [3])%Q /\
  exists l',
    iteration (env := recent_env) (example_epoch 1 1 300 true) [5]%nat 0 0 0
              (loop_init (env := recent_env) (example_epoch 1 1 300 true) 0 0%nat)
              (example_world recent_env [[5]%nat] [])
    = (Ok l',
       set_iters [[]]
         (set_trace
            [EvLrStep (env := recent_env) lr_scheduler 0;
             EvModelFunc (env := recent_env) 5%nat; EvRunLog 5 1 1;
             EvLoggerInfo (Status
               {| sl_cur_epoch := 0; sl_total_epochs := 2; sl_acc_iter := 1;
                  sl_cur_it := 0; sl_total_it_each_epoch := 1;
                  sl_batch_size := Some 1; sl_trained_time_each_epoch := 10;
                  sl_remaining_second_each_epoch := 10;
                  sl_trained_time_past_all := 10; sl_remaining_second_all := 20;
                  sl_disp := [("loss"%string, DNum 5);
                              ("d_time"%string, DValAvg 2 1 1);
                              ("f_time"%string, DValAvg 2 9 9);
                              ("b_time"%string, DValAvg 2 10 10);
                              ("norm"%string, DNum 1); ("lr"%string, DNum 1)] |})]
            (example_world recent_env [[5]%nat] []))) /\
    loss_disp (Loop.meters l') = AverageMeter.reset /\
    data_time (Loop.meters l') = AverageMeter.update 1 AverageMeter.reset /\
    data_time (Loop.meters l') <> AverageMeter.reset.
Proof.
  split; [vm_compute; reflexivity|].
  split; [vm_compute; discriminate|].
  eexists. split; [vm_compute; reflexivity|].
  split; [reflexivity|]. split; [reflexivity|]. discriminate.
Qed.

(** C7, as amended: on the lead worker, in verbose-logger mode with
    [logger_iter_interval = 50], an iteration ends with a status line
    exactly when its counter is a multiple of 50 and it is not the first
    iteration of the call, or when it is the last iteration of the epoch.
    So an epoch of 50 iterations entered at step 0 produces exactly one
    status line, at step 50. Every status line carries, as the remaining
    time of the whole run,
    [second_each_iter * ((total_epochs - cur_epoch) * total_it_each_epoch - cur_it)]. *)
Theorem status_lines_of_an_epoch {env : Env} a train_loader accumulated_iter
    dataloader_iter w :
  let T := Epoch.total_it_each_epoch a in
  let start_it := accumulated_iter mod T in
  let step_of := fun cur_it => accumulated_iter + (cur_it - start_it) + 1 in
  let r := train_one_epoch a train_loader accumulated_iter dataloader_iter w in
  Epoch.rank a = 0 ->
  Epoch.use_logger_to_record a = true ->
  Epoch.logger_iter_interval a = 50 ->
  exists evs,
    w_trace (snd r) = w_trace w ++ evs /\
    Forall (fun sl =>
              start_it <= sl_cur_it sl < T /\
              sl_acc_iter sl = step_of (sl_cur_it sl) /\
              emits (sl_acc_iter sl) 50 (sl_cur_it sl) start_it T = true /\
              sl_remaining_second_all sl =
                (second_each_iter a start_it (sl_cur_it sl)
                 * inject_Z ((Epoch.total_epochs a - Epoch.cur_epoch a) * T
                             - sl_cur_it sl))%Q)
           (status_lines evs) /\
    match fst r with
    | Ok _ =>
        map sl_cur_it (status_lines evs) =
          List.filter (fun cur_it => emits (step_of cur_it) 50 cur_it start_it T)
                      (range start_it T) /\
        (accumulated_iter = 0 -> T = 50 ->
         map sl_acc_iter (status_lines evs) = [50])
    | Raise _ => True
    end.
Proof.
  intros T start_it step_of r Hrank Hverbose Hinterval. subst r.
  pose proof (epoch_status a train_loader accumulated_iter dataloader_iter w) as H.
  cbv zeta in H. fold T in H. fold start_it in H.
  destruct (train_one_epoch a train_loader accumulated_iter dataloader_iter w) as [res w'].
  destruct H as (evs & Hext & Hlines & n & Hn & Hmap & Hres).
  assert (Hdue : forall j acc',
             status_due a start_it j acc' = emits acc' 50 j start_it T).
  { intros j acc'. unfold status_due.
    rewrite Hrank, Hverbose, Hinterval. reflexivity. }
  assert (Hlines' :
            Forall (fun sl =>
                      start_it <= sl_cur_it sl < T /\
                      sl_acc_iter sl = step_of (sl_cur_it sl) /\
                      emits (sl_acc_iter sl) 50 (sl_cur_it sl) start_it T = true /\
                      sl_remaining_second_all sl =
                        (second_each_iter a start_it (sl_cur_it sl)
                         * inject_Z ((Epoch.total_epochs a - Epoch.cur_epoch a) * T
                                     - sl_cur_it sl))%Q)
                   (status_lines evs)).
  { eapply List.Forall_impl; [|exact Hlines]. cbv beta.
    intros sl (Hr & Hd & Hsl).
    destruct Hsl as (_ & _ & Hacc & _ & _ & _ & Hall).
    split; [exact Hr|]. split; [exact Hacc|].
    split; [rewrite Hacc, <- Hdue; exact Hd|]. exact Hall. }
  exists evs. cbn [fst snd]. split; [exact Hext|]. split; [exact Hlines'|].
  destruct res as [returned|e]; [|exact I].
  subst n.
  assert (Hfilter :
            map sl_cur_it (status_lines evs) =
            List.filter (fun cur_it => emits (step_of cur_it) 50 cur_it start_it T)
                        (range start_it T)).
  { rewrite Hmap. unfold range. apply List.filter_ext. intros j. apply Hdue. }
  split; [exact Hfilter|].
  intros Hacc HT.
  assert (Hstart : start_it = 0) by (unfold start_it; rewrite Hacc, HT; reflexivity).
  unfold step_of in *. rewrite Hstart, Hacc, HT in *.
  change (List.filter (fun cur_it => emits (0 + (cur_it - 0) + 1) 50 cur_it 0 50)
                      (range 0 50)) with [49] in Hfilter.
  destruct (status_lines evs) as [|sl [|sl' lines]]; try discriminate Hfilter.
  injection Hfilter as Hcur.
  apply Forall_inv in Hlines'. destruct Hlines' as (_ & Hsl & _).
  cbn [map]. rewrite Hsl, Hcur. reflexivity.
Qed.

(** An epoch of 50 iterations from step 0: one status line, at step 50. *)
Lemma status_lines_of_an_epoch_witness :
  Epoch.rank (example_epoch 50 50 300 true) = 0 /\
  Epoch.use_logger_to_record (example_epoch 50 50 300 true) = true /\
  Epoch.logger_iter_interval (example_epoch 50 50 300 true) = 50 /\
  map sl_acc_iter
    (status_lines
       (w_trace (snd (train_one_epoch (env := recent_env) (example_epoch 50 50 300 true)
                        (seq 0 50) 0 0%nat (example_world recent_env [] [])))))
  = [50].
Proof.
  split; [reflexivity|]. split; [reflexivity|]. split; [reflexivity|].
  destruct (status_lines_of_an_epoch (env := recent_env) (example_epoch 50 50 300 true)
              (seq 0 50) 0 0%nat (example_world recent_env [] [])
              eq_refl eq_refl eq_refl)
    as (evs & Hext & _ & Hres).
  cbn [example_world w_trace app] in Hext. rewrite Hext.
  destruct (fst _) as [returned|e] eqn:E in Hres.
  - destruct Hres as (_ & Hone). apply Hone; reflexivity.
  - vm_compute in E. discriminate E.
Defined.

(** C7 as stated fails when the epochs are shorter than the interval: the
    last iteration of every epoch ends with a status line whatever its
    counter. A run of two epochs of 25 iterations reaches step 50 with two
    status lines, one at step 25 and one at step 50. *)
Lemma two_status_lines_by_step_50 :
  Run.logger_iter_interval (example_run 2 1 5 50 (Some {| HOOK := None |})) = 50 /\
  Run.use_logger_to_record (example_run 2 1 5 50 (Some {| HOOK := None |})) = true /\
  fst (train_model (env := recent_env) (example_run 2 1 5 50 (Some {| HOOK := None |}))
         (seq 0 25) (example_world recent_env [] [])) = Ok tt /\
  map (fun sl => (sl_cur_epoch sl, sl_cur_it sl, sl_acc_iter sl))
    (status_lines
       (w_trace (snd (train_model (env := recent_env)
                        (example_run 2 1 5 50 (Some {| HOOK := None |}))
                        (seq 0 25) (example_world recent_env [] [])))))
  = [(0, 24, 25); (1, 24, 50)].
Proof. repeat split; vm_compute; reflexivity. Qed.

(** ** The latest slot *)

(** C8, as amended: on the lead worker the end of each iteration reads the
    time elapsed since the epoch started and writes one checkpoint to the
    ["latest"] slot when its whole intervals have reached the save counter,
    which starts at one and goes up by one with each save. So an epoch
    writes at most one such checkpoint for each iteration; when every
    reading is less than one interval after the one before, it has written
    one for each whole interval elapsed at the last reading; and with an
    interval of 300 seconds, an epoch in which some reading is 300 seconds
    or more and none reaches 600, as one that runs 301 seconds, writes
    exactly one. *)
Theorem latest_slot_saves {env : Env} a train_loader accumulated_iter dataloader_iter w :
  let T := Epoch.total_it_each_epoch a in
  let start_it := accumulated_iter mod T in
  let interval := Epoch.ckpt_save_time_interval a in
  let r := train_one_epoch a train_loader accumulated_iter dataloader_iter w in
  Epoch.rank a = 0 ->
  0 < interval ->
  exists evs n,
    w_trace (snd r) = w_trace w ++ evs /\
    (n <= Z.to_nat (T - start_it))%nat /\
    match fst r with
    | Ok _ => n = Z.to_nat (T - start_it)
    | Raise _ => True
    end /\
    let rs := readings a start_it n in
    let saves := Z.of_nat (List.length (latest_saves evs)) in
    saves = count_due interval rs 1 - 1 /\
    saves <= Z.of_nat n /\
    Forall (fun ck => ck_epoch ck = Epoch.cur_epoch a /\
                      accumulated_iter < ck_it ck <= accumulated_iter + Z.of_nat n)
           (latest_saves evs) /\
    (steady interval 0%Q rs ->
     saves = Qfloor (List.last rs 0%Q / inject_Z interval)) /\
    (interval = 300 ->
     Forall (fun e => (e < 600)%Q) rs -> Exists (fun e => (300 <= e)%Q) rs ->
     saves = 1).
Proof.
  intros T start_it interval r Hrank Hinterval. subst r.
  pose proof (epoch_latest a train_loader accumulated_iter dataloader_iter w) as H.
  cbv zeta in H. fold T in H. fold start_it in H. fold interval in H.
  destruct (train_one_epoch a train_loader accumulated_iter dataloader_iter w) as [res w'].
  destruct H as (evs & Hext & n & Hn & Hcount & Hcks & Hres).
  rewrite Hrank in Hcount. change (0 =? 0) with true in Hcount. cbv iota in Hcount.
  exists evs, n. cbn [fst snd].
  split; [exact Hext|]. split; [exact Hn|]. split; [exact Hres|].
  cbv zeta. split; [exact Hcount|].
  assert (Hlen : List.length (readings a start_it n) = n).
  { unfold readings. rewrite List.length_map. apply range_from_length. }
  split.
  { pose proof (count_due_bounds interval (readings a start_it n) 1) as Hb.
    rewrite Hlen in Hb. lia. }
  split; [exact Hcks|].
  split.
  - intros Hsteady. rewrite Hcount.
    rewrite (count_due_steady interval (readings a start_it n) 0%Q 1 Hinterval Hsteady).
    + lia.
    + assert (H0 : (0 / inject_Z interval == 0)%Q) by (unfold Qdiv; apply Qmult_0_l).
      rewrite (Qfloor_comp _ _ H0). reflexivity.
  - intros Hi Hbelow Hreached. rewrite Hcount, Hi.
    assert (Hup : count_due 300 (readings a start_it n) 1 <= 1 + 1).
    { apply count_due_upper; [|lia].
      eapply List.Forall_impl; [|exact Hbelow]. cbv beta. intros e He.
      apply whole_intervals_le; [lia|exact He]. }
    apply List.Exists_exists in Hreached. destruct Hreached as (e & Hin & He).
    assert (Hlow : 1 + 1 <= count_due 300 (readings a start_it n) 1).
    { apply (count_due_lower 300 _ 1 e Hin).
      apply whole_intervals_ge; [lia|exact He]. }
    lia.
Qed.

(** An epoch of one iteration that runs 301 seconds. *)
Lemma latest_slot_saves_witness :
  Epoch.rank (example_epoch 1 50 300 true) = 0 /\
  0 < Epoch.ckpt_save_time_interval (example_epoch 1 50 300 true) /\
  readings (env := example_env (ticking_clock 301) "1.8.1")
           (example_epoch 1 50 300 true) 0 1 = [301 # 1] /\
  List.length
    (latest_saves
       (w_trace (snd (train_one_epoch (env := example_env (ticking_clock 301) "1.8.1")
                        (example_epoch 1 50 300 true) [5]%nat 0 0%nat
                        (example_world (example_env (ticking_clock 301) "1.8.1")
                                       [] []))))) = 1%nat.
Proof.
  split; [reflexivity|]. split; [reflexivity|]. split; [vm_compute; reflexivity|].
  destruct (latest_slot_saves (env := example_env (ticking_clock 301) "1.8.1")
              (example_epoch 1 50 300 true) [5]%nat 0 0%nat
              (example_world (example_env (ticking_clock 301) "1.8.1") [] [])
              eq_refl eq_refl)
    as (evs & n & Hext & _ & Hres & _ & _ & _ & _ & Hone).
  cbn [example_world w_trace app] in Hext. rewrite Hext.
  destruct (fst _) as [returned|e] eqn:E in Hres.
  - subst n. apply Nat2Z.inj. apply Hone.
    + reflexivity.
    + vm_compute. repeat constructor.
    + vm_compute. left. discriminate.
  - vm_compute in E. discriminate E.
Defined.

(** C8 as stated fails when an iteration outlasts the interval: the time
    is read once for each iteration and each reading writes at most one
    checkpoint. An epoch of one iteration that runs 601 seconds has seen two
    intervals of 300 seconds go by and has written to the slot once. *)
Lemma one_save_for_two_intervals :
  readings (env := example_env (ticking_clock 601) "1.8.1")
           (example_epoch 1 50 300 true) 0 1 = [601 # 1] /\
  Qfloor ((601 # 1) / inject_Z 300) = 2 /\
  fst (train_one_epoch (env := example_env (ticking_clock 601) "1.8.1")
         (example_epoch 1 50 300 true) [5]%nat 0 0%nat
         (example_world (example_env (ticking_clock 601) "1.8.1") [] [])) = Ok 1 /\
  map ck_it
    (latest_saves
       (w_trace (snd (train_one_epoch (env := example_env (ticking_clock 601) "1.8.1")
                        (example_epoch 1 50 300 true) [5]%nat 0 0%nat
                        (example_world (example_env (ticking_clock 601) "1.8.1")
                                       [] []))))) = [1].
Proof. repeat split; vm_compute; reflexivity. Qed.

(** ** The augmentation hook *)

(** C9: over a run the hook that disables augmentations fires at most
    once. When it fires, it is at the epoch
    [max start_epoch (total_epochs - NUM_LAST_EPOCHS)], the first of the run
    with [total_epochs - NUM_LAST_EPOCHS <= cur_epoch]; it logs the list of
    its configuration and replaces the augmentor of the dataset by one built
    from that list, which is still the augmentor when the run ends. Without
    a hook in the configuration nothing fires and the augmentor stays; a
    run that returns has fired exactly when it reached that epoch. *)
Theorem augmentations_disabled_at_most_once {env : Env} a train_loader w :
  let r := train_model a train_loader w in
  exists evs (fired : bool),
    w_trace (snd r) = w_trace w ++ evs /\
    hook_firings evs = (if fired then [hook_list a] else []) /\
    (forall cur, hook_epochs cur evs = if fired then [hook_epoch a] else []) /\
    w_augmentor (snd r) =
      (if fired then DataAugmentor (hook_list a) else w_augmentor w) /\
    match hook_of a with
    | Some hook =>
        hook_list a = DISABLE_AUG_LIST hook /\
        hook_epoch a =
          Z.max (Run.start_epoch a) (Run.total_epochs a - NUM_LAST_EPOCHS hook) /\
        (if fired then hook_epoch a < Run.total_epochs a else True) /\
        match fst r with
        | Ok _ => fired = (hook_epoch a <? Run.total_epochs a)
        | Raise _ => True
        end
    | None => fired = false
    end.
Proof.
  intros r. subst r.
  pose proof (run_hook a train_loader w) as H.
  destruct (train_model a train_loader w) as [res w'].
  destruct H as (evs & fired & Hext & Hfirings & Hepochs & Haug & Hbefore & Hres).
  exists evs, fired. cbn [fst snd].
  split; [exact Hext|]. split; [exact Hfirings|]. split; [exact Hepochs|].
  split; [exact Haug|].
  unfold hook_list, hook_epoch, fired_before in *.
  destruct (hook_of a) as [hook|].
  - split; [reflexivity|]. split; [reflexivity|].
    split.
    + destruct fired; [|exact I]. apply Z.ltb_lt. now apply Hbefore.
    + destruct res; [exact Hres|exact I].
  - destruct fired; [|reflexivity]. symmetry. now apply Hbefore.
Qed.

(** A run of four epochs whose hook covers the last two: the hook fires
    once, at epoch 2. *)
Example hook_fires_at_epoch_2 :
  hook_epochs 0
    (w_trace (snd (train_model (env := recent_env)
                     (example_run 4 1 5 50 (Some (example_cfg 2)))
                     [5; 6]%nat (example_world recent_env [] []))))
  = [2] /\
  w_augmentor (snd (train_model (env := recent_env)
                      (example_run 4 1 5 50 (Some (example_cfg 2)))
                      [5; 6]%nat (example_world recent_env [] [])))
  = DataAugmentor ["gt_sampling"%string; "random_world_flip"%string].
Proof. split; vm_compute; reflexivity. Qed.

(** ** Where an epoch starts *)

(** C10: with a positive number of iterations in each epoch, the loop of
    the epoch driver runs over the indexes from
    [accumulated_iter mod total_it_each_epoch] to [total_it_each_epoch - 1]:
    every status line carries an index of that range, with the counter
    that goes with it; no call takes more than
    [total_it_each_epoch - accumulated_iter mod total_it_each_epoch]
    training steps, a call that returns takes exactly as many, and it takes
    [total_it_each_epoch] of them only when the incoming counter is a
    multiple of [total_it_each_epoch]. *)
Theorem epoch_starts_at_remainder {env : Env} a train_loader accumulated_iter
    dataloader_iter w :
  let T := Epoch.total_it_each_epoch a in
  let start_it := accumulated_iter mod T in
  let r := train_one_epoch a train_loader accumulated_iter dataloader_iter w in
  0 < T ->
  exists evs,
    w_trace (snd r) = w_trace w ++ evs /\
    let n := Z.of_nat (List.length (model_batches evs)) in
    0 <= start_it < T /\
    n <= T - start_it /\
    Forall (fun sl => start_it <= sl_cur_it sl < T /\
                      sl_acc_iter sl = accumulated_iter + (sl_cur_it sl - start_it) + 1)
           (status_lines evs) /\
    match fst r with
    | Ok returned =>
        n = T - start_it /\
        returned = accumulated_iter + (T - start_it) /\
        (n = T <-> accumulated_iter mod T = 0)
    | Raise _ => True
    end.
Proof.
  intros T start_it r HT. subst r.
  pose proof (epoch_counter a train_loader accumulated_iter dataloader_iter w) as H.
  pose proof (epoch_status a train_loader accumulated_iter dataloader_iter w) as Hst.
  cbv zeta in H, Hst. fold T in H, Hst. fold start_it in H, Hst.
  destruct (train_one_epoch a train_loader accumulated_iter dataloader_iter w) as [res w'].
  destruct H as (evs & Hext & Hcount & Hle & Hres).
  destruct Hst as (evs' & Hext' & Hlines & _).
  assert (evs' = evs) as -> by (rewrite Hext in Hext'; now apply app_inv_head in Hext').
  assert (Hstart : 0 <= start_it < T) by (apply Z.mod_pos_bound; exact HT).
  exists evs. cbn [fst snd]. split; [exact Hext|]. cbv zeta.
  split; [exact Hstart|].
  destruct Hcount as (_ & _ & (Hn & _) & _).
  split; [lia|].
  split.
  { eapply List.Forall_impl; [|exact Hlines]. cbv beta.
    intros sl (Hr & _ & Hsl). split; [exact Hr|]. apply Hsl. }
  destruct res as [returned|e]; [|exact I].
  destruct Hres as (_ & Hn' & _ & ->). rewrite Hn'.
  rewrite Z2Nat.id by lia. split; [reflexivity|]. split; [reflexivity|].
  fold start_it. lia.
Qed.

(** A lead worker resumes at step 4 an epoch of three iterations: two
    iterations, of indexes 1 and 2, take the counter to 6, and the status line
    of the last one shows its index. *)
Lemma epoch_starts_at_remainder_witness :
  0 < Epoch.total_it_each_epoch (example_epoch 3 2 300 true) /\
  fst (train_one_epoch (env := recent_env) (example_epoch 3 2 300 true) [5; 6]%nat 4 0%nat
         (example_world recent_env [[7]%nat] [])) = Ok 6 /\
  map sl_cur_it
    (status_lines
       (w_trace (snd (train_one_epoch (env := recent_env) (example_epoch 3 2 300 true)
                        [5; 6]%nat 4 0%nat (example_world recent_env [[7]%nat] [])))))
  = [2].
Proof.
  split; [reflexivity|].
  destruct (epoch_starts_at_remainder (env := recent_env) (example_epoch 3 2 300 true)
              [5; 6]%nat 4 0%nat (example_world recent_env [[7]%nat] []) eq_refl)
    as (evs & Hext & _ & _ & _ & Hres).
  split.
  - destruct (fst _) as [returned|e] eqn:E in Hres |- *.
    + destruct Hres as (_ & -> & _). reflexivity.
    + vm_compute in E. discriminate E.
  - vm_compute. reflexivity.
Defined.

(** * Further properties of the drivers *)

(** ** Epoch boundaries *)

(** X1: with a positive number of iterations in each epoch, an epoch that
    returns leaves the global step counter on a multiple of
    [total_it_each_epoch], the next one above the incoming counter: a run
    resumed inside an epoch is back on the boundaries of the epochs after
    its first epoch. *)
Theorem epoch_ends_on_a_boundary {env : Env} a train_loader accumulated_iter
    dataloader_iter w :
  let T := Epoch.total_it_each_epoch a in
  let r := train_one_epoch a train_loader accumulated_iter dataloader_iter w in
  0 < T ->
  match fst r with
  | Ok returned =>
      returned mod T = 0 /\
      accumulated_iter < returned <= accumulated_iter + T /\
      returned = (accumulated_iter / T + 1) * T
  | Raise _ => True
  end.
Proof.
  intros T r HT. subst r.
  pose proof (epoch_counter a train_loader accumulated_iter dataloader_iter w) as H.
  cbv zeta in H. fold T in H.
  destruct (train_one_epoch a train_loader accumulated_iter dataloader_iter w)
    as [[returned|e] w']; cbn [fst]; [|exact I].
  destruct H as (evs & _ & _ & _ & _ & _ & _ & ->).
  pose proof (Z.mod_pos_bound accumulated_iter T HT) as Hb.
  pose proof (Z.div_mod accumulated_iter T ltac:(lia)) as Hdm.
  rewrite Z2Nat.id by lia.
  assert (Heq : accumulated_iter + (T - accumulated_iter mod T)
                = (accumulated_iter / T + 1) * T) by lia.
  split; [rewrite Heq; apply Z.mod_mul; lia|]. split; [lia|exact Heq].
Qed.

(** An epoch of three iterations resumed at step 4 ends at step 6. *)
Lemma epoch_ends_on_a_boundary_witness :
  0 < Epoch.total_it_each_epoch (example_epoch 3 2 300 true) /\
  fst (train_one_epoch (env := recent_env) (example_epoch 3 2 300 true) [5; 6]%nat 4 0%nat
         (example_world recent_env [[7]%nat] [])) = Ok ((4 / 3 + 1) * 3).
Proof.
  split; [reflexivity|].
  pose proof (epoch_ends_on_a_boundary (env := recent_env) (example_epoch 3 2 300 true)
                [5; 6]%nat 4 0%nat (example_world recent_env [[7]%nat] []) eq_refl) as H.
  cbv zeta in H.
  destruct (fst _) as [returned|e] eqn:E in H |- *.
  - destruct H as (_ & _ & ->). reflexivity.
  - vm_compute in E. discriminate E.
Defined.

(** ** The batches of an epoch *)

(** X2: when [total_it_each_epoch] is the length of the loader, as in every
    run that does not merge its epochs, each epoch starts on a fresh
    iterator whatever iterator it was given: its training steps get the
    batches of the loader in order from the first one and ['new iters'] is
    never printed. An epoch entered on a multiple of [total_it_each_epoch]
    that returns has trained on the whole loader, once; one resumed at
    [start_it] has trained on the first [total_it_each_epoch - start_it]
    batches, not on the batches from [start_it] on. *)
Theorem epoch_trains_on_the_loader_in_order {env : Env} a train_loader accumulated_iter
    dataloader_iter w :
  let T := Epoch.total_it_each_epoch a in
  let start_it := accumulated_iter mod T in
  let r := train_one_epoch a train_loader accumulated_iter dataloader_iter w in
  T = Z.of_nat (List.length train_loader) ->
  exists evs,
    w_trace (snd r) = w_trace w ++ evs /\
    model_batches evs = firstn (List.length (model_batches evs)) train_loader /\
    new_iters evs = [] /\
    match fst r with
    | Ok _ =>
        model_batches evs = firstn (Z.to_nat (T - start_it)) train_loader /\
        (start_it = 0 -> model_batches evs = train_loader)
    | Raise _ => True
    end.
Proof.
  intros T start_it r HT. subst r.
  destruct train_loader as [|b0 tl0] eqn:Etl.
  { cbn [List.length Z.of_nat] in HT.
    destruct (train_one_epoch_zero a [] accumulated_iter dataloader_iter w HT)
      as (Hr & Htr & _).
    destruct (train_one_epoch a [] accumulated_iter dataloader_iter w) as [res w'].
    cbn [fst snd] in *. subst res. exists []. rewrite List.app_nil_r.
    repeat split; try reflexivity. exact Htr. }
  rewrite <- Etl in *.
  assert (Htl : train_loader <> []) by (rewrite Etl; discriminate).
  assert (Hentry : entry_batches a train_loader dataloader_iter w = Some train_loader).
  { unfold entry_batches. fold T. rewrite HT, Z.eqb_refl. reflexivity. }
  pose proof (epoch_draws a train_loader accumulated_iter dataloader_iter w train_loader
                Htl Hentry) as H.
  cbv zeta in H. fold T in H. fold start_it in H.
  destruct (train_one_epoch a train_loader accumulated_iter dataloader_iter w) as [res w'].
  destruct H as (evs & Hext & Hdraw & (nf & Hnf & HnfN & Hnew) & Hres).
  assert (HTpos : 0 < T) by (rewrite HT, Etl; cbn [List.length]; lia).
  assert (Hstart : 0 <= start_it < T) by (apply Z.mod_pos_bound; exact HTpos).
  assert (HN : (Z.to_nat (T - start_it) <= List.length train_loader)%nat) by lia.
  exists evs. cbn [fst snd]. split; [exact Hext|].
  split.
  { rewrite Hdraw at 1. apply draw_firstn. lia. }
  split.
  { rewrite restarts_none in Hnew by lia.
    destruct (new_iters evs); [reflexivity|discriminate Hnew]. }
  destruct res as [returned|e]; [|exact I].
  destruct Hres as (Hn & _).
  assert (Hfirst : model_batches evs = firstn (Z.to_nat (T - start_it)) train_loader).
  { rewrite Hdraw, Hn. apply draw_firstn. exact HN. }
  split; [exact Hfirst|].
  intros H0. rewrite Hfirst, H0, Z.sub_0_r, HT, Nat2Z.id. apply firstn_all.
Qed.

(** An epoch of three iterations over a loader of three batches, resumed
    at step 4 with an iterator that has other batches left. *)
Lemma epoch_trains_on_the_loader_in_order_witness :
  Epoch.total_it_each_epoch (example_epoch 3 2 300 true)
  = Z.of_nat (List.length [5; 6; 9]%nat) /\
  model_batches
    (w_trace (snd (train_one_epoch (env := recent_env) (example_epoch 3 2 300 true)
                     [5; 6; 9]%nat 4 0%nat (example_world recent_env [[7; 8]%nat] []))))
  = [5; 6]%nat.
Proof.
  split; [reflexivity|].
  destruct (epoch_trains_on_the_loader_in_order (env := recent_env)
              (example_epoch 3 2 300 true) [5; 6; 9]%nat 4 0%nat
              (example_world recent_env [[7; 8]%nat] []) eq_refl)
    as (evs & Hext & _ & _ & Hres).
  cbn [example_world w_trace app] in Hext. rewrite Hext.
  destruct (fst _) as [returned|e] eqn:E in Hres.
  - destruct Hres as (-> & _). reflexivity.
  - vm_compute in E. discriminate E.
Defined.

(** ** Checkpoint files *)

(** X3: the step at the end of an epoch writes at most one file: none when
    it is not due or fails, and otherwise [checkpoint_epoch_<cur_epoch+1>.pth],
    holding the state of the model and the optimizer with [cur_epoch + 1]
    as its epoch and the counter it was given. The name matches the pattern
    the retention sweep lists, is not the name of the latest slot, and
    differs from the name of every other epoch: checkpoints of different
    epochs never overwrite each other. *)
Theorem epoch_checkpoints_have_their_own_names {env : Env} a cur_epoch accumulated_iter w :
  let r := save_trained_model a cur_epoch accumulated_iter w in
  let name := append (append "checkpoint_epoch_" (fmt_d (cur_epoch + 1))) ".pth" in
  exists evs,
    w_trace (snd r) = w_trace w ++ evs /\
    saved_files evs =
      match fst r with
      | Ok _ =>
          if save_due a cur_epoch
          then [(name, checkpoint_state (Some (w_model w)) (Some (w_optimizer w))
                                        (cur_epoch + 1) accumulated_iter)]
          else []
      | Raise _ => []
      end /\
    is_epoch_checkpoint name = true /\
    name <> "latest_model.pth"%string /\
    forall other_epoch, epoch_file_name other_epoch = name -> other_epoch = cur_epoch.
Proof.
  intros r name. subst r name.
  pose proof (save_trained_model_saves a cur_epoch accumulated_iter w) as H.
  destruct (save_trained_model a cur_epoch accumulated_iter w) as [res w'].
  destruct H as (evs & Hext & Hsaved).
  exists evs. cbn [fst snd]. split; [exact Hext|]. split; [exact Hsaved|].
  split; [apply epoch_name_matches|].
  split.
  { intros H. apply (f_equal (fun s => String.get 0 s)) in H. discriminate H. }
  intros other Hname. unfold epoch_file_name in Hname.
  apply append_inj_l, append_inj_r, fmt_d_inj in Hname. lia.
Qed.

(** X5: [model_state_to_cpu] changes nothing but the device: on a state
    with distinct keys the copy has the same keys in the same order with
    the same data, every tensor of it on the host; a state already on the
    host is copied as it is, and copying the copy changes nothing. *)
Theorem model_state_to_cpu_only_moves (model_state : StateDict) :
  let model_state_cpu := model_state_to_cpu model_state in
  List.NoDup (map fst model_state) ->
  map fst model_state_cpu = map fst model_state /\
  map (fun kv => t_data (snd kv)) model_state_cpu
    = map (fun kv => t_data (snd kv)) model_state /\
  Forall (fun kv => t_device (snd kv) = CPU) model_state_cpu /\
  (Forall (fun kv => on_host (snd kv) = true) model_state ->
   model_state_cpu = model_state) /\
  model_state_to_cpu model_state_cpu = model_state_cpu.
Proof.
  intros model_state_cpu Hkeys. subst model_state_cpu.
  rewrite (model_state_to_cpu_map model_state Hkeys).
  assert (Hk : map fst (map (fun kv : string * Tensor => (fst kv, cpu (snd kv))) model_state)
               = map fst model_state).
  { rewrite List.map_map. apply List.map_ext. reflexivity. }
  split; [exact Hk|].
  split; [rewrite List.map_map; apply List.map_ext; reflexivity|].
  split.
  { apply List.Forall_map. cbn [snd]. apply List.Forall_forall. intros kv _. reflexivity. }
  split.
  { intros Hhost. clear Hk Hkeys.
    induction Hhost as [|[k t] sd Ht Hsd IH]; [reflexivity|].
    cbn [map fst snd] in *. rewrite (cpu_on_host t Ht). f_equal. exact IH. }
  rewrite model_state_to_cpu_map by (rewrite Hk; exact Hkeys).
  rewrite List.map_map. apply List.map_ext. reflexivity.
Qed.

(** The state of a module with tensors on two devices. *)
Lemma model_state_to_cpu_only_moves_witness :
  List.NoDup (map fst (state_dict example_module)) /\
  model_state_to_cpu (model_state_to_cpu (state_dict example_module))
  = [("weight"%string, {| t_device := CPU; t_data := [1; 2]%Q |});
     ("bias"%string, {| t_device := CPU; t_data := [3]%Q |})].
Proof.
  assert (Hkeys : List.NoDup (map fst (state_dict example_module))).
  { cbn. repeat constructor; cbn; intuition discriminate. }
  split; [exact Hkeys|].
  destruct (model_state_to_cpu_only_moves (state_dict example_module) Hkeys)
    as (_ & _ & _ & _ & ->).
  reflexivity.
Defined.

(** ** The estimates of a status line *)

(** X6: in every status line the time for one iteration is the time elapsed
    since the inner progress bar was made divided by the number of
    iterations of this call so far, [cur_it - start_it + 1], which is at
    least one, so that the [max] of line 131 never applies. The remaining
    time of the epoch is that rate times [total_it_each_epoch - cur_it]
    iterations, at least one even at the last iteration, and the remaining
    time of the run is the rate times that number of iterations and
    [total_it_each_epoch] more for each epoch after the current one. *)
Theorem status_line_estimates {env : Env} a train_loader accumulated_iter
    dataloader_iter w :
  let T := Epoch.total_it_each_epoch a in
  let start_it := accumulated_iter mod T in
  let r := train_one_epoch a train_loader accumulated_iter dataloader_iter w in
  exists evs,
    w_trace (snd r) = w_trace w ++ evs /\
    Forall (fun sl =>
              let done := sl_cur_it sl - start_it + 1 in
              let rate :=
                ((time_time ElapsedForRate (Epoch.cur_epoch a) (sl_cur_it sl)
                  - time_time PbarCreated (Epoch.cur_epoch a) start_it)
                 / inject_Z done)%Q in
              let left_in_epoch := T - sl_cur_it sl in
              let later_epochs := Epoch.total_epochs a - Epoch.cur_epoch a - 1 in
              1 <= done /\
              1 <= left_in_epoch /\
              sl_remaining_second_each_epoch sl = (rate * inject_Z left_in_epoch)%Q /\
              sl_remaining_second_all sl =
                (rate * inject_Z (left_in_epoch + later_epochs * T))%Q)
           (status_lines evs).
Proof.
  intros T start_it r. subst r.
  pose proof (epoch_status a train_loader accumulated_iter dataloader_iter w) as H.
  cbv zeta in H. fold T in H. fold start_it in H.
  destruct (train_one_epoch a train_loader accumulated_iter dataloader_iter w) as [res w'].
  destruct H as (evs & Hext & Hlines & _).
  exists evs. cbn [snd]. split; [exact Hext|].
  eapply List.Forall_impl; [|exact Hlines]. cbv beta zeta.
  intros sl (Hr & _ & Hsl).
  destruct Hsl as (_ & _ & _ & _ & _ & Hepoch & Hall).
  unfold second_each_iter in Hepoch, Hall.
  rewrite py_max_one in Hepoch, Hall by lia.
  split; [lia|]. split; [lia|]. split; [exact Hepoch|].
  rewrite Hall. do 2 f_equal. fold T. ring.
Qed.

(** ** Workers other than the lead *)

(** X7: on a worker other than the lead an epoch touches no file of the
    checkpoint directory, and all it shows are the restarts of its
    iterator, the steps of its schedule, its training steps and the
    learning rate it sends to a log sink when it has one: no progress bar,
    no status line, no entry of the run tracker, no checkpoint. *)
Theorem epoch_off_the_lead_worker {env : Env} a train_loader accumulated_iter
    dataloader_iter w :
  let r := train_one_epoch a train_loader accumulated_iter dataloader_iter w in
  Epoch.rank a <> 0 ->
  w_files (snd r) = w_files w /\
  exists evs,
    w_trace (snd r) = w_trace w ++ evs /\
    forallb worker_event evs = true /\
    status_lines evs = [] /\ run_log_steps evs = [] /\ saved_files evs = [].
Proof.
  intros r Hrank. subst r.
  pose proof (epoch_follower a train_loader accumulated_iter dataloader_iter w Hrank) as H.
  destruct (train_one_epoch a train_loader accumulated_iter dataloader_iter w) as [res w'].
  destruct H as (Hfs & evs & Hext & Hev).
  cbn [snd]. split; [exact Hfs|]. exists evs. split; [exact Hext|]. split; [exact Hev|].
  clear Hext. induction evs as [|e evs IH]; [repeat split|].
  cbn [forallb] in Hev. apply andb_true_iff in Hev. destruct Hev as (He & Hev).
  destruct (IH Hev) as (H1 & H2 & H3).
  destruct e as [| | | | | | | | | | | [] | | | | | |]; try discriminate He;
    cbn [status_lines run_log_steps saved_files flat_map app]; auto.
Qed.

(** The second worker in an epoch of three iterations. *)
Lemma epoch_off_the_lead_worker_witness :
  Epoch.rank (epoch_on_rank 1 (example_epoch 3 2 300 true)) <> 0 /\
  w_trace (snd (train_one_epoch (env := recent_env)
                  (epoch_on_rank 1 (example_epoch 3 2 300 true)) [5; 6]%nat 0 0%nat
                  (example_world recent_env [[7]%nat] [])))
  = [EvLrStep (env := recent_env) lr_scheduler 0; EvModelFunc (env := recent_env) 7%nat;
     EvPrint "new iters"; EvLrStep lr_scheduler 1; EvModelFunc (env := recent_env) 5%nat;
     EvLrStep lr_scheduler 2; EvModelFunc (env := recent_env) 6%nat].
Proof.
  split; [discriminate|].
  destruct (epoch_off_the_lead_worker (env := recent_env)
              (epoch_on_rank 1 (example_epoch 3 2 300 true)) [5; 6]%nat 0 0%nat
              (example_world recent_env [[7]%nat] []) ltac:(discriminate))
    as (_ & evs & Hext & _).
  vm_compute. reflexivity.
Defined.

(** X8: on a worker other than the lead a whole run, whatever its end,
    writes and removes no file and opens no run-tracking session: besides
    what its epochs show, there are only the epochs handed out by the outer
    progress bar and to the sampler, and the line of the augmentation
    hook. *)
Theorem run_off_the_lead_worker {env : Env} a train_loader w :
  let r := train_model a train_loader w in
  Run.rank a <> 0 ->
  w_files (snd r) = w_files w /\
  exists evs,
    w_trace (snd r) = w_trace w ++ evs /\
    forallb follower_event evs = true /\
    saved_files evs = [] /\ status_lines evs = [] /\ run_log_steps evs = [].
Proof.
  intros r Hrank. subst r.
  pose proof (run_follower a train_loader w Hrank) as H.
  destruct (train_model a train_loader w) as [res w'].
  destruct H as (Hfs & evs & Hext & Hev).
  cbn [snd]. split; [exact Hfs|]. exists evs. split; [exact Hext|]. split; [exact Hev|].
  clear Hext. induction evs as [|e evs IH]; [repeat split|].
  cbn [forallb] in Hev. apply andb_true_iff in Hev. destruct Hev as (He & Hev).
  destruct (IH Hev) as (H1 & H2 & H3).
  destruct e as [| | | | | | | | | | | [] | | | | | |]; try discriminate He;
    cbn [status_lines run_log_steps saved_files flat_map app]; auto.
Qed.

(** The second worker in a run of two epochs over a loader of two
    batches. *)
Lemma run_off_the_lead_worker_witness :
  Run.rank (run_on_rank 1 (example_run 2 1 5 50 (Some (example_cfg 1)))) <> 0 /\
  saved_files
    (w_trace (snd (train_model (env := recent_env)
                     (run_on_rank 1 (example_run 2 1 5 50 (Some (example_cfg 1))))
                     [5; 6]%nat (example_world recent_env [] [])))) = [] /\
  model_batches
    (w_trace (snd (train_model (env := recent_env)
                     (run_on_rank 1 (example_run 2 1 5 50 (Some (example_cfg 1))))
                     [5; 6]%nat (example_world recent_env [] [])))) = [5; 6; 5; 6]%nat.
Proof.
  split; [discriminate|].
  destruct (run_off_the_lead_worker (env := recent_env)
              (run_on_rank 1 (example_run 2 1 5 50 (Some (example_cfg 1))))
              [5; 6]%nat (example_world recent_env [] []) ltac:(discriminate))
    as (_ & evs & Hext & _ & Hsaved & _).
  cbn [example_world w_trace app] in Hext. rewrite Hext.
  split; [exact Hsaved|]. rewrite <- Hext. vm_compute. reflexivity.
Defined.

(** ** Files the drivers have no name for *)

(** X9: over a whole run, whatever the limit of the retention sweep and
    whatever the end of the run, the files of the checkpoint directory that
    are neither epoch-numbered checkpoints nor the latest slot stay as they
    are, in the order they were in: the sweep removes nothing it did not
    list, and the saves overwrite nothing but their own files. *)
Theorem run_leaves_other_files {env : Env} a train_loader w :
  let w' := snd (train_model a train_loader w) in
  List.filter foreign (w_files w') = List.filter foreign (w_files w) /\
  forall f, In f (w_files w) ->
    is_epoch_checkpoint (f_name f) = false ->
    f_name f <> "latest_model.pth"%string ->
    In f (w_files w').
Proof.
  intros w'. subst w'.
  pose proof (run_foreign a train_loader w) as H.
  split; [exact H|].
  intros f Hin Hepoch Hlatest.
  assert (Hf : In f (List.filter foreign (w_files w))).
  { apply filter_In. split; [exact Hin|]. unfold foreign. rewrite Hepoch.
    apply String.eqb_neq in Hlatest. now rewrite Hlatest. }
  rewrite <- H in Hf. now apply filter_In in Hf.
Qed.

(** ** Runs that stop before their first training step *)

(** X10: a run with epochs to go and no [cfg], which is the default of
    that argument, raises [AttributeError] at the hook of its first epoch:
    no step of a schedule and no training step is taken, and nothing is
    written or removed. *)
Theorem run_without_cfg_stops_at_the_hook {env : Env} a train_loader w :
  let r := train_model a train_loader w in
  Run.cfg a = None ->
  Run.start_epoch a < Run.total_epochs a ->
  run_loader a train_loader <> None ->
  fst r = Raise AttributeError /\
  w_files (snd r) = w_files w /\
  w_augmentor (snd r) = w_augmentor w /\
  exists evs,
    w_trace (snd r) = w_trace w ++ evs /\
    lr_steps evs = [] /\ model_batches evs = [] /\ hook_firings evs = [].
Proof.
  intros r Hcfg Hlt Hloader. subst r.
  destruct (run_loader a train_loader) as [[tl' T]|] eqn:E; [|contradiction].
  rewrite (run_without_cfg a train_loader w tl' T Hcfg Hlt E).
  cbn [fst snd]. split; [reflexivity|].
  unfold first_epoch_entry, run_entry. cbv zeta.
  destruct (Run.rank a =? 0), (Run.train_sampler a);
    cbn [w_files w_augmentor w_trace set_trace set_iters];
    (split; [reflexivity|]); (split; [reflexivity|]);
    eexists; rewrite <- ?List.app_assoc; (split; [reflexivity|]);
    repeat split; reflexivity.
Qed.

(** A run of two epochs called without [cfg]. *)
Lemma run_without_cfg_stops_at_the_hook_witness :
  Run.cfg (example_run 2 1 5 50 None) = None /\
  Run.start_epoch (example_run 2 1 5 50 None) < Run.total_epochs (example_run 2 1 5 50 None) /\
  run_loader (env := recent_env) (example_run 2 1 5 50 None) [5; 6]%nat <> None /\
  fst (train_model (env := recent_env) (example_run 2 1 5 50 None) [5; 6]%nat
         (example_world recent_env [] [])) = Raise AttributeError.
Proof.
  split; [reflexivity|]. split; [reflexivity|]. split; [discriminate|].
  apply (run_without_cfg_stops_at_the_hook (env := recent_env) (example_run 2 1 5 50 None)
           [5; 6]%nat (example_world recent_env [] [])
           eq_refl eq_refl ltac:(discriminate)).
Defined.

(** X11: a run with epochs to go over a loader that gives no iteration
    to an epoch, as a loader without batches does, raises
    [ZeroDivisionError] at line 30 of its first epoch, after the hook:
    no step of a schedule and no training step is taken, and nothing is
    written or removed. *)
Theorem run_without_batches_divides_by_zero {env : Env} a train_loader w merged :
  let r := train_model a train_loader w in
  Run.cfg a <> None ->
  Run.start_epoch a < Run.total_epochs a ->
  run_loader a train_loader = Some (merged, 0) ->
  fst r = Raise ZeroDivisionError /\
  w_files (snd r) = w_files w /\
  exists evs,
    w_trace (snd r) = w_trace w ++ evs /\
    lr_steps evs = [] /\ model_batches evs = [].
Proof.
  intros r Hcfg Hlt Hloader. subst r.
  rewrite train_model_unfold, Hloader. cbv zeta.
  rewrite for_range_first by exact Hlt.
  unfold run_epoch. unfold bind, when, emit, emit_all, modify, ret.
  assert (Hentry : w_files (run_entry a w) = w_files w /\
                   exists ev0, w_trace (run_entry a w) = w_trace w ++ ev0 /\
                     lr_steps ev0 = [] /\ model_batches ev0 = []).
  { unfold run_entry. destruct (Run.rank a =? 0); cbn [w_files w_trace set_trace].
    - split; [reflexivity|]. eexists. split; [reflexivity|]. split; reflexivity.
    - split; [reflexivity|]. exists []. rewrite List.app_nil_r. repeat split. }
  destruct Hentry as (Hfs0 & ev0 & Htr0 & Hlr0 & Hmb0).
  destruct (Run.train_sampler a); cbn beta iota.
  all: match goal with
       | |- context [disable_augmentation_hook ?a ?e ?flag ?w2] =>
           pose proof (hook_files a e flag w2) as Hhook;
           pose proof (hook_spec a e flag w2) as Hspec; cbv zeta in Hspec;
           destruct (disable_augmentation_hook a e flag w2) as [[flag'|ex] w3]
       end; cbn [snd] in Hhook; destruct Hspec as (_ & Htr3 & Hr3);
       cbn [w_files w_trace w_iters set_trace set_iters] in Hhook, Htr3.
  all: try contradiction.
  all: match goal with
       | |- context [train_one_epoch ?x ?y ?z ?u ?w3] =>
           destruct (train_one_epoch_zero x y z u w3 eq_refl) as (Hr & Htr & Hfs & _);
           destruct (train_one_epoch x y z u w3) as [r4 w4]
       end; cbn [fst snd] in *; subst r4.
  all: split; [reflexivity|]; cbn [snd]; split; [congruence|].
  all: eexists; rewrite Htr, Htr3, Htr0, <- ?List.app_assoc; (split; [reflexivity|]).
  all: autorewrite with observe; rewrite Hlr0, Hmb0;
       destruct (hook_fires _ _ _); split; reflexivity.
Qed.

(** A run of two epochs over a loader without batches. *)
Lemma run_without_batches_divides_by_zero_witness :
  Run.cfg (example_run 2 1 5 50 (Some {| HOOK := None |})) <> None /\
  Run.start_epoch (example_run 2 1 5 50 (Some {| HOOK := None |}))
  < Run.total_epochs (example_run 2 1 5 50 (Some {| HOOK := None |})) /\
  run_loader (env := recent_env) (example_run 2 1 5 50 (Some {| HOOK := None |})) []
  = Some ([], 0) /\
  fst (train_model (env := recent_env) (example_run 2 1 5 50 (Some {| HOOK := None |})) []
         (example_world recent_env [] [])) = Raise ZeroDivisionError.
Proof.
  split; [discriminate|]. split; [reflexivity|]. split; [reflexivity|].
  apply (run_without_batches_divides_by_zero (env := recent_env)
           (example_run 2 1 5 50 (Some {| HOOK := None |})) []
           (example_world recent_env [] []) []
           ltac:(discriminate) eq_refl eq_refl).
Defined.

(** ** The latest slot and the other files *)

(** X13: an epoch, whatever its end, changes no file of the checkpoint
    directory but the latest slot: the other files stay as they are, in the
    order they were in, the epoch-numbered checkpoints among them. After
    the epoch the slot holds the record written to it last, and what it
    held before when the epoch wrote none. *)
Theorem epoch_writes_only_the_latest_slot {env : Env} a train_loader accumulated_iter
    dataloader_iter w :
  let r := train_one_epoch a train_loader accumulated_iter dataloader_iter w in
  List.filter not_latest (w_files (snd r)) = List.filter not_latest (w_files w) /\
  epoch_checkpoints (w_files (snd r)) = epoch_checkpoints (w_files w) /\
  exists evs,
    w_trace (snd r) = w_trace w ++ evs /\
    latest_slot (w_files (snd r)) =
      match rev (latest_saves evs) with
      | [] => latest_slot (w_files w)
      | state :: _ => Some state
      end.
Proof.
  intros r. subst r.
  pose proof (epoch_latest_slot a train_loader accumulated_iter dataloader_iter w) as H.
  pose proof (epoch_quiet a train_loader accumulated_iter dataloader_iter w) as Hq.
  destruct (train_one_epoch a train_loader accumulated_iter dataloader_iter w) as [res w'].
  destruct H as (Hfs & evs & Hext & Hslot). destruct Hq as (_ & Hepoch & _).
  cbn [snd]. split; [exact Hfs|]. split; [exact Hepoch|].
  exists evs. split; [exact Hext|exact Hslot].
Qed.

(** ** The schedule of an epoch *)

(** X14: over a run, whatever its end, every step of a schedule taken in an
    epoch is a step of the warmup schedule when one was given and the epoch
    is before [WARMUP_EPOCH], and a step of the main schedule otherwise. *)
Theorem warmup_schedule_before_warmup_epoch {env : Env} a train_loader w :
  let r := train_model a train_loader w in
  exists evs,
    w_trace (snd r) = w_trace w ++ evs /\
    forall cur,
      Forall (fun p =>
                snd p =
                  if Run.lr_warmup_scheduler a && (fst p <? WARMUP_EPOCH (Run.optim_cfg a))
                  then lr_warmup_scheduler
                  else lr_scheduler)
             (epoch_schedulers cur evs).
Proof.
  intros r. subst r.
  pose proof (run_steps a train_loader w) as H.
  destruct (train_model a train_loader w) as [res w'].
  destruct H as (evs & Hext & Hall).
  exists evs. cbn [snd]. split; [exact Hext|]. exact Hall.
Qed.

(** ** What a run saves *)

(** X15: every file a run writes, whatever its end, is the latest slot or
    the checkpoint of one of its epochs [e], under the name
    [checkpoint_epoch_<e+1>.pth]; the record of such a checkpoint has [e + 1]
    as its epoch and, as its counter, a multiple of the iterations of an
    epoch. A run resumed from an epoch-numbered checkpoint therefore starts
    its first epoch at the first iteration. *)
Theorem epoch_checkpoints_record_a_boundary {env : Env} a train_loader w :
  let r := train_model a train_loader w in
  exists evs,
    w_trace (snd r) = w_trace w ++ evs /\
    Forall (fun q =>
              fst q = "latest_model.pth"%string \/
              exists e T,
                Run.start_epoch a <= e < Run.total_epochs a /\
                option_map snd (run_loader a train_loader) = Some T /\
                fst q = append (append "checkpoint_epoch_" (fmt_d (e + 1))) ".pth" /\
                ck_epoch (snd q) = e + 1 /\
                ck_it (snd q) mod T = 0)
           (saved_files evs).
Proof.
  intros r. subst r.
  pose proof (run_saved a train_loader w) as H.
  destruct (train_model a train_loader w) as [res w'].
  destruct H as (evs & Hext & Hall).
  exists evs. cbn [snd]. split; [exact Hext|].
  eapply List.Forall_impl; [|exact Hall]. cbv beta.
  intros q (e & T & He & HT & [Hlatest|Hepoch]); [left; exact Hlatest|].
  right. exists e, T. split; [exact He|]. split; [exact HT|]. exact Hepoch.
Qed.

(** ** The iterator of the caller *)

(** X16: when [total_it_each_epoch] is not the length of the loader, as in
    a run that merges its epochs, an epoch draws from the iterator it was
    given, and the iterator it makes at an exhaustion stays its own. After
    an epoch that returns, the iterator of the caller has lost one batch
    for each training step taken before it gave out, and is left exhausted
    when the epoch took more steps than it had batches: the next epoch
    given that iterator starts with a restart from the first batch of the
    loader. *)
Theorem restarted_iterator_stays_in_the_epoch {env : Env} a train_loader accumulated_iter
    dataloader_iter w cur :
  let T := Epoch.total_it_each_epoch a in
  let N := Z.to_nat (T - accumulated_iter mod T) in
  let r := train_one_epoch a train_loader accumulated_iter dataloader_iter w in
  train_loader <> [] ->
  T <> Z.of_nat (List.length train_loader) ->
  w_iters w !! dataloader_iter = Some cur ->
  exists evs,
    w_trace (snd r) = w_trace w ++ evs /\
    match fst r with
    | Ok _ =>
        w_iters (snd r) !! dataloader_iter = Some (skipn N cur) /\
        ((List.length cur <= N)%nat -> w_iters (snd r) !! dataloader_iter = Some []) /\
        model_batches evs = draw N cur train_loader /\
        List.length (new_iters evs) = restarts N cur train_loader
    | Raise _ => True
    end.
Proof.
  intros T N r Htl Hlen Hcur. subst r.
  assert (Hentry : entry_batches a train_loader dataloader_iter w = Some cur).
  { unfold entry_batches. fold T. apply Z.eqb_neq in Hlen. now rewrite Hlen. }
  pose proof (epoch_draws a train_loader accumulated_iter dataloader_iter w cur Htl Hentry)
    as Hdraw.
  pose proof (epoch_handback a train_loader accumulated_iter dataloader_iter w cur
                Htl Hlen Hcur) as Hback.
  cbv zeta in Hdraw, Hback. fold T in Hdraw, Hback. fold N in Hdraw, Hback.
  destruct (train_one_epoch a train_loader accumulated_iter dataloader_iter w)
    as [[returned|e] w'].
  - destruct Hdraw as (evs & Hext & Hmb & _ & Hn & Hnew).
    exists evs. cbn [fst snd]. split; [exact Hext|].
    split; [exact Hback|].
    split; [intros Hshort; rewrite Hback; f_equal; now apply skipn_all2|].
    split; [now rewrite Hmb, Hn|exact Hnew].
  - destruct Hdraw as (evs & Hext & _). exists evs. cbn [fst snd]. split; [exact Hext|exact I].
Qed.

(** An epoch of three iterations over a loader of two batches, given an
    iterator with one batch left. *)
Lemma restarted_iterator_stays_in_the_epoch_witness :
  [5; 6]%nat <> [] /\
  Epoch.total_it_each_epoch (example_epoch 3 2 300 true)
  <> Z.of_nat (List.length [5; 6]%nat) /\
  w_iters (example_world recent_env [[7]%nat] []) !! 0%nat = Some [7]%nat /\
  w_iters (snd (train_one_epoch (env := recent_env) (example_epoch 3 2 300 true)
                  [5; 6]%nat 0 0%nat (example_world recent_env [[7]%nat] []))) !! 0%nat
  = Some [].
Proof.
  split; [discriminate|]. split; [discriminate|]. split; [reflexivity|].
  destruct (restarted_iterator_stays_in_the_epoch (env := recent_env)
              (example_epoch 3 2 300 true) [5; 6]%nat 0 0%nat
              (example_world recent_env [[7]%nat] []) [7]%nat
              ltac:(discriminate) ltac:(discriminate) eq_refl)
    as (evs & _ & Hres).
  destruct (fst _) as [returned|e] eqn:E in Hres.
  - destruct Hres as (_ & Hshort & _). apply Hshort. vm_compute. repeat constructor.
  - vm_compute in E. discriminate E.
Defined.
